(** * Desktop agent: perception, validation and actuation

    A shallow embedding of the safety-relevant core of the desktop agent:
    - [src/utils/task_tracker.py] and [RealDesktopAgent.execute_user_command]
      (the task-execution engine),
    - [src/config.py] and [src/components/controller.py] (validator,
      confirmation gate, screen interaction, controller),
    - [SafetyMonitor] of [src/advanced_features.py],
    - [UIElementParser] and [Perceiver._calculate_confidence] of
      [src/components/perceiver.py],
    - [RealDesktopAgent.refactor_user_prompt] (the task decomposer).

    Conventions.  Python [int] is [Z]; Python [float] is modelled by the
    rationals [Q] (the claims only compare and average small values);
    Python [str] is [string], read as ASCII text; a [dict] is an association
    list in insertion order.  The outside world (the user, the GUI toolkit,
    the language-model backend, the outcome of a GUI operation) is an
    explicit oracle argument, and every GUI operation performed is recorded
    in a trace. *)

From Stdlib Require Import ZArith QArith Qminmax Qround Bool List String Ascii Lia.
From Stdlib Require Import DecimalString.
From Stdlib Require Import Sorting.Sorted Sorting.Permutation.
Import ListNotations.

Local Open Scope string_scope.
Local Open Scope list_scope.
Local Open Scope Z_scope.

(* ================================================================== *)
(** * Python strings, values and dictionaries *)
(* ================================================================== *)

Module Py.

Definition code (c : ascii) : N := N_of_ascii c.

(** [str.lower] on one character: only A-Z change. *)
Definition lower_char (c : ascii) : ascii :=
  if ((65 <=? code c) && (code c <=? 90))%N then ascii_of_N (code c + 32) else c.

Fixpoint lower (s : string) : string :=
  match s with
  | EmptyString => EmptyString
  | String c s' => String (lower_char c) (lower s')
  end.

(** [sub in s]. *)
Fixpoint contains (sub s : string) : bool :=
  if prefix sub s then true
  else match s with
       | EmptyString => false
       | String _ s' => contains sub s'
       end.

Definition startswith (s p : string) : bool := prefix p s.

(** Characters removed by [str.strip()]. *)
Definition is_space (c : ascii) : bool :=
  let n := code c in
  ((9 <=? n) && (n <=? 13) || (28 <=? n) && (n <=? 32))%N.

Fixpoint lstrip (s : string) : string :=
  match s with
  | EmptyString => EmptyString
  | String c s' => if is_space c then lstrip s' else s
  end.

Fixpoint rev_acc (s acc : string) : string :=
  match s with
  | EmptyString => acc
  | String c s' => rev_acc s' (String c acc)
  end.

Definition rev (s : string) : string := rev_acc s EmptyString.

Definition rstrip (s : string) : string := rev (lstrip (rev s)).

Definition strip (s : string) : string := rstrip (lstrip s).

(** Truth value of a string: non-empty. *)
Definition truthy (s : string) : bool :=
  match s with EmptyString => false | _ => true end.

(** [s.split(sep)] for a non-empty [sep]: [skip] counts the characters of
    a matched separator still to be dropped, [cur] is the current piece
    in reverse. *)
Fixpoint split_aux (sep : string) (skip : nat) (cur : string) (s : string)
    : list string :=
  match s with
  | EmptyString => [rev cur]
  | String c s' =>
    match skip with
    | S k => split_aux sep k cur s'
    | O =>
      if prefix sep s
      then rev cur :: split_aux sep (String.length sep - 1) EmptyString s'
      else split_aux sep 0 (String c cur) s'
    end
  end.

Definition split (sep s : string) : list string :=
  split_aux sep 0 EmptyString s.

(** [s.replace(old, new)] for a non-empty [old]. *)
Fixpoint replace_aux (old new : string) (skip : nat) (s : string) : string :=
  match s with
  | EmptyString => EmptyString
  | String c s' =>
    match skip with
    | S k => replace_aux old new k s'
    | O =>
      if prefix old s
      then (new ++ replace_aux old new (String.length old - 1) s')%string
      else String c (replace_aux old new 0 s')
    end
  end.

Definition replace (old new s : string) : string := replace_aux old new 0 s.

(** Values found in action dictionaries.  [VOther] is any other
    non-numeric object, known by its [repr] and its truth value. *)
Inductive value :=
| VStr (s : string)
| VInt (z : Z)
| VBool (b : bool)
| VNone
| VOther (repr : string) (truth : bool).

Definition dict := list (string * value).

Fixpoint get (d : dict) (k : string) : option value :=
  match d with
  | [] => None
  | (k', v) :: d' => if String.eqb k' k then Some v else get d' k
  end.

Definition has_key (d : dict) (k : string) : bool :=
  match get d k with Some _ => true | None => false end.

Definition get_default (d : dict) (k : string) (dflt : value) : value :=
  match get d k with Some v => v | None => dflt end.

(** Truth value of an object. *)
Definition truth (v : value) : bool :=
  match v with
  | VStr s => truthy s
  | VInt z => negb (z =? 0)
  | VBool b => b
  | VNone => false
  | VOther _ t => t
  end.

(** The integer denoted by a numeric object ([bool] is a subtype of
    [int]); [None] where arithmetic on the object raises. *)
Definition to_int (v : value) : option Z :=
  match v with
  | VInt z => Some z
  | VBool true => Some 1
  | VBool false => Some 0
  | _ => None
  end.

Definition hex_digit (n : N) : ascii :=
  if (n <? 10)%N then ascii_of_N (48 + n) else ascii_of_N (87 + n).

Definition quote1 : ascii := "'"%char.
Definition quote2 : ascii := ascii_of_N 34.
Definition backslash : ascii := ascii_of_N 92.

(** One character inside a string literal delimited by [q]. *)
Definition repr_char (q c : ascii) : string :=
  let n := code c in
  if Ascii.eqb c q || Ascii.eqb c backslash
    then String backslash (String c EmptyString)
  else if (n =? 9)%N then String backslash "t"
  else if (n =? 10)%N then String backslash "n"
  else if (n =? 13)%N then String backslash "r"
  else if ((n <? 32) || (n =? 127))%N
    then String backslash
           (String "x" (String (hex_digit (n / 16))
                          (String (hex_digit (n mod 16)) EmptyString)))
  else String c EmptyString.

Fixpoint repr_chars (q : ascii) (s : string) : string :=
  match s with
  | EmptyString => EmptyString
  | String c s' => (repr_char q c ++ repr_chars q s')%string
  end.

(** [repr] of a string: single quotes unless the text has a single quote
    and no double quote. *)
Definition repr_str (s : string) : string :=
  let q := if contains (String quote1 EmptyString) s
              && negb (contains (String quote2 EmptyString) s)
           then quote2 else quote1 in
  String q (repr_chars q s ++ String q EmptyString).

Definition repr_int (z : Z) : string := NilZero.string_of_int (Z.to_int z).

Definition repr (v : value) : string :=
  match v with
  | VStr s => repr_str s
  | VInt z => repr_int z
  | VBool true => "True"
  | VBool false => "False"
  | VNone => "None"
  | VOther r _ => r
  end.

Fixpoint repr_items (d : dict) : string :=
  match d with
  | [] => EmptyString
  | (k, v) :: d' =>
    match d' with
    | [] => repr_str k ++ ": " ++ repr v
    | _ => repr_str k ++ ": " ++ repr v ++ ", " ++ repr_items d'
    end
  end%string.

(** [str(d)] of a dictionary. *)
Definition str_dict (d : dict) : string := ("{" ++ repr_items d ++ "}")%string.

(** [int(x * f)] for an integer [x] and a factor [f]: truncation towards
    zero of the exact product.  The source multiplies in binary floating
    point, which agrees with the exact product where that product is
    representable: for the factor 1.0 (no scaling) and [x] up to 2^53 in
    particular, but not for every factor ([int(100 * 1.15)] is 114). *)
Definition int_mul (x : Z) (f : Q) : Z :=
  Z.quot (x * Qnum f) (Z.pos (Qden f)).

End Py.

(* ================================================================== *)
(** * [src/config.py] *)
(* ================================================================== *)

Module Config.

(** The fields of [ControllerConfig] and [PerceiverConfig] that the
    modelled code reads. *)
Record t := mkConfig {
  safe_mode : bool;
  confirm_sensitive_actions : bool;
  min_ocr_confidence : Q;
  enable_ui_parsing : bool;
  enable_vlm_description : bool
}.

Definition CONFIG : t := mkConfig true true (6 # 10) true true.

Definition ACTION_SAFETY_LEVELS : list (string * Z) :=
  [ ("click", 0); ("type", 1); ("key_press", 1); ("scroll", 0); ("drag", 1);
    ("file_operation", 3); ("system_command", 3); ("password_entry", 3) ].

Definition SENSITIVE_KEYWORDS : list string :=
  [ "password"; "credit card"; "delete"; "format"; "sudo"; "admin";
    "system32"; "registry"; "rm -rf"; "del /f"; "format c:" ].

Fixpoint lookup {A} (tbl : list (string * A)) (k : string) : option A :=
  match tbl with
  | [] => None
  | (k', v) :: tbl' => if String.eqb k' k then Some v else lookup tbl' k
  end.

End Config.

(* ================================================================== *)
(** * The task-execution engine *)
(* ================================================================== *)

(** ** [src/utils/task_tracker.py] *)
Module TaskTracker.

(** The summary dictionary returned by [complete_task] (times left out). *)
Record summary := mkSummary {
  s_success : bool;
  s_total_steps : Z;
  s_completed_steps : Z;
  s_failed_steps : Z;
  s_completion_rate : Q
}.

(** The tracker object.  [active] stands for [current_session_id] being
    set (its value is a time stamp). *)
Record t := mkTracker {
  active : bool;
  current_command : string;
  current_steps : list string;
  completed_steps : list (Z * string);
  failed_steps : list (Z * string)
}.

Definition init : t := mkTracker false EmptyString [] [] [].

Definition start_new_task (command : string) (steps : list string) (_ : t) : t :=
  mkTracker true command steps [] [].

Definition mark_step_complete (step_idx : Z) (step_text : string)
    (success : bool) (tr : t) : t :=
  if negb (active tr) then tr
  else if success then
    mkTracker (active tr) (current_command tr) (current_steps tr)
              (completed_steps tr ++ [(step_idx, step_text)]) (failed_steps tr)
  else
    mkTracker (active tr) (current_command tr) (current_steps tr)
              (completed_steps tr) (failed_steps tr ++ [(step_idx, step_text)]).

Definition _reset (_ : t) : t := init.

Definition len {A} (l : list A) : Z := Z.of_nat (List.length l).

(** [complete_task]: [None] is the empty dictionary returned without an
    active session. *)
Definition complete_task (success : bool) (tr : t) : option summary * t :=
  if negb (active tr) then (None, tr)
  else
    let total_steps := len (current_steps tr) in
    let completed := len (completed_steps tr) in
    let failed := len (failed_steps tr) in
    let completion_rate :=
      if 0 <? total_steps then (inject_Z completed / inject_Z total_steps)%Q
      else 0%Q in
    (Some (mkSummary success total_steps completed failed completion_rate),
     _reset tr).

End TaskTracker.

(** ** [RealDesktopAgent.execute_user_command], after decomposition *)
Module Engine.
Import TaskTracker.

Definition max_retries : Z := 2.

(** The outcome of [handle_complex_open_command] on the step at 1-based
    position [idx], at its attempt number [retry_count] (0 for the first
    attempt). *)
Definition handler := Z -> Z -> bool.

(** The test guarding the abort, as written in the source:
    [idx <= 2 or idx >= total_steps - 1]. *)
Definition is_critical (idx total_steps : Z) : bool :=
  (idx <=? 2) || (idx >=? total_steps - 1).

(** The engine's local variables, the tracker, and the list of handler
    calls made so far (position, attempt), most recent last. *)
Record state := mkState {
  successful_steps : Z;
  failed_steps : Z;
  tracker : TaskTracker.t;
  last_summary : option TaskTracker.summary;
  calls : list (Z * Z)
}.

Definition init_state (command : string) (steps : list string) : state :=
  mkState 0 0 (start_new_task command steps TaskTracker.init) None [].

(** How the inner [while] loop of one step ends. *)
Inductive step_end :=
| Succeeded          (* handler returned True: the while condition fails *)
| Continue           (* retries exhausted, non-critical: [break] *)
| Abort.             (* retries exhausted, critical: [return False] *)

(** The [while not success and retry_count <= max_retries] loop.  [fuel]
    bounds the number of iterations; [max_retries + 1] always suffices. *)
Fixpoint attempts (fuel : nat) (h : handler) (idx total_steps : Z)
    (step : string) (retry_count : Z) (st : state) : step_end * state :=
  match fuel with
  | O => (Continue, st)
  | S fuel' =>
    if retry_count <=? max_retries then
      let st1 := mkState (successful_steps st) (failed_steps st) (tracker st)
                   (last_summary st) (calls st ++ [(idx, retry_count)]) in
      if h idx retry_count then
        (Succeeded,
         mkState (successful_steps st1 + 1) (failed_steps st1)
           (mark_step_complete (idx - 1) step true (tracker st1))
           (last_summary st1) (calls st1))
      else
        let retry_count := retry_count + 1 in
        if retry_count >? max_retries then
          let st2 := mkState (successful_steps st1) (failed_steps st1 + 1)
                       (mark_step_complete (idx - 1) step false (tracker st1))
                       (last_summary st1) (calls st1) in
          if is_critical idx total_steps then
            let '(summ, tr) := complete_task false (tracker st2) in
            (Abort, mkState (successful_steps st2) (failed_steps st2) tr
                      summ (calls st2))
          else (Continue, st2)
        else attempts fuel' h idx total_steps step retry_count st1
    else (Continue, st)
  end.

(** What [execute_user_command] returns, with the final state. *)
Record outcome := mkOutcome {
  returned : bool;
  aborted : bool;
  final : state
}.

(** The report after the [for] loop. *)
Definition report (total_steps : Z) (st : state) : outcome :=
  if successful_steps st =? total_steps then
    let '(summ, tr) := complete_task true (tracker st) in
    mkOutcome true false
      (mkState (successful_steps st) (failed_steps st) tr summ (calls st))
  else
    let completion_rate := (inject_Z (successful_steps st) / inject_Z total_steps)%Q in
    let ok := Qle_bool (3 # 4) completion_rate in
    let '(summ, tr) := complete_task ok (tracker st) in
    mkOutcome ok false
      (mkState (successful_steps st) (failed_steps st) tr summ (calls st)).

(** The [for idx, step in enumerate(steps, start=1)] loop. *)
Fixpoint for_steps (h : handler) (total_steps : Z) (idx : Z)
    (steps : list string) (st : state) : outcome :=
  match steps with
  | [] => report total_steps st
  | step :: rest =>
    match attempts (Z.to_nat (max_retries + 1)) h idx total_steps step 0 st with
    | (Abort, st') => mkOutcome false true st'
    | (_, st') => for_steps h total_steps (idx + 1) rest st'
    end
  end.

(** The body of [execute_user_command] once [steps] is known; an empty
    plan is refused before anything is tracked. *)
Definition run_plan (h : handler) (command : string) (steps : list string)
    : outcome :=
  match steps with
  | [] => mkOutcome false false (mkState 0 0 TaskTracker.init None [])
  | _ => for_steps h (len steps) 1 steps (init_state command steps)
  end.

End Engine.

(* ================================================================== *)
(** * [src/components/controller.py] *)
(* ================================================================== *)

Module Controller.
Import Py Config.

(** ** The outside world *)

(** What the code asks of the outside world, in the order it asks. *)
Inductive event :=
| EvClick (x y : Z) (button clicks : value)   (* pyautogui.click *)
| EvMoveTo (x y : Z)                          (* pyautogui.moveTo *)
| EvDrag (dx dy : Z)                          (* pyautogui.drag *)
| EvXdotool (text : string)                   (* xdotool type *)
| EvWrite (text : string)                     (* pyautogui.write *)
| EvHotkey (keys : list string)               (* pyautogui.hotkey *)
| EvPress (key : string)                      (* pyautogui.press *)
| EvScroll (amount : Z)                       (* pyautogui.scroll *)
| EvPopen (argv : list value)                 (* subprocess.Popen *)
| EvTerminate (pid : Z)                       (* psutil terminate *)
| EvSleep                                     (* time.sleep *)
| EvDialog (action : dict)                    (* messagebox.askyesno *)
| EvConsole (action : dict).                  (* print and input *)

(** The events that act on the desktop. *)
Definition is_input (e : event) : bool :=
  match e with
  | EvSleep | EvDialog _ | EvConsole _ => false
  | _ => true
  end.

Inductive platform := Windows | Linux | OtherOS.

Inductive import_outcome := ImportOk | ImportFails | ImportRaisesOther.

Record world := mkWorld {
  cfg : Config.t;
  screen_width : Z;                  (* pyautogui.size() *)
  screen_height : Z;
  scaling_factor : Q;                (* screen_info["scaling"] *)
  os : platform;
  gui_ok : event -> bool;            (* false: the call raises *)
  popen_pid : Z;
  tkinter_found : bool;              (* find_spec("tkinter") is not None *)
  messagebox_import : import_outcome;
  dialog_answer : dict -> option bool;     (* None: askyesno raises *)
  console_answer : dict -> option string   (* None: input raises *)
}.

Definition trace := list event.

(** ** [ActionResult] *)

Inductive error :=
| Msg (text : string)
| ExcText.            (* [str(e)] of a caught exception *)

Record ActionResult := mkResult {
  success : bool;
  action_type : value;
  details : dict;
  error_of : option error;
  confirmation_required : bool
}.

(** ** [ActionValidator] *)

Inductive verdict :=
| Raises                                   (* [.lower()] on a non-string *)
| Verdict (is_valid : bool) (error_message : option string)
          (requires_confirmation : bool).

(** [action.get("type", "").lower()]. *)
Definition type_lower (action : dict) : option string :=
  match get action "type" with
  | None => Some EmptyString
  | Some (VStr s) => Some (lower s)
  | Some _ => None
  end.

Definition keyword_hit (keywords : list string) (action : dict) : bool :=
  let action_text := lower (str_dict action) in
  existsb (fun keyword => contains keyword action_text) keywords.

Definition validate_action (c : Config.t) (action : dict) : verdict :=
  match type_lower action with
  | None => Raises
  | Some action_type =>
    match lookup ACTION_SAFETY_LEVELS action_type with
    | None =>
      Verdict false (Some ("Unsupported action type: " ++ action_type)%string) false
    | Some safety_level =>
      let requires_confirmation := (safety_level >=? 3) || negb (safe_mode c) in
      let requires_confirmation :=
        if keyword_hit SENSITIVE_KEYWORDS action then true
        else requires_confirmation in
      if String.eqb action_type "click" then
        if negb (has_key action "x") || negb (has_key action "y")
        then Verdict false (Some "Click action missing coordinates") false
        else Verdict true None requires_confirmation
      else if String.eqb action_type "type" then
        if negb (has_key action "text")
        then Verdict false (Some "Type action missing text") false
        else Verdict true None requires_confirmation
      else if String.eqb action_type "key_press" then
        if negb (has_key action "key")
        then Verdict false (Some "Key press action missing key") false
        else Verdict true None requires_confirmation
      else Verdict true None requires_confirmation
    end
  end.

(** ** [ScreenInteraction] *)

Definition _validate_coordinates (w : world) (x y : Z) : bool :=
  (0 <=? x) && (x <=? screen_width w) && (0 <=? y) && (y <=? screen_height w).

(** Issue one call to the GUI layer: the event is recorded, and the
    answer says whether the call returned. *)
Definition call (w : world) (e : event) (tr : trace) : bool * trace :=
  (gui_ok w e, tr ++ [e]).

(** [int(v * self.scaling_factor)] for an integer [v] (see [int_mul]);
    [None] where it raises.  Coordinates that are floats are not among
    the values modelled. *)
Definition adjust (w : world) (v : value) : option Z :=
  match to_int v with
  | Some z => Some (int_mul z (scaling_factor w))
  | None => None
  end.

Definition click (w : world) (x y button clicks : value) (tr : trace)
    : bool * trace :=
  match adjust w x, adjust w y with
  | Some adj_x, Some adj_y =>
    if negb (_validate_coordinates w adj_x adj_y) then (false, tr)
    else
      let '(ok, tr) := call w (EvClick adj_x adj_y button clicks) tr in
      if ok then (true, tr ++ [EvSleep]) else (false, tr)
  | _, _ => (false, tr)
  end.

(** [type_text]; [interval] is [None] for the default.  On Linux the
    argument list of xdotool holds [str(int(interval*1000))], which raises
    for an interval that is not a number: the tool is then not called and
    the text goes to [pyautogui.write]. *)
Definition type_text (w : world) (text : value) (interval : option value)
    (tr : trace) : bool * trace :=
  match text with
  | VStr text =>
    let tr := tr ++ [EvSleep] in
    let fallback (tr : trace) :=
      let '(ok, tr) := call w (EvWrite text) tr in
      if ok then (true, tr ++ [EvSleep]) else (false, tr) in
    let numeric :=
      match interval with
      | None => true
      | Some v => match to_int v with Some _ => true | None => false end
      end in
    match os w with
    | Linux =>
      if numeric then
        let '(ok, tr) := call w (EvXdotool text) tr in
        if ok then (true, tr ++ [EvSleep]) else fallback tr
      else fallback tr
    | _ => fallback tr
    end
  | _ => (false, tr)
  end.

(** [for _ in range(presses): pyautogui.press(key)]. *)
Fixpoint press_n (w : world) (key : string) (n : nat) (tr : trace)
    : bool * trace :=
  match n with
  | O => (true, tr)
  | S n' =>
    let '(ok, tr) := call w (EvPress key) tr in
    if ok then press_n w key n' tr else (false, tr)
  end.

Definition press_key (w : world) (key presses : value) (tr : trace)
    : bool * trace :=
  match key with
  | VStr key =>
    let '(ok, tr) :=
      if contains "+" key then call w (EvHotkey (split "+" key)) tr
      else match to_int presses with
           | Some n => press_n w key (Z.to_nat n) tr
           | None => (false, tr)
           end in
    if ok then (true, tr ++ [EvSleep]) else (false, tr)
  | _ => (false, tr)
  end.

Definition scroll (w : world) (direction amount : value) (tr : trace)
    : bool * trace :=
  match direction, to_int amount with
  | VStr direction, Some amount =>
    let scroll_amount :=
      if String.eqb (lower direction) "up" then amount else - amount in
    let '(ok, tr) := call w (EvScroll scroll_amount) tr in
    if ok then (true, tr ++ [EvSleep]) else (false, tr)
  | _, _ => (false, tr)
  end.

Definition drag (w : world) (start_x start_y end_x end_y : value) (tr : trace)
    : bool * trace :=
  match adjust w start_x, adjust w start_y, adjust w end_x, adjust w end_y with
  | Some start_x, Some start_y, Some end_x, Some end_y =>
    let '(ok, tr) := call w (EvDrag (end_x - start_x) (end_y - start_y)) tr in
    if ok then (true, tr ++ [EvSleep]) else (false, tr)
  | _, _, _, _ => (false, tr)
  end.

Definition move_mouse (w : world) (x y : value) (tr : trace) : bool * trace :=
  match adjust w x, adjust w y with
  | Some adj_x, Some adj_y =>
    if _validate_coordinates w adj_x adj_y then
      let '(ok, tr) := call w (EvMoveTo adj_x adj_y) tr in
      if ok then (true, tr) else (false, tr)
    else (false, tr)
  | _, _ => (false, tr)
  end.

(** ** [UserConfirmation] *)

Record UserConfirmation := mkConfirmation {
  confirmation_timeout : Z
}.

Definition new_confirmation : UserConfirmation := mkConfirmation 30.

(** [request_confirmation]: [None] is an exception leaving the method
    (one raised inside the [except ImportError] handler). *)
Definition request_confirmation (self : UserConfirmation) (w : world)
    (action : dict) (tr : trace) : option bool * trace :=
  if negb (confirm_sensitive_actions (cfg w)) then (Some true, tr)
  else if negb (tkinter_found w) then (Some true, tr)
  else
    match messagebox_import w with
    | ImportOk =>
      match dialog_answer w action with
      | Some result => (Some result, tr ++ [EvDialog action])
      | None => (Some false, tr ++ [EvDialog action])
      end
    | ImportFails =>
      match console_answer w action with
      | Some text =>
        let response := lower (strip text) in
        (Some (String.eqb response "y" || String.eqb response "yes"),
         tr ++ [EvConsole action])
      | None => (None, tr ++ [EvConsole action])
      end
    | ImportRaisesOther => (Some false, tr)
    end.

(** ** [Controller] *)

Record t := mkController {
  emergency_stop : bool;
  running : bool;
  action_history : list ActionResult;
  running_apps : list (string * Z);
  confirmation : UserConfirmation;
  events : trace
}.

Definition new : t := mkController false false [] [] new_confirmation [].

Definition with_events (st : t) (tr : trace) : t :=
  mkController (emergency_stop st) (running st) (action_history st)
    (running_apps st) (confirmation st) tr.

Definition start (st : t) : t :=
  mkController (emergency_stop st) true (action_history st)
    (running_apps st) (confirmation st) (events st).

Definition stop (st : t) : t :=
  mkController (emergency_stop st) false (action_history st)
    (running_apps st) (confirmation st) (events st).

(** The listener's callback [on_emergency_key]. *)
Definition on_emergency_key (st : t) : t :=
  mkController true (running st) (action_history st)
    (running_apps st) (confirmation st) (events st).

Definition reset_emergency_stop (st : t) : t :=
  mkController false (running st) (action_history st)
    (running_apps st) (confirmation st) (events st).

Definition clear_action_history (st : t) : t :=
  mkController (emergency_stop st) (running st) []
    (running_apps st) (confirmation st) (events st).

(** [ApplicationManager.launch_application], for application names that
    are strings, as the signature has them: the table of running
    applications is keyed by strings here, and a name of another type is
    refused. *)
Definition launch_application (w : world) (app_name : value)
    (app_path : value) (st : t) : bool * t :=
  match app_name with
  | VStr name =>
    let argv :=
      if truth app_path then Some [app_path]
      else match os w with
           | Windows => Some [VStr "start"; app_name]
           | Linux => Some [app_name]
           | OtherOS => None
           end in
    match argv with
    | None => (false, st)
    | Some argv =>
      let '(ok, tr) := call w (EvPopen argv) (events st) in
      if ok then
        (true,
         mkController (emergency_stop st) (running st) (action_history st)
           ((name, popen_pid w)
              :: filter (fun p => negb (String.eqb (fst p) name)) (running_apps st))
           (confirmation st) (tr ++ [EvSleep]))
      else (false, with_events st tr)
    end
  | _ => (false, st)
  end.

Definition close_application (w : world) (app_name : value) (st : t)
    : bool * t :=
  match app_name with
  | VStr name =>
    match lookup (running_apps st) name with
    | Some pid =>
      let '(ok, tr) := call w (EvTerminate pid) (events st) in
      if ok then
        (true,
         mkController (emergency_stop st) (running st) (action_history st)
           (filter (fun p => negb (String.eqb (fst p) name)) (running_apps st))
           (confirmation st) tr)
      else (false, with_events st tr)
    | None => (false, st)
    end
  | _ => (false, st)
  end.

(** [time.sleep(action.get("duration", 1.0))]. *)
Definition wait (action : dict) (st : t) : bool * t :=
  match get action "duration" with
  | None => (true, with_events st (events st ++ [EvSleep]))
  | Some d =>
    match to_int d with
    | Some z =>
      if 0 <=? z then (true, with_events st (events st ++ [EvSleep]))
      else (false, st)
    | None => (false, st)
    end
  end.

Definition lift (r : bool * trace) (st : t) : bool * t :=
  (fst r, with_events st (snd r)).

(** The arguments [action[k]] of a dispatch branch: a missing key raises
    [KeyError] before the operation is called. *)
Definition dflt (action : dict) (k : string) (d : value) : value :=
  get_default action k d.

(** [_execute_action_internal]; a non-string type raises before the
    [try] block ([None]). *)
Definition _execute_action_internal (w : world) (action : dict) (st : t)
    : option ActionResult * t :=
  match type_lower action with
  | None => (None, st)
  | Some action_type =>
    let finish (r : bool * t) :=
      (Some (mkResult (fst r) (VStr action_type) action
               (if fst r then None else Some (Msg "Action execution failed"))
               false),
       snd r) in
    let raised :=
      (Some (mkResult false (VStr action_type) action (Some ExcText) false), st) in
    if String.eqb action_type "click" then
      match get action "x", get action "y" with
      | Some x, Some y =>
        finish (lift (click w x y (dflt action "button" (VStr "left"))
                        (dflt action "clicks" (VInt 1)) (events st)) st)
      | _, _ => raised
      end
    else if String.eqb action_type "type" then
      match get action "text" with
      | Some text =>
        finish (lift (type_text w text (get action "interval") (events st)) st)
      | None => raised
      end
    else if String.eqb action_type "key_press" then
      match get action "key" with
      | Some key =>
        finish (lift (press_key w key (dflt action "presses" (VInt 1))
                        (events st)) st)
      | None => raised
      end
    else if String.eqb action_type "scroll" then
      finish (lift (scroll w (dflt action "direction" (VStr "down"))
                      (dflt action "amount" (VInt 3)) (events st)) st)
    else if String.eqb action_type "drag" then
      match get action "start_x", get action "start_y",
            get action "end_x", get action "end_y" with
      | Some sx, Some sy, Some ex, Some ey =>
        finish (lift (drag w sx sy ex ey (events st)) st)
      | _, _, _, _ => raised
      end
    else if String.eqb action_type "move_mouse" then
      match get action "x", get action "y" with
      | Some x, Some y => finish (lift (move_mouse w x y (events st)) st)
      | _, _ => raised
      end
    else if String.eqb action_type "launch_app" then
      match get action "app_name" with
      | Some app_name =>
        finish (launch_application w app_name (dflt action "app_path" VNone) st)
      | None => raised
      end
    else if String.eqb action_type "close_app" then
      match get action "app_name" with
      | Some app_name => finish (close_application w app_name st)
      | None => raised
      end
    else if String.eqb action_type "wait" then
      match wait action st with
      | (true, st') => finish (true, st')
      | (false, _) => raised
      end
    else
      (Some (mkResult false (VStr action_type) action
               (Some (Msg ("Unknown action type: " ++ action_type)%string)) false),
       st)
  end.

Definition append_history (r : ActionResult) (st : t) : t :=
  mkController (emergency_stop st) (running st) (action_history st ++ [r])
    (running_apps st) (confirmation st) (events st).

(** [execute_action]; [None] is an exception leaving the method. *)
Definition execute_action (w : world) (action : dict) (st : t)
    : option ActionResult * t :=
  let type_or_unknown := dflt action "type" (VStr "unknown") in
  if emergency_stop st then
    (Some (mkResult false type_or_unknown action
             (Some (Msg "Emergency stop activated")) false), st)
  else
    match validate_action (cfg w) action with
    | Raises => (None, st)
    | Verdict false error_msg _ =>
      (Some (mkResult false type_or_unknown action
               (option_map Msg error_msg) false), st)
    | Verdict true _ needs_confirmation =>
      let '(approved, st1) :=
        if needs_confirmation then
          let r := request_confirmation (confirmation st) w action (events st) in
          (fst r, with_events st (snd r))
        else (Some true, st) in
      match approved with
      | None => (None, st1)
      | Some false =>
        (Some (mkResult false type_or_unknown action
                 (Some (Msg "User denied confirmation")) true), st1)
      | Some true =>
        match _execute_action_internal w action st1 with
        | (Some result, st2) => (Some result, append_history result st2)
        | (None, st2) => (None, st2)
        end
      end
    end.

(** [execute_action_sequence].  [key_during i] says that the emergency
    key combination is pressed while action number [i] (from 0) runs, so
    that the listener has set the flag when that action returns. *)
Fixpoint sequence_loop (w : world) (key_during : nat -> bool) (i : nat)
    (actions : list dict) (results : list ActionResult) (st : t)
    : option (list ActionResult) * t :=
  match actions with
  | [] => (Some results, st)
  | action :: rest =>
    if emergency_stop st then (Some results, st)
    else
      match execute_action w action st with
      | (None, st') => (None, st')
      | (Some result, st') =>
        let st' := if key_during i then on_emergency_key st' else st' in
        let results := results ++ [result] in
        if negb (success result)
           && truth (dflt action "stop_on_failure" (VBool false))
        then (Some results, st')
        else sequence_loop w key_during (S i) rest results st'
      end
  end.

Definition execute_action_sequence (w : world) (key_during : nat -> bool)
    (actions : list dict) (st : t) : option (list ActionResult) * t :=
  sequence_loop w key_during 0 actions [] st.

(** [get_screen_element_coordinates] and [click_element], for elements
    whose box holds integers. *)
Definition click_element (w : world) (bbox : Z * Z * Z * Z)
    (text : value) (st : t) : option ActionResult * t :=
  let '(bx, by_, bw, bh) := bbox in
  execute_action w
    [ ("type", VStr "click"); ("x", VInt (bx + bw / 2));
      ("y", VInt (by_ + bh / 2)); ("target_element", text) ] st.

End Controller.

(* ================================================================== *)
(** * [SafetyMonitor] of [src/advanced_features.py] *)
(* ================================================================== *)

Module SafetyMonitor.
Import Py.

Definition warning_keywords : list string :=
  [ "delete"; "remove"; "format"; "rm"; "del"; "sudo"; "admin"; "password";
    "credit card" ].

Definition safe_zones : list string :=
  [ "desktop"; "documents"; "downloads"; "pictures" ].

(** [action.get(k, "").lower()]; [None] where [.lower()] raises. *)
Definition get_lower (action : dict) (k : string) : option string :=
  match get action k with
  | None => Some EmptyString
  | Some (VStr s) => Some (lower s)
  | Some _ => None
  end.

Definition value_is (v : option value) (s : string) : bool :=
  match v with
  | Some (VStr t) => String.eqb t s
  | _ => false
  end.

(** [_is_safe_location]; [None] where [path.lower()] raises. *)
Definition _is_safe_location (path : value) : option bool :=
  match path with
  | VStr path =>
    let path_lower := lower path in
    Some (existsb (fun safe_zone => contains safe_zone path_lower) safe_zones)
  | _ => None
  end.

Definition _is_rapid_action (action : dict) : bool := false.

Definition first_hit (keywords : list string) (text : string) : option string :=
  find (fun keyword => contains keyword text) keywords.

(** [validate_action]: [None] is an exception; otherwise the pair
    [(is_safe, message)]. *)
Definition validate_action (action : dict) : option (bool * string) :=
  let action_type := get action "type" in
  match get_lower action "target" with
  | None => None
  | Some target =>
    match first_hit warning_keywords target with
    | Some keyword =>
      Some (false,
            ("Blocked: Contains dangerous keyword '" ++ keyword ++ "'")%string)
    | None =>
      let system_check : option bool :=      (* Some true: blocked *)
        if value_is action_type "system_command" then
          match get_lower action "command" with
          | None => None
          | Some command =>
            Some (existsb (fun dangerous => contains dangerous command)
                    [ "rm -rf"; "format"; "del /f" ])
          end
        else Some false in
      match system_check with
      | None => None
      | Some true => Some (false, "Blocked: Dangerous system command")
      | Some false =>
        let file_check : option bool :=      (* Some true: blocked *)
          if value_is action_type "file_operation" then
            match get_lower action "operation" with
            | None => None
            | Some operation =>
              if String.eqb operation "delete" || String.eqb operation "format"
              then option_map negb
                     (_is_safe_location (get_default action "path" (VStr EmptyString)))
              else Some false
            end
          else Some false in
        match file_check with
        | None => None
        | Some true => Some (false, "Blocked: Unsafe file operation in system area")
        | Some false =>
          if _is_rapid_action action
          then Some (false, "Blocked: Too many rapid actions detected")
          else Some (true, "Action approved")
        end
      end
    end
  end.

End SafetyMonitor.

(* ================================================================== *)
(** * [src/components/perceiver.py] *)
(* ================================================================== *)

Module Perceiver.
Import Py.

Local Open Scope Q_scope.

(** [np.mean] of a non-empty list, and [sum]. *)
Definition Qsum (l : list Q) : Q := fold_right Qplus 0 l.

Definition Qlen {A} (l : list A) : Q := inject_Z (Z.of_nat (List.length l)).

Definition mean (l : list Q) : Q := Qsum l / Qlen l.

Definition Qltb (a b : Q) : bool := negb (Qle_bool b a).

(** ** [OCRProcessor.extract_text] *)

(** One entry of the recogniser's table: text and confidence out of 100. *)
Definition ocr_entry := (string * Q)%type.

Record word := mkWord {
  w_text : string;
  w_confidence : Q
}.

Record ocr_data := mkOcr {
  o_text : string;
  o_confidence : Q;
  o_words : list word
}.

Definition ocr_failed : ocr_data := mkOcr EmptyString 0 [].

Fixpoint join (sep : string) (parts : list string) : string :=
  match parts with
  | [] => EmptyString
  | [p] => p
  | p :: rest => (p ++ sep ++ join sep rest)%string
  end.

(** The retained entries: stripped text non-empty and confidence above
    [min_ocr_confidence * 100].  The product is exact here; the source
    forms it in binary floating point, which gives the same threshold
    for the configured 0.6 (the product is 60.0) but not for every value
    (0.29 gives 28.999999999999996). *)
Definition retained (c : Config.t) (data : list ocr_entry) : list word :=
  flat_map
    (fun e : ocr_entry =>
       let word_ := strip (fst e) in
       let conf := snd e in
       if truthy word_ && Qltb (Config.min_ocr_confidence c * 100) conf
       then [mkWord word_ (conf / 100)] else [])
    data.

(** [extract_text]; [None] stands for an unreadable image or a failure
    of the recogniser. *)
Definition extract_text (c : Config.t) (data : option (list ocr_entry))
    : ocr_data :=
  match data with
  | None => ocr_failed
  | Some data =>
    let words := retained c data in
    let confidences := map w_confidence words in
    let avg_confidence :=
      match confidences with [] => 0 | _ => mean confidences end in
    mkOcr (join " " (map w_text words)) avg_confidence words
  end.

(** ** [UIElementParser] *)

Inductive element_type := button | input | icon | panel.

(** [_classify_element]: each [if] of the source either returns or falls
    through to the next one; [None] is the final [return None]. *)
Definition _classify_element (area aspect_ratio : Q) (width height : Z)
    : option element_type :=
  let button_like :=
    if Qltb 1000 area && Qltb area 50000
       && (Qltb (2 # 10) aspect_ratio && Qltb aspect_ratio 5)
    then
      if ((20 <? width)%Z && (width <? 400)%Z)
         && ((15 <? height)%Z && (height <? 100)%Z)
      then Some button else None
    else None in
  match button_like with
  | Some ty => Some ty
  | None =>
    let input_like :=
      if Qltb 500 area && Qltb area 100000 && Qltb 2 aspect_ratio
      then if (height <? 50)%Z then Some input else None
      else None in
    match input_like with
    | Some ty => Some ty
    | None =>
      if Qltb 400 area && Qltb area 10000
         && (Qltb (5 # 10) aspect_ratio && Qltb aspect_ratio 2)
      then Some icon
      else if Qltb 50000 area then Some panel
      else None
    end
  end.

(** A contour, by its area and bounding rectangle. *)
Record contour := mkContour {
  c_area : Q;
  c_x : Z; c_y : Z; c_w : Z; c_h : Z
}.

Record element := mkElement {
  e_type : element_type;
  e_bbox : Z * Z * Z * Z;
  e_center : Z * Z;
  e_area : Q;
  e_confidence : Q
}.

(** The loop over the contours; [None] is the [ZeroDivisionError] of
    [w / h]. *)
Fixpoint collect (contours : list contour) : option (list element) :=
  match contours with
  | [] => Some []
  | c :: rest =>
    if Qltb (c_area c) 100 then collect rest
    else if (c_h c =? 0)%Z then None
    else
      let aspect_ratio := inject_Z (c_w c) / inject_Z (c_h c) in
      let here :=
        match _classify_element (c_area c) aspect_ratio (c_w c) (c_h c) with
        | Some ty =>
          [ mkElement ty (c_x c, c_y c, c_w c, c_h c)
              (c_x c + c_w c / 2, c_y c + c_h c / 2)%Z
              (c_area c) (Qmin 1 (c_area c / 10000)) ]
        | None => []
        end in
      option_map (fun l => here ++ l) (collect rest)
  end.

(** [elements.sort(key=confidence, reverse=True)]: a stable sort, larger
    confidence first. *)
Fixpoint insert_desc (e : element) (l : list element) : list element :=
  match l with
  | [] => [e]
  | y :: l' =>
    if Qltb (e_confidence e) (e_confidence y) then y :: insert_desc e l'
    else e :: l
  end.

Definition sort_desc (l : list element) : list element :=
  fold_right insert_desc [] l.

(** [detect_elements]; [None] stands for an unreadable image. *)
Definition detect_elements (contours : option (list contour)) : list element :=
  match contours with
  | None => []
  | Some contours =>
    match collect contours with
    | None => []
    | Some elements => firstn 50 (sort_desc elements)
    end
  end.

(** ** [VisionLanguageProcessor.analyze_screenshot] *)

Inductive vlm_reply :=
| VlmContent (content : string)
| VlmUnavailable (err : string)
| VlmRaises (err : string).

Definition analyze_screenshot (c : Config.t) (r : vlm_reply) : string :=
  if negb (Config.enable_vlm_description c) then EmptyString
  else match r with
       | VlmContent content => content
       | VlmUnavailable err => ("Vision analysis unavailable: " ++ err)%string
       | VlmRaises err => ("Vision analysis error: " ++ err)%string
       end.

(** ** [Perceiver] *)

(** [_calculate_confidence], on what it reads of its arguments: the OCR
    record's confidence and the elements' confidences. *)
Definition _calculate_confidence (ocr_confidence : Q)
    (element_confidences : list Q) (vlm_description : string) : Q :=
  let scores := [] in
  let scores :=
    if Qltb 0 ocr_confidence
    then scores ++ [Qmin (ocr_confidence / 100) 1] else scores in
  let scores :=
    match element_confidences with
    | [] => scores
    | _ => scores ++ [Qmin (mean element_confidences / 100) 1]
    end in
  let scores :=
    if truthy vlm_description
       && negb (startswith vlm_description "Vision analysis")
    then scores ++ [8 # 10] else scores in
  match scores with
  | [] => 0
  | _ => mean scores
  end.

Record ScreenContext := mkContext {
  ocr_text : string;
  ui_elements : list element;
  vlm_description : string;
  confidence_score : Q
}.

(** What one perception cycle observes, once the screenshot exists. *)
Record observation := mkObservation {
  ocr_table : option (list ocr_entry);
  contours_found : option (list contour);
  vlm : vlm_reply
}.

(** [perceive_screen], from the OCR step on. *)
Definition perceive_screen (c : Config.t) (obs : observation) : ScreenContext :=
  let ocr := extract_text c (ocr_table obs) in
  let ui :=
    if Config.enable_ui_parsing c then detect_elements (contours_found obs)
    else [] in
  let vlm_description :=
    if Config.enable_vlm_description c then analyze_screenshot c (vlm obs)
    else EmptyString in
  let confidence :=
    _calculate_confidence (o_confidence ocr) (map e_confidence ui)
      vlm_description in
  mkContext (o_text ocr) ui vlm_description confidence.

End Perceiver.

(* ================================================================== *)
(** * [RealDesktopAgent.refactor_user_prompt] *)
(* ================================================================== *)

Module Decomposer.
Import Py.

(** What one call of [ollama_client.generate_text] gives. *)
Inductive reply :=
| CallRaises
| Reply (success : bool) (content : string) (used_simplified_prompt : bool).

(** The answers to the primary and to the secondary request. *)
Record oracle := mkOracle {
  primary : reply;
  secondary : reply
}.

(** Line boundaries of [str.splitlines]. *)
Definition is_linebreak (c : ascii) : bool :=
  let n := code c in
  ((10 <=? n) && (n <=? 13) || (28 <=? n) && (n <=? 30))%N.

(** [s.splitlines()]: [after_cr] makes a line feed that follows a
    carriage return part of the same boundary; [cur] is the current line
    in reverse. *)
Fixpoint splitlines_aux (after_cr : bool) (cur : string) (s : string)
    : list string :=
  match s with
  | EmptyString =>
    match cur with EmptyString => [] | _ => [rev cur] end
  | String c s' =>
    if after_cr && (code c =? 10)%N then splitlines_aux false cur s'
    else if is_linebreak c
    then rev cur :: splitlines_aux (code c =? 13)%N EmptyString s'
    else splitlines_aux false (String c cur) s'
  end.

Definition splitlines (s : string) : list string :=
  splitlines_aux false EmptyString s.

Definition isdigit (c : ascii) : bool :=
  ((48 <=? code c) && (code c <=? 57))%N.

(** [s.split('.', 1)[1]] when the split has two parts. *)
Fixpoint after_first_dot (s : string) : option string :=
  match s with
  | EmptyString => None
  | String c s' => if Ascii.eqb c "."%char then Some s' else after_first_dot s'
  end.

(** The body of the loop over the lines of a response. *)
Definition parse_line (line : string) : list string :=
  let stripped := strip line in
  match stripped with
  | EmptyString => []
  | String c _ =>
    if isdigit c then
      match after_first_dot stripped with
      | Some rest => [strip rest]
      | None => []
      end
    else if startswith stripped "#" || startswith stripped "-"
            || startswith stripped "*"
    then []
    else [stripped]
  end.

Definition parse_lines (content : string) : list string :=
  flat_map parse_line (splitlines content).

(** [lines and len(set(lines)) >= 2]. *)
Definition acceptable (lines : list string) : bool :=
  match lines with
  | [] => false
  | _ => (2 <=? List.length (nodup string_dec lines))%nat
  end.

Definition is_complex (command : string) : bool :=
  (100 <? String.length command)%nat || contains "," command
  || contains " and " command || contains " then " command.

(** The [try] block: [Some lines] when it returns a plan, [None] when
    control reaches the rule-based fallback (also through the [except]
    clause). *)
Definition llm_plan (o : oracle) (command : string) : option (list string) :=
  let using_reduced_prompt := negb (is_complex command) in
  match primary o with
  | CallRaises => None
  | Reply success content used_simplified =>
    let using_reduced_prompt :=
      if success && used_simplified then true else using_reduced_prompt in
    let first_try :=
      if success then
        let lines := parse_lines content in
        if acceptable lines then Some lines else None
      else None in
    match first_try with
    | Some lines => Some lines
    | None =>
      if negb using_reduced_prompt then
        match secondary o with
        | CallRaises => None
        | Reply success2 content2 _ =>
          if success2 then
            let lines := parse_lines content2 in
            if acceptable lines then Some lines else None
          else None
        end
      else None
    end
  end.

Definition typo_fixes : list (string * string) :=
  [ ("googel", "google"); ("gogle", "google"); ("googl", "google");
    ("serch", "search"); ("serach", "search"); ("sreach", "search");
    ("srch", "search");
    ("webiste", "website"); ("websit", "website"); ("webste", "website");
    ("facbook", "facebook"); ("fb", "facebook"); ("faecbook", "facebook");
    ("youutbe", "youtube"); ("ytube", "youtube"); ("utube", "youtube");
    ("instgram", "instagram"); ("insta", "instagram");
    ("tweeter", "twitter"); ("twiter", "twitter") ].

(** The lowered command with every typo replaced, in table order. *)
Definition normalise (command : string) : string :=
  fold_left (fun cmd typo => replace (fst typo) (snd typo) cmd)
    typo_fixes (lower command).

Definition site_matches : list (string * string) :=
  [ ("facebook", "facebook.com"); ("twitter", "twitter.com");
    ("youtube", "youtube.com"); ("instagram", "instagram.com");
    ("amazon", "amazon.com"); ("reddit", "reddit.com");
    ("wikipedia", "wikipedia.org"); ("linkedin", "linkedin.com");
    ("github", "github.com"); ("netflix", "netflix.com") ].

Definition mem (s : string) (l : list string) : bool :=
  existsb (String.eqb s) l.

Definition any_in (terms : list string) (text : string) : bool :=
  existsb (fun term => contains term text) terms.

Section Rules.

(** [extract_search_term], with its language-model fallback: it always
    returns some string. *)
Variable extract_search_term : string -> string.

Definition open_steps (cmd_lower : string) : list string :=
  if contains "open" cmd_lower
     && (contains "chrome" cmd_lower || contains "browser" cmd_lower)
  then [ "Open Google Chrome"; "Wait for Chrome to load (3 seconds)" ]
  else [].

(** The first site whose visit is asked for. *)
Definition visited_site (cmd_lower : string) : option (string * string) :=
  find (fun m : string * string =>
          contains ("visit " ++ fst m)%string cmd_lower
          || contains ("go to " ++ fst m)%string cmd_lower)
    site_matches.

Definition site_steps (cmd_lower : string) (steps : list string)
    : list string * bool :=
  match visited_site cmd_lower with
  | Some (site_keyword, site_domain) =>
    let steps :=
      if negb (mem "Open Google Chrome" steps || mem "Wait for Chrome" steps)
      then steps ++ [ "Open Google Chrome";
                      "Wait for Chrome to load (3 seconds)" ]
      else steps in
    (steps ++
       [ "Focus on the address bar (press Ctrl+L)";
         ("Type '" ++ site_domain ++ "' in the address bar")%string;
         "Press Enter to navigate";
         ("Wait for " ++ site_keyword ++ " to load (3 seconds)")%string ],
     true)
  | None => (steps, false)
  end.

Definition search_steps (command cmd_lower : string)
    (direct_site_visit : bool) (steps : list string) : list string :=
  if negb direct_site_visit
     && any_in [ "search"; "find"; "look up" ] cmd_lower
  then
    let search_term := extract_search_term command in
    let steps :=
      if negb (mem "Focus on the address bar" steps
               || mem "press Ctrl+L" steps)
      then steps ++ [ "Focus on the address bar (press Ctrl+L)" ]
      else steps in
    steps ++
      [ ("Type '" ++ search_term ++ "' in the search bar")%string;
        "Press Enter to search";
        "Wait for search results to load (3 seconds)" ]
  else steps.

Definition result_steps (cmd_lower : string) (steps : list string)
    : list string :=
  if any_in [ "enter"; "visit"; "go to"; "click"; "access";
              "open website"; "first result" ] cmd_lower
  then
    match find (fun site => contains site cmd_lower)
            [ "facebook"; "twitter"; "youtube"; "instagram"; "amazon";
              "reddit"; "github" ] with
    | Some site =>
      steps ++
        [ ("Look for and click on the " ++ site ++ " result")%string;
          ("Wait for " ++ site ++ " to load (3 seconds)")%string ]
    | None =>
      if any_in [ "first"; "top"; "result"; "website" ] cmd_lower
      then steps ++ [ "Click on the first search result";
                      "Wait for the page to load (3 seconds)" ]
      else steps
    end
  else steps.

(** The steps gathered by the patterns. *)
Definition pattern_steps (command : string) : list string :=
  let cmd_lower := normalise command in
  let steps := open_steps cmd_lower in
  let '(steps, direct_site_visit) := site_steps cmd_lower steps in
  let steps := search_steps command cmd_lower direct_site_visit steps in
  result_steps cmd_lower steps.

Definition separator (cmd_lower : string) : option string :=
  if contains " and " cmd_lower then Some " and "
  else if contains " then " cmd_lower then Some " then "
  else None.

(** [[c.strip() for c in cmd_lower.split(sep) if c.strip()]]. *)
Definition pieces (sep cmd_lower : string) : list string :=
  flat_map (fun c => if truthy (strip c) then [strip c] else [])
    (split sep cmd_lower).

Definition simple_split (command : string) : list string :=
  let cmd_lower := normalise command in
  match separator cmd_lower with
  | Some sep => pieces sep cmd_lower
  | None => [command]
  end.

Definition fallback (command : string) : list string :=
  match pattern_steps command with
  | [] => simple_split command
  | steps => steps
  end.

Definition refactor_user_prompt (o : oracle) (command : string)
    : list string :=
  match llm_plan o command with
  | Some lines => lines
  | None => fallback command
  end.

End Rules.

(** [execute_user_command]: decomposition, then the engine. *)
Definition execute_user_command (extract_search_term : string -> string)
    (o : oracle) (h : Engine.handler) (command : string) : Engine.outcome :=
  Engine.run_plan h command (refactor_user_prompt extract_search_term o command).

(** [get_user_prompt]: the line typed at "Your command:" and the answer
    to "Continue? (y/N):"; [None] is an [input] that raises.  A result
    other than [None] is the command [RealDesktopAgent.run] passes to
    [refactor_user_prompt] and to [execute_user_command]. *)
Definition get_user_prompt (typed answer : option string) : option string :=
  match typed with
  | None => None
  | Some line =>
    let user_input := strip line in
    if truthy user_input then
      match answer with
      | None => None
      | Some answer =>
        let confirm := lower (strip answer) in
        if String.eqb confirm "y" || String.eqb confirm "yes"
        then Some user_input else None
      end
    else None
  end.

End Decomposer.

(* ================================================================== *)
(** * Sample inputs *)
(* ================================================================== *)

Module Samples.
Import Py.

(** A handler that fails every attempt of step 3 and succeeds elsewhere. *)
Definition fails_step3 : Engine.handler := fun idx _ => negb (idx =? 3).

Definition plan4 : list string := ["s1"; "s2"; "s3"; "s4"].

(** A 1920x1080 Linux desktop without scaling where every GUI call
    succeeds and the user approves every dialog. *)
Definition desktop : Controller.world :=
  Controller.mkWorld Config.CONFIG 1920 1080 1 Controller.Linux
    (fun _ => true) 4242 true Controller.ImportOk
    (fun _ => Some true) (fun _ => Some "y").

(** The same desktop on a machine without the GUI toolkit. *)
Definition headless : Controller.world :=
  Controller.mkWorld Config.CONFIG 1920 1080 1 Controller.Linux
    (fun _ => true) 4242 false Controller.ImportOk
    (fun _ => Some true) (fun _ => Some "y").

Definition click_rm : dict :=
  [ ("type", VStr "click"); ("x", VInt 1); ("y", VInt 1);
    ("target", VStr "rm") ].

Definition click_50_50 : dict :=
  [ ("type", VStr "click"); ("x", VInt 50); ("y", VInt 50) ].

Definition type_password : dict :=
  [ ("type", VStr "type"); ("text", VStr "my password") ].

Definition delete_passwd : dict :=
  [ ("type", VStr "file_operation"); ("operation", VStr "delete");
    ("path", VStr "/etc/passwd") ].

Definition wait_action : dict := [ ("type", VStr "wait") ].

Definition stopped : Controller.t :=
  Controller.on_emergency_key Controller.new.

Definition no_oracle : Decomposer.oracle :=
  Decomposer.mkOracle Decomposer.CallRaises Decomposer.CallRaises.

Definition any_term : string -> string := fun _ => "cats".

(** One recognised word of confidence 90, nothing else on the screen. *)
Definition one_word : Perceiver.observation :=
  Perceiver.mkObservation (Some [("ok", 90%Q)]) (Some [])
    (Perceiver.VlmContent EmptyString).

End Samples.

(* ================================================================== *)
(** * Readings used in the statements *)
(* ================================================================== *)

Module Reading.
Import Py Config Controller.

(** The confirmation flag a verdict carries. *)
Definition reports_confirmation (v : verdict) : bool :=
  match v with
  | Verdict _ _ requires_confirmation => requires_confirmation
  | Raises => false
  end.

(** The parameter checks of [ActionValidator.validate_action]. *)
Definition required_present (action_type : string) (action : dict) : bool :=
  if String.eqb action_type "click"
    then has_key action "x" && has_key action "y"
  else if String.eqb action_type "type" then has_key action "text"
  else if String.eqb action_type "key_press" then has_key action "key"
  else true.

(** The keyword list as the specification gives it. *)
Definition listed_keywords : list string :=
  [ "delete"; "remove"; "format"; "rm"; "del"; "sudo"; "admin"; "password";
    "credit card"; "system32"; "registry"; "rm -rf"; "del /f"; "format c:" ].

(** The specification's rule for the confirmation flag of an action of a
    supported type. *)
Definition listed_rule (c : Config.t) (action : dict) : Prop :=
  forall t lvl,
    type_lower action = Some t ->
    lookup ACTION_SAFETY_LEVELS t = Some lvl ->
    (reports_confirmation (validate_action c action) = true <->
     3 <= lvl \/ safe_mode c = false \/ keyword_hit listed_keywords action = true).

(** The input events of a trace. *)
Definition inputs (tr : trace) : list event := filter is_input tr.

(** The calls a client can make on a controller, and the listener's
    callback. *)
Inductive op :=
| OpStart
| OpStop
| OpEmergencyKey
| OpReset
| OpExecute (action : dict)
| OpSequence (key_during : nat -> bool) (actions : list dict)
| OpClickElement (bbox : Z * Z * Z * Z) (text : value)
| OpClearHistory.

Definition is_reset (o : op) : bool :=
  match o with OpReset => true | _ => false end.

Definition apply_op (w : world) (o : op) (st : Controller.t) : Controller.t :=
  match o with
  | OpStart => start st
  | OpStop => stop st
  | OpEmergencyKey => on_emergency_key st
  | OpReset => reset_emergency_stop st
  | OpExecute action => snd (execute_action w action st)
  | OpSequence key_during actions =>
    snd (execute_action_sequence w key_during actions st)
  | OpClickElement bbox text => snd (click_element w bbox text st)
  | OpClearHistory => clear_action_history st
  end.

Definition run (w : world) (ops : list op) (st : Controller.t) : Controller.t :=
  fold_left (fun st o => apply_op w o st) ops st.

Definition no_reset (ops : list op) : bool :=
  forallb (fun o => negb (is_reset o)) ops.

(** The result returned while the emergency stop is set. *)
Definition stopped_result (action : dict) : ActionResult :=
  mkResult false (dflt action "type" (VStr "unknown")) action
    (Some (Msg "Emergency stop activated")) false.

(** "Rejected outright": the call fails and leaves the controller as it
    was (no dialog, no dispatch, no history entry). *)
Definition rejected_outright (w : world) (action : dict) (st : Controller.t)
    : Prop :=
  exists r, execute_action w action st = (Some r, st) /\ success r = false.

(** "Fail-safe": without the GUI toolkit a required confirmation is
    denied. *)
Definition denies_without_channel (w : world) : Prop :=
  confirm_sensitive_actions (cfg w) = true ->
  tkinter_found w = false ->
  forall action tr,
    fst (request_confirmation new_confirmation w action tr) = Some false.

(** The classification rule as the specification lists it: the first
    matching line wins. *)
Definition listed_classification (area aspect : Q) (width height : Z)
    : option Perceiver.element_type :=
  let lt := Perceiver.Qltb in
  if lt 1000%Q area && lt area 50000%Q && lt (2 # 10) aspect && lt aspect 5%Q
     && (20 <? width) && (width <? 400) && (15 <? height) && (height <? 100)
  then Some Perceiver.button
  else if lt 500%Q area && lt area 100000%Q && lt 2%Q aspect && (height <? 50)
  then Some Perceiver.input
  else if lt 400%Q area && lt area 10000%Q && lt (5 # 10) aspect && lt aspect 2%Q
  then Some Perceiver.icon
  else if lt 50000%Q area then Some Perceiver.panel
  else None.

(** The overall confidence as the specification words it: the mean of
    the sub-scores at hand, namely the OCR confidence, the mean element
    confidence and 0.8 for a scene description. *)
Definition listed_confidence (ocr_confidence : Q) (element_confidences : list Q)
    (vlm_description : string) : Q :=
  let scores :=
    (if Perceiver.Qltb 0 ocr_confidence then [ocr_confidence] else [])
    ++ match element_confidences with
       | [] => []
       | _ => [Perceiver.mean element_confidences]
       end
    ++ (if truthy vlm_description
           && negb (startswith vlm_description "Vision analysis")
        then [(8 # 10)%Q] else []) in
  match scores with
  | [] => 0%Q
  | _ => Perceiver.mean scores
  end.

Definition in_unit (x : Q) : Prop := (0 <= x /\ x <= 1)%Q.

(** Larger confidence first. *)
Definition ranked (a b : Perceiver.element) : Prop :=
  (Perceiver.e_confidence b <= Perceiver.e_confidence a)%Q.

(** An element as [detect_elements] builds it from a contour that is not
    too small. *)
Definition well_formed (e : Perceiver.element) : Prop :=
  let '(x, y, w, h) := Perceiver.e_bbox e in
  Perceiver.Qltb (Perceiver.e_area e) 100%Q = false
  /\ Perceiver._classify_element (Perceiver.e_area e)
       (inject_Z w / inject_Z h)%Q w h = Some (Perceiver.e_type e)
  /\ Perceiver.e_confidence e
     = Qmin 1 (Perceiver.e_area e / 10000)%Q.

(** The element [detect_elements] builds for a region it has typed. *)
Definition region_element (c : Perceiver.contour) (ty : Perceiver.element_type)
    : Perceiver.element :=
  Perceiver.mkElement ty
    (Perceiver.c_x c, Perceiver.c_y c, Perceiver.c_w c, Perceiver.c_h c)
    (Perceiver.c_x c + Perceiver.c_w c / 2, Perceiver.c_y c + Perceiver.c_h c / 2)
    (Perceiver.c_area c) (Qmin 1 (Perceiver.c_area c / 10000)%Q).

(** The elements of a screen as the specification lists them: a region of
    area below 100 is discarded, and so is one that the listed rule leaves
    without a type; the others are kept, in the order of the regions. *)
Definition listed_elements (contours : list Perceiver.contour)
    : list Perceiver.element :=
  flat_map
    (fun c =>
       if Perceiver.Qltb (Perceiver.c_area c) 100%Q then []
       else
         match listed_classification (Perceiver.c_area c)
                 (inject_Z (Perceiver.c_w c) / inject_Z (Perceiver.c_h c))%Q
                 (Perceiver.c_w c) (Perceiver.c_h c) with
         | Some ty => [region_element c ty]
         | None => []
         end)
    contours.

(** A text made of white space only. *)
Fixpoint all_space (s : string) : bool :=
  match s with
  | EmptyString => true
  | String c s' => is_space c && all_space s'
  end.


Definition at_least_one_step (steps : list string) : Prop :=
  (1 <= List.length steps)%nat.

(** The commands that leave the decomposer without a step: no plan from
    the language model, no rule matching, and a separator with white
    space only around and between its occurrences. *)
Definition nothing_to_split (extract_search_term : string -> string)
    (o : Decomposer.oracle) (command : string) : Prop :=
  Decomposer.llm_plan o command = None
  /\ Decomposer.pattern_steps extract_search_term command = []
  /\ exists sep,
       Decomposer.separator (Decomposer.normalise command) = Some sep
       /\ Forall (fun c => all_space c = true)
            (split sep (Decomposer.normalise command)).

(** The action types the dispatch handles but the safety table lacks. *)
Definition unlisted_types : list string :=
  [ "move_mouse"; "launch_app"; "close_app"; "wait" ].

End Reading.

(* ================================================================== *)
(** * Further definitions *)
(* ================================================================== *)

Module EngineDefs.
Import TaskTracker Engine.

(** Handler calls in the order of the plan: an earlier step, or the same
    step at an earlier attempt. *)
Definition call_before (a b : Z * Z) : Prop :=
  fst a < fst b \/ (fst a = fst b /\ snd a < snd b).

(** The tracker follows the engine's counters. *)
Definition tracked (steps : list string) (st : state) : Prop :=
  active (tracker st) = true
  /\ current_steps (tracker st) = steps
  /\ len (completed_steps (tracker st)) = successful_steps st
  /\ len (TaskTracker.failed_steps (tracker st)) = Engine.failed_steps st.

(** The first attempt, if any, at which the handler accepts step [idx]. *)
Definition first_success (h : handler) (idx : Z) : option Z :=
  if h idx 0 then Some 0
  else if h idx 1 then Some 1
  else if h idx 2 then Some 2
  else None.

(** The calls [(idx, 0) ... (idx, k)]. *)
Definition tries (idx k : Z) : list (Z * Z) :=
  map (fun j => (idx, Z.of_nat j)) (seq 0 (Z.to_nat (k + 1))).

End EngineDefs.

Module ControllerDefs.
Import Py Config Controller.

(** A click or a pointer move is on screen when its coordinates pass
    [_validate_coordinates]; other events carry no target point. *)
Definition on_screen (w : world) (e : event) : bool :=
  match e with
  | EvClick x y _ _ => _validate_coordinates w x y
  | EvMoveTo x y => _validate_coordinates w x y
  | _ => true
  end.

(** [tr'] is [tr] followed by events that are all on screen. *)
Definition extends (w : world) (tr tr' : trace) : Prop :=
  exists evs, tr' = tr ++ evs /\ Forall (fun e => on_screen w e = true) evs.

(** The parts of a controller that only its own methods [start], [stop],
    [reset_emergency_stop], [clear_action_history] and the listener
    change. *)
Definition same_settings (st st' : Controller.t) : Prop :=
  emergency_stop st' = emergency_stop st
  /\ running st' = running st
  /\ confirmation st' = confirmation st.


(** The action built by [MCPAgentServer._handle_scroll] from the tool
    arguments; [None] is the [KeyError] of a missing direction. *)
Definition _handle_scroll_action (arguments : dict) : option dict :=
  match get arguments "direction" with
  | None => None
  | Some direction =>
    let action :=
      [ ("type", VStr "scroll"); ("direction", direction);
        ("clicks", get_default arguments "clicks" (VInt 3)) ] in
    match get arguments "x", get arguments "y" with
    | Some x, Some y => Some (action ++ [ ("x", x); ("y", y) ])
    | _, _ => Some action
    end
  end.

(** [not result.success and action.get("stop_on_failure", False)], read
    on the result, whose details are the action. *)
Definition stops_sequence (r : ActionResult) : bool :=
  negb (success r) && truth (dflt (details r) "stop_on_failure" (VBool false)).

(** A scroll event of three notches, up or down; any other event. *)
Definition three_notches (e : event) : Prop :=
  match e with
  | EvScroll amount => amount = 3 \/ amount = -3
  | _ => True
  end.

End ControllerDefs.

Module SafetyDefs.
Import Py SafetyMonitor.

(** The verdict of [SafetyMonitor.validate_action] on an action whose
    target, command and operation are strings (or absent) and whose path is
    a string (or absent), read off its three checks. *)
Definition approves (action : dict) (target command operation : string)
    (safe_path : bool) : bool :=
  negb (existsb (fun keyword => contains keyword target) warning_keywords)
  && negb (value_is (get action "type") "system_command"
           && existsb (fun dangerous => contains dangerous command)
                [ "rm -rf"; "format"; "del /f" ])
  && negb (value_is (get action "type") "file_operation"
           && (String.eqb operation "delete" || String.eqb operation "format")
           && negb safe_path).

(** What [AdvancedAgentWrapper.process_user_request] returns, for a planner
    that made a task of [plan_steps] steps. *)
Inductive request_status :=
| Blocked (reason : string)
| Approved (plan_steps : nat)
| RequestRaises.

Definition process_user_request (plan_steps : nat) (user_prompt : string)
    : request_status :=
  match validate_action [ ("type", VStr "user_request");
                          ("content", VStr user_prompt) ] with
  | None => RequestRaises
  | Some (false, safety_message) => Blocked safety_message
  | Some (true, _) => Approved plan_steps
  end.

End SafetyDefs.

Module PerceiverDefs.
Import Py Perceiver.

(** [element.get("text", "")] for an element built by [detect_elements],
    whose dictionary has the keys type, bbox, center, area and confidence
    only. *)
Definition element_text (e : element) : string := EmptyString.

(** [Perceiver.get_ui_element_by_text] over the elements of a context. *)
Definition get_ui_element_by_text (ctx : ScreenContext) (text : string)
    : option element :=
  let text_lower := lower text in
  find (fun e => contains text_lower (lower (element_text e))) (ui_elements ctx).

End PerceiverDefs.

Module AgentDefs.
Import Py Decomposer.

(** ** [RealDesktopAgent.handle_complex_open_command] *)

Definition typo_map : list (string * string) :=
  [ ("serch", "search"); ("serach", "search"); ("sreach", "search");
    ("webiste", "website"); ("googel", "google") ].

(** The lowered command with the typos of [typo_map] replaced. *)
Definition corrected (command : string) : string :=
  fold_left (fun cmd typo => replace (fst typo) (snd typo) cmd)
    typo_map (lower command).

(** The parts: the pieces between " and ", then the pieces between
    " then ", all stripped. *)
Definition parts_of (cmd : string) : list string :=
  map strip (split " and " cmd) ++ map strip (split " then " cmd).

(** Empty parts and parts already seen are dropped, the order is kept. *)
Fixpoint distinct (seen : list string) (parts : list string) : list string :=
  match parts with
  | [] => []
  | part :: rest =>
    if truthy part && negb (mem part seen)
    then part :: distinct (part :: seen) rest
    else distinct seen rest
  end.

Definition complex_steps (command : string) : list string :=
  distinct [] (parts_of (corrected command)).

(** [s[n:]]. *)
Fixpoint drop (n : nat) (s : string) : string :=
  match n, s with
  | O, _ => s
  | S n', String _ s' => drop n' s'
  | S _, EmptyString => EmptyString
  end.

Definition fillers : list string :=
  [ "i want you to "; "please "; "kindly "; "could you " ].

Definition without_fillers (part : string) : string :=
  fold_left
    (fun clean filler =>
       if startswith clean filler
       then strip (drop (String.length filler) clean) else clean)
    fillers part.

(** The operation a cleaned step is handed to. *)
Inductive route := OpenChrome | SearchFor | Navigate | Intelligent.

Definition route_of (clean : string) : route :=
  if contains "open" clean && (contains "chrome" clean || contains "browser" clean)
  then OpenChrome
  else if contains "search" clean || contains "find" clean
          || contains "look up" clean
  then SearchFor
  else if contains "enter" clean || contains "visit" clean
          || contains "website" clean
  then Navigate
  else Intelligent.

(** The loop over the steps: [perform] is the outcome of the operation a
    step is routed to; the steps handed over are listed, the first failure
    ends the loop. *)
Fixpoint dispatch_all (perform : route -> string -> bool) (steps : list string)
    : bool * list (route * string) :=
  match steps with
  | [] => (true, [])
  | part :: rest =>
    let clean := without_fillers part in
    let r := route_of clean in
    if perform r clean then
      let '(ok, done) := dispatch_all perform rest in (ok, (r, clean) :: done)
    else (false, [(r, clean)])
  end.

Definition handle_complex_open_command (perform : route -> string -> bool)
    (command : string) : bool * list (route * string) :=
  dispatch_all perform (complex_steps command).

End AgentDefs.

Module DecomposerDefs.

(** A numbered answer of two lines. *)
Definition two_lines : string :=
  ("1. Open Chrome" ++ String (ascii_of_N 10) "2. Wait")%string.

End DecomposerDefs.

Module OllamaDefs.
Import Py.

(** [OllamaClient.generate_text] of [src/utils/ollama_client.py]. *)

(** What one POST to the backend gives: a timeout, another exception, or
    a response with its status code and the "response" entry of its JSON
    body ([None] where decoding the body raises). *)
Inductive post_outcome :=
| TimesOut
| OtherError
| Answer (status : Z) (body : option string).

(** One request: the prompt of the payload and the timeout. *)
Definition request := (string * Z)%type.

(** The backend: whether the model is listed or can be pulled, and the
    outcome of the POST number [i] (from 0) of a call. *)
Record backend := mkBackend {
  model_available : bool;
  post : nat -> request -> post_outcome
}.

(** [ModelResponse]: [used_simplified_prompt] is the entry of the
    metadata, which only a successful response has. *)
Record ModelResponse := mkResponse {
  content : string;
  success : bool;
  used_simplified_prompt : option bool
}.

Definition failure : ModelResponse := mkResponse EmptyString false None.

(** [CONFIG.models.max_retries] and [CONFIG.models.timeout]. *)
Definition max_retries : nat := 3.
Definition config_timeout : Z := 60.

Definition len (s : string) : Z := Z.of_nat (String.length s).

(** The timeout when none is given: [timeout * 2] above 3000 characters,
    [int(timeout * 1.5)] above 1000, [timeout] otherwise. *)
Definition adaptive_timeout (timeout : option Z) (prompt : string) : Z :=
  match timeout with
  | Some t => t
  | None =>
    if 3000 <? len prompt then config_timeout * 2
    else if 1000 <? len prompt then Z.quot (config_timeout * 3) 2
    else config_timeout
  end.

(** [s[:n]]. *)
Fixpoint take_chars (n : nat) (s : string) : string :=
  match n, s with
  | S n', String c s' => String c (take_chars n' s')
  | _, _ => EmptyString
  end.

(** [s[n:]]. *)
Fixpoint drop_chars (n : nat) (s : string) : string :=
  match n, s with
  | S n', String _ s' => drop_chars n' s'
  | _, _ => s
  end.

(** [s[-k:]]: the whole text for [k = 0]. *)
Definition last_chars (k : nat) (s : string) : string :=
  match k with
  | O => s
  | _ => drop_chars (String.length s - k) s
  end.

Definition newline : string := String (ascii_of_N 10) EmptyString.

Definition marker : string :=
  (newline ++ "...[examples omitted for brevity]..." ++ newline)%string.

(** The prompt after the timeout number [attempt]: the reduction is
    [0.25 * (attempt + 1)] capped at 0.75, counted here in quarters; the
    prompt keeps [int(len * (1 - reduction))] characters of the original,
    [int(keep * 0.4)] from its start and the rest from its end. *)
Definition reduced_prompt (original : string) (attempt : Z) : string :=
  let quarters := Z.min (attempt + 1) 3 in
  let keep_chars := len original * (4 - quarters) / 4 in
  let start_portion := keep_chars * 2 / 5 in
  let end_portion := keep_chars - start_portion in
  (take_chars (Z.to_nat start_portion) original ++ marker
   ++ last_chars (Z.to_nat end_portion) original)%string.

(** The last-resort prompt: built on the first line that names the user
    command, else the last fifth of the original. *)
Definition simplified_prompt (original : string) : string :=
  match find (fun line => contains "USER COMMAND" line
                          || contains "command:" (lower line))
          (split newline original) with
  | Some command_line =>
    ("Break this command into numbered steps: " ++ command_line ++ newline
     ++ "Be concise. Just list the steps.")%string
  | None => last_chars (Z.to_nat (len original / 5)) original
  end.

(** How the retry loop ends: with a response, or with an exception. *)
Inductive loop_end :=
| Responded (status : Z) (body : option string)
| Raised.

(** The [while attempt < max_retries] loop; [remaining] is
    [max_retries - attempt], [current] the prompt of the payload, [sent]
    the requests made so far. *)
Fixpoint retry_loop (b : backend) (timeout : Z) (original : string)
    (remaining : nat) (current : string) (sent : list request)
    : loop_end * list request :=
  match remaining with
  | O => (Raised, sent)
  | S remaining' =>
    let sent1 := sent ++ [(current, timeout)] in
    match post b (List.length sent) (current, timeout) with
    | Answer status body => (Responded status body, sent1)
    | OtherError => (Raised, sent1)
    | TimesOut =>
      let attempt := Z.of_nat (max_retries - remaining') in
      match remaining' with
      | O =>
        let simplified := simplified_prompt original in
        let sent2 := sent1 ++ [(simplified, timeout)] in
        match post b (List.length sent1) (simplified, timeout) with
        | Answer status body => (Responded status body, sent2)
        | _ => (Raised, sent2)
        end
      | S _ =>
        let current :=
          if 1000 <? len current then reduced_prompt original attempt
          else current in
        retry_loop b timeout original remaining' current sent1
      end
    end
  end.

(** [generate_text]: the response and the requests made. *)
Definition generate_text (b : backend) (prompt : string) (timeout : option Z)
    : ModelResponse * list request :=
  if negb (model_available b) then (failure, [])
  else
    let timeout := adaptive_timeout timeout prompt in
    let original_prompt := prompt in
    match retry_loop b timeout original_prompt max_retries prompt [] with
    | (Responded status body, sent) =>
      if status =? 200 then
        match body with
        | Some text =>
          (mkResponse text true
             (Some (negb (String.eqb prompt original_prompt))), sent)
        | None => (failure, sent)
        end
      else (failure, sent)
    | (Raised, sent) => (failure, sent)
    end.

(** A backend that times out on every request. *)
Definition always_times_out : backend :=
  mkBackend true (fun _ _ => TimesOut).

(** A backend that times out three times, then answers. *)
Definition answers_the_fourth : backend :=
  mkBackend true (fun i _ => if Nat.ltb i 3 then TimesOut
                             else Answer 200 (Some "1. open chrome")).

End OllamaDefs.

(* ================================================================== *)
(** * Properties of the task-execution engine *)
(* ================================================================== *)

Module EngineFacts.
Import TaskTracker Engine Samples.

(** The abort test covers positions 1, 2, n-1 and n. *)
Lemma is_critical_spec (idx n : Z) :
  is_critical idx n = true <-> idx <= 2 \/ idx = n - 1 \/ idx >= n.
Proof.
  unfold is_critical. rewrite orb_true_iff, Z.leb_le, Z.geb_le. lia.
Qed.

(** A step whose three attempts all fail aborts the plan exactly when
    the abort test holds at its position, and is then never retried. *)
Lemma attempts_exhausted (h : handler) (idx n : Z) (step : string) (st : state) :
  h idx 0 = false -> h idx 1 = false -> h idx 2 = false ->
  fst (attempts 3 h idx n step 0 st)
  = if is_critical idx n then Abort else Continue.
Proof.
  intros H0 H1 H2. cbn [attempts]. unfold max_retries. cbn -[is_critical complete_task mark_step_complete].
  rewrite H0. cbn -[is_critical complete_task mark_step_complete].
  rewrite H1. cbn -[is_critical complete_task mark_step_complete].
  rewrite H2. destruct (is_critical idx n); [|reflexivity].
  destruct (complete_task _ _); reflexivity.
Qed.

(** The second-to-last position satisfies the abort test although it is
    neither first, second nor last. *)
Lemma second_to_last_is_critical (n : Z) :
  4 <= n -> is_critical (n - 1) n = true /\ n - 1 <> 1 /\ n - 1 <> 2 /\ n - 1 <> n.
Proof.
  intro Hn. split; [apply is_critical_spec; lia | lia].
Qed.

(** C1 (scenario D on the code): on a 4-step plan whose third step fails
    all three attempts, the engine aborts after step 3: it returns False
    with 2 completed and 1 failed step, a completion rate of 1/2, and the
    fourth step is never attempted. *)
Theorem C1_four_steps_third_fails_aborts :
  let o := run_plan fails_step3 "cmd" plan4 in
  returned o = false /\ aborted o = true /\
  successful_steps (final o) = 2 /\ Engine.failed_steps (final o) = 1 /\
  calls (final o) = [(1,0); (2,0); (3,0); (3,1); (3,2)] /\
  last_summary (final o) = Some (mkSummary false 4 2 1 (2 / 4)%Q).
Proof. vm_compute. repeat split; reflexivity. Qed.

End EngineFacts.

(* ================================================================== *)
(** * Properties of the action validator *)
(* ================================================================== *)

Module ValidatorFacts.
Import Py Config Controller Samples Reading.

(** C2 (as the code has it): for an action of a supported type, the
    validator reports [requires_confirmation = true] exactly when the
    parameters its type requires are present and the safety level is at
    least 3, or safe mode is off, or the lowered text of the action
    contains one of the keywords of [SENSITIVE_KEYWORDS]. *)
Theorem C2_requires_confirmation (c : Config.t) (a : dict) (t : string) (lvl : Z) :
  type_lower a = Some t ->
  lookup ACTION_SAFETY_LEVELS t = Some lvl ->
  (reports_confirmation (validate_action c a) = true <->
   required_present t a = true /\
   (3 <= lvl \/ safe_mode c = false \/ keyword_hit SENSITIVE_KEYWORDS a = true)).
Proof.
  intros Ht Hl. unfold validate_action, required_present.
  rewrite Ht, Hl.
  assert (Hrc : forall b : bool,
             (if keyword_hit SENSITIVE_KEYWORDS a then true
              else (lvl >=? 3) || negb (safe_mode c)) = b ->
             (b = true <->
              3 <= lvl \/ safe_mode c = false
              \/ keyword_hit SENSITIVE_KEYWORDS a = true)).
  { intros b <-. destruct (keyword_hit SENSITIVE_KEYWORDS a).
    - tauto.
    - rewrite orb_true_iff, Z.geb_le, negb_true_iff.
      intuition discriminate. }
  specialize (Hrc _ eq_refl).
  destruct (String.eqb t "click");
    [ destruct (has_key a "x"), (has_key a "y"); cbn; intuition discriminate | ].
  destruct (String.eqb t "type");
    [ destruct (has_key a "text"); cbn; intuition discriminate | ].
  destruct (String.eqb t "key_press");
    [ destruct (has_key a "key"); cbn; intuition discriminate | ].
  cbn. intuition.
Qed.

Lemma C2_requires_confirmation_witness :
  reports_confirmation (validate_action CONFIG type_password) = true <->
  required_present "type" type_password = true /\
  (3 <= 1 \/ safe_mode CONFIG = false
   \/ keyword_hit SENSITIVE_KEYWORDS type_password = true).
Proof.
  apply (C2_requires_confirmation CONFIG type_password "type" 1); reflexivity.
Defined.

(** C2 (as stated) fails: a click whose target is "rm" matches the
    listed keyword "rm", yet in safe mode the validator does not ask for
    confirmation. *)
Lemma C2_listed_rule_fails : ~ listed_rule CONFIG click_rm.
Proof.
  intro H. specialize (H "click" 0 eq_refl eq_refl).
  destruct H as [_ H].
  assert (Hf : reports_confirmation (validate_action CONFIG click_rm) = true).
  { apply H. right. right. vm_compute. reflexivity. }
  vm_compute in Hf. discriminate.
Qed.

End ValidatorFacts.

(* ================================================================== *)
(** * Properties of the controller *)
(* ================================================================== *)

Module ControllerFacts.
Import Py Config Controller Samples Reading.

Lemma execute_action_stopped (w : world) (a : dict) (st : Controller.t) :
  emergency_stop st = true ->
  execute_action w a st = (Some (stopped_result a), st).
Proof.
  intro H. unfold execute_action. rewrite H. reflexivity.
Qed.

Lemma sequence_loop_stopped (w : world) (keys : nat -> bool) (i : nat)
    (actions : list dict) (results : list ActionResult) (st : Controller.t) :
  emergency_stop st = true ->
  sequence_loop w keys i actions results st = (Some results, st).
Proof.
  intro H. destruct actions as [|a rest]; cbn [sequence_loop];
    [reflexivity | rewrite H; reflexivity].
Qed.

Lemma apply_op_stopped (w : world) (o : op) (st : Controller.t) :
  emergency_stop st = true -> is_reset o = false ->
  emergency_stop (apply_op w o st) = true
  /\ events (apply_op w o st) = events st.
Proof.
  intros H Hr. destruct o; cbn [apply_op]; try discriminate;
    try (split; [exact H | reflexivity]).
  - split; reflexivity.
  - rewrite execute_action_stopped by exact H. cbn. auto.
  - unfold execute_action_sequence.
    rewrite sequence_loop_stopped by exact H. cbn. auto.
  - unfold click_element. destruct bbox as [[[bx by_] bw] bh].
    rewrite execute_action_stopped by exact H. cbn. auto.
Qed.

Lemma run_stopped (w : world) (ops : list op) :
  forall st, emergency_stop st = true -> no_reset ops = true ->
  emergency_stop (run w ops st) = true /\ events (run w ops st) = events st.
Proof.
  induction ops as [|o ops IH]; intros st H Hn; cbn.
  - auto.
  - cbn in Hn. apply andb_true_iff in Hn. destruct Hn as [Ho Hn].
    apply negb_true_iff in Ho.
    destruct (apply_op_stopped w o st H Ho) as [H1 H2].
    destruct (IH (apply_op w o st) H1 Hn) as [H3 H4].
    split; [exact H3 | rewrite <- H2; exact H4].
Qed.

(** When the key combination is pressed while action number
    [length pre] of a sequence runs, the sequence ends with that action:
    the outcome is the one of the sequence cut after it. *)
Lemma sequence_stops_after_key (w : world) (keys : nat -> bool)
    (pre : list dict) (a : dict) (rest : list dict) :
  forall i results st,
    keys (i + List.length pre)%nat = true ->
    sequence_loop w keys i (pre ++ a :: rest) results st
    = sequence_loop w keys i (pre ++ [a]) results st.
Proof.
  induction pre as [|p pre IH]; intros i results st Hk.
  - cbn [List.app sequence_loop]. cbn in Hk. rewrite Nat.add_0_r in Hk.
    destruct (emergency_stop st); [reflexivity|].
    destruct (execute_action w a st) as [[r|] st']; [|reflexivity].
    rewrite Hk.
    destruct (negb (success r) && truth (dflt a "stop_on_failure" (VBool false)));
      [reflexivity|].
    rewrite !sequence_loop_stopped by reflexivity. reflexivity.
  - cbn [List.app sequence_loop].
    destruct (emergency_stop st); [reflexivity|].
    destruct (execute_action w p st) as [[r|] st']; [|reflexivity].
    destruct (negb (success r) && truth (dflt p "stop_on_failure" (VBool false)));
      [reflexivity|].
    apply IH. cbn in Hk. rewrite <- Hk. f_equal. lia.
Qed.

(** C3: once the emergency-stop flag is set, [execute_action] returns a
    failed result and leaves the controller (its event trace included)
    untouched; an action sequence, at whatever point it is, attempts
    nothing more; after any calls other than [reset_emergency_stop] the
    flag is still set, no event has been added and [execute_action] still
    fails; [reset_emergency_stop] clears the flag. *)
Theorem C3_emergency_stop_blocks (w : world) (st : Controller.t) :
  emergency_stop st = true ->
  (forall a, execute_action w a st = (Some (stopped_result a), st)
             /\ success (stopped_result a) = false)
  /\ (forall keys i actions results,
        sequence_loop w keys i actions results st = (Some results, st))
  /\ (forall ops, no_reset ops = true ->
        emergency_stop (run w ops st) = true
        /\ events (run w ops st) = events st
        /\ forall a, fst (execute_action w a (run w ops st))
                     = Some (stopped_result a))
  /\ emergency_stop (reset_emergency_stop st) = false.
Proof.
  intro H. repeat split.
  - apply execute_action_stopped, H.
  - intros. apply sequence_loop_stopped, H.
  - apply run_stopped; assumption.
  - apply run_stopped; assumption.
  - intro a. rewrite execute_action_stopped; [reflexivity|].
    apply run_stopped; assumption.
Qed.

Lemma C3_emergency_stop_blocks_witness :
  (forall a, execute_action desktop a stopped = (Some (stopped_result a), stopped)
             /\ success (stopped_result a) = false)
  /\ (forall keys i actions results,
        sequence_loop desktop keys i actions results stopped
        = (Some results, stopped))
  /\ (forall ops, no_reset ops = true ->
        emergency_stop (run desktop ops stopped) = true
        /\ events (run desktop ops stopped) = events stopped
        /\ forall a, fst (execute_action desktop a (run desktop ops stopped))
                     = Some (stopped_result a))
  /\ emergency_stop (reset_emergency_stop stopped) = false.
Proof.
  apply (C3_emergency_stop_blocks desktop stopped). reflexivity.
Defined.

(** ** Action types missing from the safety table *)

Lemma unlisted_not_in_table (t : string) :
  In t unlisted_types -> lookup ACTION_SAFETY_LEVELS t = None.
Proof.
  intros [<-|[<-|[<-|[<-|[]]]]]; reflexivity.
Qed.

(** C10: an action whose type is move_mouse, launch_app, close_app or
    wait is refused by the validator as an unsupported action type, and
    [execute_action] returns a failed result without touching the
    controller (no operation is performed); the error is the validator's
    message, or the emergency-stop message when the flag is set. *)
Theorem C10_unlisted_types_rejected (w : world) (a : dict) (st : Controller.t)
    (t : string) :
  type_lower a = Some t ->
  In t unlisted_types ->
  validate_action (cfg w) a
  = Verdict false (Some ("Unsupported action type: " ++ t)%string) false
  /\ execute_action w a st
     = (Some (mkResult false (dflt a "type" (VStr "unknown")) a
                (Some (Msg (if emergency_stop st
                            then "Emergency stop activated"
                            else ("Unsupported action type: " ++ t)%string)))
                false),
        st).
Proof.
  intros Ht Hin. apply unlisted_not_in_table in Hin.
  assert (Hv : validate_action (cfg w) a
               = Verdict false (Some ("Unsupported action type: " ++ t)%string) false).
  { unfold validate_action. rewrite Ht, Hin. reflexivity. }
  split; [exact Hv|].
  unfold execute_action. destruct (emergency_stop st); [reflexivity|].
  rewrite Hv. reflexivity.
Qed.

Lemma C10_unlisted_types_rejected_witness :
  validate_action (cfg desktop) wait_action
  = Verdict false (Some "Unsupported action type: wait") false
  /\ execute_action desktop wait_action Controller.new
     = (Some (mkResult false (VStr "wait") wait_action
                (Some (Msg "Unsupported action type: wait")) false),
        Controller.new).
Proof.
  apply (C10_unlisted_types_rejected desktop wait_action Controller.new "wait").
  - reflexivity.
  - cbn. auto.
Defined.

(** The dispatch itself does handle these types: called directly, it
    performs a wait. *)
Example dispatch_handles_wait :
  _execute_action_internal desktop wait_action Controller.new
  = (Some (mkResult true (VStr "wait") wait_action None false),
     with_events Controller.new [EvSleep]).
Proof. reflexivity. Qed.

(** ** File operations *)

Lemma validate_file_operation (c : Config.t) (a : dict) :
  type_lower a = Some "file_operation" ->
  validate_action c a = Verdict true None true.
Proof.
  intro Ht. unfold validate_action. rewrite Ht.
  change (lookup ACTION_SAFETY_LEVELS "file_operation") with (Some 3).
  destruct (keyword_hit SENSITIVE_KEYWORDS a); reflexivity.
Qed.

Lemma internal_file_operation (w : world) (a : dict) (st : Controller.t) :
  type_lower a = Some "file_operation" ->
  _execute_action_internal w a st
  = (Some (mkResult false (VStr "file_operation") a
             (Some (Msg "Unknown action type: file_operation")) false), st).
Proof.
  intro Ht. unfold _execute_action_internal. rewrite Ht. reflexivity.
Qed.

Lemma inputs_snoc_quiet (tr : trace) (e : event) :
  is_input e = false -> inputs (tr ++ [e]) = inputs tr.
Proof.
  intro H. unfold inputs. rewrite filter_app. cbn. rewrite H.
  apply app_nil_r.
Qed.

(** The confirmation gate adds no input event. *)
Lemma request_confirmation_quiet (self : UserConfirmation) (w : world)
    (a : dict) (tr : trace) :
  inputs (snd (request_confirmation self w a tr)) = inputs tr.
Proof.
  unfold request_confirmation.
  destruct (negb (confirm_sensitive_actions (cfg w))); [reflexivity|].
  destruct (negb (tkinter_found w)); [reflexivity|].
  destruct (messagebox_import w).
  - destruct (dialog_answer w a); apply inputs_snoc_quiet; reflexivity.
  - destruct (console_answer w a); apply inputs_snoc_quiet; reflexivity.
  - reflexivity.
Qed.

(** In the controller a file operation never produces an input event and
    never succeeds. *)
Lemma controller_file_operation (w : world) (a : dict) (st : Controller.t) :
  type_lower a = Some "file_operation" ->
  inputs (events (snd (execute_action w a st))) = inputs (events st)
  /\ forall r, fst (execute_action w a st) = Some r -> success r = false.
Proof.
  intro Ht. unfold execute_action.
  destruct (emergency_stop st).
  { split; [reflexivity|]. intros r [= <-]. reflexivity. }
  rewrite (validate_file_operation _ _ Ht).
  pose proof (request_confirmation_quiet (confirmation st) w a (events st)) as Hq.
  destruct (request_confirmation (confirmation st) w a (events st)) as [[[|]|] tr];
    cbn [fst snd] in *.
  - rewrite internal_file_operation by exact Ht. cbn.
    split; [exact Hq|]. intros r [= <-]. reflexivity.
  - cbn. split; [exact Hq|]. intros r [= <-]. reflexivity.
  - cbn. split; [exact Hq|]. discriminate.
Qed.

(** C5 (as the code has it): [SafetyMonitor.validate_action] never
    approves a file_operation whose operation is delete or format and
    whose path holds no safe-zone name (compared in lower case), and
    rejects it whenever the target is absent or a string; the controller
    does not consult that monitor, but no such action produces an input
    event or succeeds there. *)
Theorem C5_unsafe_file_operation (w : world) (st : Controller.t) (a : dict)
    (op : string) :
  SafetyMonitor.value_is (get a "type") "file_operation" = true ->
  SafetyMonitor.get_lower a "operation" = Some op ->
  op = "delete" \/ op = "format" ->
  SafetyMonitor._is_safe_location (get_default a "path" (VStr EmptyString))
  = Some false ->
  (forall msg, SafetyMonitor.validate_action a <> Some (true, msg))
  /\ (forall tgt, SafetyMonitor.get_lower a "target" = Some tgt ->
        exists msg, SafetyMonitor.validate_action a = Some (false, msg))
  /\ inputs (events (snd (execute_action w a st))) = inputs (events st)
  /\ (forall r, fst (execute_action w a st) = Some r -> success r = false).
Proof.
  intros Hty Hop Hdel Hpath.
  assert (Hget : get a "type" = Some (VStr "file_operation")).
  { unfold SafetyMonitor.value_is in Hty.
    destruct (get a "type") as [[s| | | |]|]; try discriminate.
    apply String.eqb_eq in Hty. subst s. reflexivity. }
  assert (Hsys : SafetyMonitor.value_is (get a "type") "system_command" = false).
  { rewrite Hget. reflexivity. }
  assert (Hopb : String.eqb op "delete" || String.eqb op "format" = true).
  { destruct Hdel as [-> | ->]; reflexivity. }
  assert (Hshape : forall tgt,
             SafetyMonitor.get_lower a "target" = Some tgt ->
             exists msg, SafetyMonitor.validate_action a = Some (false, msg)).
  { intros tgt Htgt. unfold SafetyMonitor.validate_action.
    rewrite Htgt.
    destruct (SafetyMonitor.first_hit SafetyMonitor.warning_keywords tgt);
      [eexists; reflexivity|].
    rewrite Hsys, Hty, Hop, Hopb, Hpath. cbn. eexists; reflexivity. }
  split; [|split; [exact Hshape|]].
  - intros msg Hc.
    destruct (SafetyMonitor.get_lower a "target") as [tgt|] eqn:Htgt.
    + destruct (Hshape tgt eq_refl) as [m Hm]. congruence.
    + unfold SafetyMonitor.validate_action in Hc. rewrite Htgt in Hc.
      discriminate.
  - apply controller_file_operation. unfold type_lower. rewrite Hget.
    reflexivity.
Qed.

Lemma C5_unsafe_file_operation_witness :
  (forall msg, SafetyMonitor.validate_action delete_passwd <> Some (true, msg))
  /\ (forall tgt, SafetyMonitor.get_lower delete_passwd "target" = Some tgt ->
        exists msg, SafetyMonitor.validate_action delete_passwd = Some (false, msg))
  /\ inputs (events (snd (execute_action desktop delete_passwd Controller.new)))
     = inputs (events Controller.new)
  /\ (forall r, fst (execute_action desktop delete_passwd Controller.new) = Some r ->
        success r = false).
Proof.
  apply (C5_unsafe_file_operation desktop Controller.new delete_passwd "delete").
  - reflexivity.
  - reflexivity.
  - left. reflexivity.
  - reflexivity.
Defined.

(** C5 (as stated) fails in the controller: the delete of /etc/passwd is
    not refused before confirmation; the user is asked, and on approval
    the action goes through the dispatch and into the history. *)
Lemma C5_delete_passwd_not_rejected_outright :
  ~ rejected_outright desktop delete_passwd Controller.new.
Proof.
  intros [r [H _]]. vm_compute in H. discriminate.
Qed.

Example delete_passwd_in_controller :
  validate_action CONFIG delete_passwd = Verdict true None true
  /\ events (snd (execute_action desktop delete_passwd Controller.new))
     = [EvDialog delete_passwd]
  /\ fst (execute_action desktop delete_passwd Controller.new)
     = fst (_execute_action_internal desktop delete_passwd Controller.new)
  /\ List.length (action_history
                    (snd (execute_action desktop delete_passwd Controller.new)))
     = 1%nat.
Proof. vm_compute. repeat split; reflexivity. Qed.

(** ** The confirmation gate *)

(** Without an approval nothing is dispatched: a denial gives the failed
    result with [confirmation_required] set, and an exception of the gate
    leaves [execute_action]; in both cases no input is performed and the
    history is as it was. *)
Lemma unapproved_is_not_executed (w : world) (a : dict) (st : Controller.t) :
  emergency_stop st = false ->
  validate_action (cfg w) a = Verdict true None true ->
  fst (request_confirmation (confirmation st) w a (events st)) <> Some true ->
  inputs (events (snd (execute_action w a st))) = inputs (events st)
  /\ action_history (snd (execute_action w a st)) = action_history st
  /\ match fst (request_confirmation (confirmation st) w a (events st)) with
     | Some _ =>
       exists r, fst (execute_action w a st) = Some r
                 /\ success r = false /\ confirmation_required r = true
                 /\ error_of r = Some (Msg "User denied confirmation")
     | None => fst (execute_action w a st) = None
     end.
Proof.
  intros He Hv Hd. unfold execute_action. rewrite He, Hv.
  pose proof (request_confirmation_quiet (confirmation st) w a (events st)) as Hq.
  destruct (request_confirmation (confirmation st) w a (events st)) as [ans tr].
  cbn [fst snd] in *. destruct ans as [[|]|].
  - congruence.
  - cbn. repeat split; try exact Hq. eexists. repeat split.
  - cbn. repeat split. exact Hq.
Qed.

(** C4 (as the code has it): the gate approves when the
    confirm-sensitive-actions flag is off, and also when the GUI toolkit
    is not installed; with the toolkit it returns the user's answer to the
    dialog (denial if the dialog raises); if importing the dialog module
    raises [ImportError] it asks on the console and approves only on the
    answer y or yes, and an exception of that console read is not caught:
    it leaves the gate without a decision; an import of the dialog module
    that raises anything else is a denial; the stored timeout value is
    never consulted; and
    whenever the gate does not approve, by a denial or by an exception,
    [execute_action] dispatches nothing: no input is performed and the
    history is unchanged, a denial giving a failed result that requires
    confirmation and an exception leaving [execute_action] too. *)
Theorem C4_confirmation_gate (self : UserConfirmation) (w : world) (a : dict)
    (tr : trace) :
  (confirm_sensitive_actions (cfg w) = false ->
     request_confirmation self w a tr = (Some true, tr))
  /\ (confirm_sensitive_actions (cfg w) = true -> tkinter_found w = false ->
        request_confirmation self w a tr = (Some true, tr))
  /\ (confirm_sensitive_actions (cfg w) = true -> tkinter_found w = true ->
        messagebox_import w = ImportOk ->
        request_confirmation self w a tr
        = (Some (match dialog_answer w a with Some b => b | None => false end),
           tr ++ [EvDialog a]))
  /\ (confirm_sensitive_actions (cfg w) = true -> tkinter_found w = true ->
        messagebox_import w = ImportFails ->
        request_confirmation self w a tr
        = (option_map
             (fun text => String.eqb (lower (strip text)) "y"
                          || String.eqb (lower (strip text)) "yes")
             (console_answer w a),
           tr ++ [EvConsole a]))
  /\ (confirm_sensitive_actions (cfg w) = true -> tkinter_found w = true ->
        messagebox_import w = ImportRaisesOther ->
        request_confirmation self w a tr = (Some false, tr))
  /\ (forall seconds,
        request_confirmation (mkConfirmation seconds) w a tr
        = request_confirmation self w a tr)
  /\ (forall st,
        emergency_stop st = false ->
        validate_action (cfg w) a = Verdict true None true ->
        fst (request_confirmation (confirmation st) w a (events st))
        <> Some true ->
        inputs (events (snd (execute_action w a st))) = inputs (events st)
        /\ action_history (snd (execute_action w a st)) = action_history st
        /\ match fst (request_confirmation (confirmation st) w a (events st)) with
           | Some _ =>
             exists r, fst (execute_action w a st) = Some r
                       /\ success r = false /\ confirmation_required r = true
           | None => fst (execute_action w a st) = None
           end).
Proof.
  split; [|split; [|split; [|split; [|split; [|split]]]]].
  - unfold request_confirmation. intros ->. reflexivity.
  - unfold request_confirmation. intros -> ->. reflexivity.
  - unfold request_confirmation. intros -> -> ->. cbn.
    destruct (dialog_answer w a); reflexivity.
  - unfold request_confirmation. intros -> -> ->. cbn.
    destruct (console_answer w a); reflexivity.
  - unfold request_confirmation. intros -> -> ->. reflexivity.
  - reflexivity.
  - intros st He Hv Hd.
    destruct (unapproved_is_not_executed w a st He Hv Hd) as [H1 [H2 H3]].
    split; [exact H1|]. split; [exact H2|].
    destruct (fst (request_confirmation (confirmation st) w a (events st)));
      [|exact H3].
    destruct H3 as [r [Hr [Hs [Hc _]]]]. exists r. auto.
Qed.

Lemma C4_confirmation_gate_witness :
  request_confirmation new_confirmation headless type_password []
  = (Some true, []).
Proof.
  apply (C4_confirmation_gate new_confirmation headless type_password []);
    reflexivity.
Defined.

(** C4 (as stated) fails: on a machine without the GUI toolkit a required
    confirmation is approved, not denied. *)
Lemma C4_headless_is_not_fail_safe : ~ denies_without_channel headless.
Proof.
  intro H. specialize (H eq_refl eq_refl type_password []).
  vm_compute in H. discriminate.
Qed.

(** There the gated action is carried out. *)
Example headless_types_the_password :
  validate_action CONFIG type_password = Verdict true None true
  /\ events (snd (execute_action headless type_password Controller.new))
     = [EvSleep; EvXdotool "my password"; EvSleep]
  /\ option_map success
       (fst (execute_action headless type_password Controller.new))
     = Some true.
Proof. vm_compute. repeat split; reflexivity. Qed.

(** Where the dialog module cannot be imported and the console cannot be
    read, the exception leaves [execute_action]; nothing is typed. *)
Example unread_console_leaves_the_gate :
  let w := mkWorld CONFIG 1920 1080 1 Linux (fun _ => true) 4242 true
             ImportFails (fun _ => Some true) (fun _ => None) in
  fst (request_confirmation new_confirmation w type_password []) = None
  /\ fst (execute_action w type_password Controller.new) = None
  /\ events (snd (execute_action w type_password Controller.new))
     = [EvConsole type_password].
Proof. vm_compute. repeat split; reflexivity. Qed.

(** ** Coordinates *)

(** [click] refuses coordinates that are off the screen after scaling:
    it fails and calls nothing. *)
Lemma click_out_of_bounds (w : world) (x y : Z) (button clicks : value)
    (tr : trace) :
  _validate_coordinates w (int_mul x (scaling_factor w))
    (int_mul y (scaling_factor w)) = false ->
  click w (VInt x) (VInt y) button clicks tr = (false, tr).
Proof.
  intro H. unfold click, adjust. cbn [to_int]. rewrite H. reflexivity.
Qed.

(** So does [move_mouse]. *)
Lemma move_mouse_out_of_bounds (w : world) (x y : Z) (tr : trace) :
  _validate_coordinates w (int_mul x (scaling_factor w))
    (int_mul y (scaling_factor w)) = false ->
  move_mouse w (VInt x) (VInt y) tr = (false, tr).
Proof.
  intro H. unfold move_mouse, adjust. cbn [to_int]. rewrite H. reflexivity.
Qed.

(** C7 (on the code): [drag] does not check its coordinates.  On a
    1920x1080 screen a drag from (0,0) to (5000,5000), a point that
    [_validate_coordinates] refuses, is passed to the GUI layer and
    reported as a success, also through [execute_action]. *)
Theorem C7_drag_out_of_bounds_is_performed :
  _validate_coordinates desktop 5000 5000 = false
  /\ drag desktop (VInt 0) (VInt 0) (VInt 5000) (VInt 5000) []
     = (true, [EvDrag 5000 5000; EvSleep])
  /\ (let a := [ ("type", VStr "drag"); ("start_x", VInt 0);
                 ("start_y", VInt 0); ("end_x", VInt 5000);
                 ("end_y", VInt 5000) ] in
      option_map success (fst (execute_action desktop a Controller.new))
      = Some true
      /\ inputs (events (snd (execute_action desktop a Controller.new)))
         = [EvDrag 5000 5000]).
Proof. vm_compute. repeat split; reflexivity. Qed.

End ControllerFacts.

(* ================================================================== *)
(** * Properties of the perception pipeline *)
(* ================================================================== *)

Module PerceiverFacts.
Import Py Perceiver Samples Reading.

Local Open Scope Q_scope.

Lemma Qltb_true (a b : Q) : Qltb a b = true -> a < b.
Proof.
  unfold Qltb. intro H. apply negb_true_iff in H.
  apply Qnot_le_lt. intro Hle. apply Qle_bool_iff in Hle. congruence.
Qed.

Lemma Qltb_false (a b : Q) : Qltb a b = false -> b <= a.
Proof.
  unfold Qltb. intro H. apply negb_false_iff in H.
  apply Qle_bool_iff. exact H.
Qed.

(** ** Classification *)

Lemma classify_is_listed (area aspect : Q) (width height : Z) :
  _classify_element area aspect width height
  = listed_classification area aspect width height.
Proof.
  unfold _classify_element, listed_classification.
  generalize (Qltb 1000 area) (Qltb area 50000) (Qltb (2 # 10) aspect)
             (Qltb aspect 5) (20 <? width)%Z (width <? 400)%Z
             (15 <? height)%Z (height <? 100)%Z.
  generalize (Qltb 500 area) (Qltb area 100000) (Qltb 2 aspect)
             (height <? 50)%Z.
  generalize (Qltb 400 area) (Qltb area 10000) (Qltb (5 # 10) aspect)
             (Qltb aspect 2) (Qltb 50000 area).
  intros.
  repeat match goal with
         | |- context [andb ?x _] => is_var x; destruct x; cbn
         | |- context [if ?x then _ else _] => is_var x; destruct x; cbn
         end;
    reflexivity.
Qed.

(** ** Ranking *)

Lemma insert_desc_in (e x : element) (l : list element) :
  In x (insert_desc e l) <-> x = e \/ In x l.
Proof.
  induction l as [|y l IH]; cbn.
  - intuition.
  - destruct (Qltb (e_confidence e) (e_confidence y)); cbn.
    + rewrite IH. intuition.
    + intuition.
Qed.

Lemma sort_desc_in (x : element) (l : list element) :
  In x (sort_desc l) <-> In x l.
Proof.
  induction l as [|y l IH]; cbn.
  - tauto.
  - unfold sort_desc in *. cbn. rewrite insert_desc_in, IH. intuition.
Qed.

Lemma insert_desc_sorted (e : element) (l : list element) :
  StronglySorted ranked l -> StronglySorted ranked (insert_desc e l).
Proof.
  induction 1 as [|y l Hs IH Hall]; cbn.
  - constructor; constructor.
  - destruct (Qltb (e_confidence e) (e_confidence y)) eqn:Hc.
    + constructor; [exact IH|].
      apply Forall_forall. intros x Hx. apply insert_desc_in in Hx.
      destruct Hx as [-> | Hx].
      * unfold ranked. apply Qlt_le_weak, Qltb_true, Hc.
      * rewrite Forall_forall in Hall. apply Hall, Hx.
    + apply Qltb_false in Hc.
      constructor; [constructor; assumption|].
      constructor; [exact Hc|].
      apply Forall_forall. intros x Hx. rewrite Forall_forall in Hall.
      unfold ranked in *. apply Qle_trans with (e_confidence y); auto.
Qed.

Lemma sort_desc_sorted (l : list element) : StronglySorted ranked (sort_desc l).
Proof.
  induction l as [|e l IH]; cbn.
  - constructor.
  - apply insert_desc_sorted, IH.
Qed.

Lemma firstn_in {A} (n : nat) (l : list A) (x : A) :
  In x (firstn n l) -> In x l.
Proof.
  revert l. induction n as [|n IH]; intros [|y l]; cbn; try tauto.
  intros [-> | H]; auto.
Qed.

Lemma firstn_sorted {A} (R : A -> A -> Prop) (n : nat) (l : list A) :
  StronglySorted R l -> StronglySorted R (firstn n l).
Proof.
  revert l. induction n as [|n IH]; intros l Hs; cbn.
  - constructor.
  - destruct Hs as [|y l Hs Hall]; [constructor|].
    constructor; [apply IH, Hs|].
    apply Forall_forall. intros x Hx. rewrite Forall_forall in Hall.
    apply Hall, (firstn_in _ _ _ Hx).
Qed.

(** The sort is stable: it does not reorder elements by itself. *)
Lemma sort_desc_perm (l : list element) : Permutation (sort_desc l) l.
Proof.
  assert (Hins : forall e l, Permutation (insert_desc e l) (e :: l)).
  { intros e l0. induction l0 as [|y l0 IH]; cbn; [reflexivity|].
    destruct (Qltb (e_confidence e) (e_confidence y)); [|reflexivity].
    rewrite IH. apply perm_swap. }
  induction l as [|e l IH]; cbn; [constructor|].
  unfold sort_desc in *. cbn. rewrite Hins. constructor. exact IH.
Qed.

Lemma collect_well_formed (contours : list contour) :
  forall elements, collect contours = Some elements ->
                   Forall well_formed elements.
Proof.
  induction contours as [|c rest IH]; cbn; intros elements H.
  - injection H as <-. constructor.
  - destruct (Qltb (c_area c) 100) eqn:Ha; [apply IH, H|].
    destruct (c_h c =? 0)%Z; [discriminate|].
    destruct (collect rest) as [l|]; [|discriminate].
    cbn in H. injection H as <-.
    specialize (IH l eq_refl).
    destruct (_classify_element (c_area c) (inject_Z (c_w c) / inject_Z (c_h c))
                (c_w c) (c_h c)) as [ty|] eqn:Hc; cbn; [|exact IH].
    constructor; [|exact IH].
    unfold well_formed. cbn. auto.
Qed.

(** What [detect_elements] returns: at most 50 elements, ordered by
    confidence, each built from a contour that is not too small. *)
Lemma detect_elements_ranked (contours : option (list contour)) :
  (List.length (detect_elements contours) <= 50)%nat
  /\ StronglySorted ranked (detect_elements contours)
  /\ Forall well_formed (detect_elements contours).
Proof.
  destruct contours as [contours|]; cbn [detect_elements];
    [|repeat split; [cbn; lia | constructor | constructor]].
  destruct (collect contours) as [elements|] eqn:Hc;
    [|repeat split; [cbn; lia | constructor | constructor]].
  repeat split.
  - rewrite length_firstn. lia.
  - apply firstn_sorted, sort_desc_sorted.
  - apply Forall_forall. intros x Hx.
    apply firstn_in in Hx. apply (proj1 (sort_desc_in _ _)) in Hx.
    pose proof (collect_well_formed contours elements Hc) as Hw.
    rewrite Forall_forall in Hw. apply Hw, Hx.
Qed.

(** With bounding rectangles of positive height, the loop collects the
    listed elements. *)
Lemma collect_listed (contours : list contour) :
  Forall (fun c => (0 < c_h c)%Z) contours ->
  collect contours = Some (listed_elements contours).
Proof.
  induction 1 as [|c rest Hc _ IH]; cbn [collect listed_elements flat_map];
    [reflexivity|].
  fold (listed_elements rest).
  destruct (Qltb (c_area c) 100); [exact IH|].
  assert (Hh : (c_h c =? 0)%Z = false) by (apply Z.eqb_neq; lia).
  rewrite Hh, IH, classify_is_listed. cbn [option_map].
  destruct (listed_classification _ _ _ _); reflexivity.
Qed.

(** In a ranked list every element after a cut ranks no higher than any
    element before it. *)
Lemma sorted_cut {A} (R : A -> A -> Prop) (n : nat) (l : list A) :
  StronglySorted R l ->
  Forall (fun d => Forall (fun e => R e d) (firstn n l)) (skipn n l).
Proof.
  revert l. induction n as [|n IH]; intros l Hs.
  - cbn. apply Forall_forall. intros d _. constructor.
  - destruct Hs as [|y l Hs Hall]; cbn [firstn skipn]; [constructor|].
    specialize (IH l Hs). rewrite Forall_forall in IH, Hall.
    apply Forall_forall. intros d Hd. constructor.
    + apply Hall. revert Hd. clear. revert l.
      induction n as [|n IHn]; intros [|z l]; cbn; auto.
    + apply IH, Hd.
Qed.

(** C8: [_classify_element] is the listed first-match rule; the list
    [detect_elements] returns has at most 50 elements, is ordered by
    confidence, larger first, and each of its elements comes from a
    region of area at least 100 and carries the type the rule gives to
    its area, aspect ratio, width and height; and for regions whose
    bounding rectangle has a positive height the returned list is made of
    the listed elements of these regions: all of them when there are at
    most 50, and otherwise 50 of them, none of the others ranking higher
    than a returned one. *)
Theorem C8_classification_and_ranking :
  (forall area aspect width height,
      _classify_element area aspect width height
      = listed_classification area aspect width height)
  /\ (forall contours,
        (List.length (detect_elements contours) <= 50)%nat
        /\ StronglySorted ranked (detect_elements contours)
        /\ Forall well_formed (detect_elements contours))
  /\ (forall contours,
        Forall (fun c => (0 < c_h c)%Z) contours ->
        let found := detect_elements (Some contours) in
        exists dropped,
          Permutation (found ++ dropped) (listed_elements contours)
          /\ Forall (fun d => Forall (fun e => ranked e d) found) dropped
          /\ List.length found
             = Nat.min 50 (List.length (listed_elements contours))).
Proof.
  split; [|split].
  - intros. apply classify_is_listed.
  - intros. apply detect_elements_ranked.
  - intros contours Hh. cbv zeta. cbn [detect_elements].
    rewrite (collect_listed contours Hh).
    exists (skipn 50 (sort_desc (listed_elements contours))).
    split; [|split].
    + rewrite firstn_skipn. apply sort_desc_perm.
    + apply sorted_cut, sort_desc_sorted.
    + rewrite length_firstn.
      rewrite (Permutation_length (sort_desc_perm (listed_elements contours))).
      reflexivity.
Qed.

Lemma C8_classification_and_ranking_witness :
  let contours := [ mkContour 2000 10 10 50 40; mkContour 50 0 0 5 10;
                    mkContour 60000 0 0 300 200 ] in
  exists dropped,
    Permutation (detect_elements (Some contours) ++ dropped)
      (listed_elements contours)
    /\ Forall (fun d => Forall (fun e => ranked e d)
                          (detect_elements (Some contours))) dropped
    /\ List.length (detect_elements (Some contours))
       = Nat.min 50 (List.length (listed_elements contours)).
Proof.
  apply (proj2 (proj2 C8_classification_and_ranking)).
  repeat constructor.
Defined.

(** Three regions: the small one is discarded, the panel comes first. *)
Example three_regions :
  map e_type
    (detect_elements
       (Some [ mkContour 2000 10 10 50 40; mkContour 50 0 0 5 10;
               mkContour 60000 0 0 300 200 ]))
  = [panel; button].
Proof. vm_compute. reflexivity. Qed.

(** ** Confidence *)

Lemma Qlen_cons {A} (x : A) (l : list A) : Qlen (x :: l) == 1 + Qlen l.
Proof.
  unfold Qlen. cbn [List.length]. rewrite Nat2Z.inj_succ.
  unfold Z.succ. rewrite inject_Z_plus. ring.
Qed.

Lemma Qlen_nonneg {A} (l : list A) : 0 <= Qlen l.
Proof.
  unfold Qlen. change 0 with (inject_Z 0). rewrite <- Zle_Qle. lia.
Qed.

Lemma Qsum_bounds (l : list Q) :
  Forall in_unit l -> 0 <= Qsum l /\ Qsum l <= Qlen l.
Proof.
  induction 1 as [|x l [Hx0 Hx1] _ [IH0 IH1]]; cbn.
  - split; [apply Qle_refl | apply Qlen_nonneg].
  - rewrite Qlen_cons. split.
    + change 0 with (0 + 0). apply Qplus_le_compat; assumption.
    + apply Qplus_le_compat; assumption.
Qed.

Lemma Qsum_nonneg (l : list Q) : Forall (Qle 0) l -> 0 <= Qsum l.
Proof.
  induction 1 as [|x l Hx _ IH]; cbn; [apply Qle_refl|].
  change 0 with (0 + 0). apply Qplus_le_compat; assumption.
Qed.

Lemma Qlen_pos {A} (x : A) (l : list A) : 0 < Qlen (x :: l).
Proof.
  rewrite Qlen_cons. apply Qlt_le_trans with 1; [reflexivity|].
  rewrite <- (Qplus_0_r 1) at 1. apply Qplus_le_compat;
    [apply Qle_refl | apply Qlen_nonneg].
Qed.

Lemma mean_nonneg (x : Q) (l : list Q) :
  Forall (Qle 0) (x :: l) -> 0 <= mean (x :: l).
Proof.
  intro H. unfold mean. apply Qle_shift_div_l; [apply Qlen_pos|].
  rewrite Qmult_0_l. apply Qsum_nonneg, H.
Qed.

Lemma mean_in_unit (x : Q) (l : list Q) :
  Forall in_unit (x :: l) -> in_unit (mean (x :: l)).
Proof.
  intro H. destruct (Qsum_bounds _ H) as [H0 H1]. unfold mean. split.
  - apply Qle_shift_div_l; [apply Qlen_pos|]. rewrite Qmult_0_l. exact H0.
  - apply Qle_shift_div_r; [apply Qlen_pos|]. rewrite Qmult_1_l. exact H1.
Qed.

Lemma capped_in_unit (x : Q) : 0 <= x -> in_unit (Qmin (x / 100) 1).
Proof.
  intro H. split.
  - apply Q.min_glb; [|discriminate].
    apply Qle_shift_div_l; [reflexivity|]. rewrite Qmult_0_l. exact H.
  - apply Q.le_min_r.
Qed.

(** [_calculate_confidence] stays within [0,1] when the element
    confidences are not negative. *)
Lemma calculate_confidence_in_unit (ocr_confidence : Q) (ecs : list Q)
    (vlm_text : string) :
  Forall (Qle 0) ecs ->
  in_unit (_calculate_confidence ocr_confidence ecs vlm_text).
Proof.
  intro Hecs. unfold _calculate_confidence.
  set (s1 := if Qltb 0 ocr_confidence
             then [] ++ [Qmin (ocr_confidence / 100) 1] else []).
  assert (H1 : Forall in_unit s1).
  { subst s1. destruct (Qltb 0 ocr_confidence) eqn:Ho; [|constructor].
    repeat constructor; apply capped_in_unit, Qlt_le_weak, Qltb_true, Ho. }
  set (s2 := match ecs with
             | [] => s1
             | _ => s1 ++ [Qmin (mean ecs / 100) 1]
             end).
  assert (H2 : Forall in_unit s2).
  { subst s2. destruct ecs as [|e ecs]; [exact H1|].
    apply Forall_app. split; [exact H1|].
    repeat constructor; apply capped_in_unit, mean_nonneg, Hecs. }
  set (s3 := if truthy vlm_text && negb (startswith vlm_text "Vision analysis")
             then s2 ++ [8 # 10] else s2).
  assert (H3 : Forall in_unit s3).
  { subst s3. destruct (truthy vlm_text && _); [|exact H2].
    apply Forall_app. split; [exact H2|].
    repeat constructor; discriminate. }
  destruct s3 as [|x l].
  - split; discriminate.
  - apply mean_in_unit, H3.
Qed.

Lemma well_formed_nonneg (e : element) : well_formed e -> 0 <= e_confidence e.
Proof.
  unfold well_formed. destruct (e_bbox e) as [[[x y] w] h].
  intros [Ha [_ ->]]. apply Qltb_false in Ha.
  apply Q.min_glb; [discriminate|].
  apply Qle_shift_div_l; [reflexivity|]. rewrite Qmult_0_l.
  apply Qle_trans with 100; [discriminate | exact Ha].
Qed.

(** The score of every context built by [perceive_screen] is in [0,1]. *)
Lemma confidence_score_in_unit (c : Config.t) (obs : observation) :
  in_unit (confidence_score (perceive_screen c obs)).
Proof.
  unfold perceive_screen. cbn [confidence_score].
  apply calculate_confidence_in_unit.
  apply Forall_map.
  assert (H : Forall well_formed
                (if Config.enable_ui_parsing c
                 then detect_elements (contours_found obs) else [])).
  { destruct (Config.enable_ui_parsing c); [|constructor].
    apply detect_elements_ranked. }
  revert H. apply Forall_impl. exact well_formed_nonneg.
Qed.

(** C6 (on the code): the sub-scores are divided by 100 once more before
    they are averaged.  With one recognised word of confidence 0.9, no
    element and no description, the only sub-score is the OCR confidence
    0.9, whose mean is 0.9; the context's score is 0.009. *)
Theorem C6_score_is_not_the_mean_of_subscores :
  let ocr := extract_text Config.CONFIG (ocr_table one_word) in
  let ctx := perceive_screen Config.CONFIG one_word in
  o_confidence ocr == 9 # 10
  /\ ui_elements ctx = []
  /\ vlm_description ctx = EmptyString
  /\ listed_confidence (o_confidence ocr) (map e_confidence (ui_elements ctx))
       (vlm_description ctx) == 9 # 10
  /\ confidence_score ctx == 9 # 1000
  /\ in_unit (confidence_score ctx).
Proof.
  cbv zeta. repeat split; try reflexivity; vm_compute; congruence.
Qed.

End PerceiverFacts.

(* ================================================================== *)
(** * Properties of the task decomposer *)
(* ================================================================== *)

Module DecomposerFacts.
Import Py Decomposer Samples Reading.

(** ** Stripping *)

Lemma rev_acc_empty (s acc : string) :
  rev_acc s acc = EmptyString -> s = EmptyString /\ acc = EmptyString.
Proof.
  revert acc. induction s as [|c s IH]; cbn; intros acc H.
  - auto.
  - apply IH in H. destruct H as [_ H]. discriminate.
Qed.

Lemma rev_acc_all_space (s acc : string) :
  all_space (rev_acc s acc) = all_space s && all_space acc.
Proof.
  revert acc. induction s as [|c s IH]; cbn; intros acc.
  - reflexivity.
  - rewrite IH. cbn. destruct (is_space c), (all_space s); reflexivity.
Qed.

Lemma lstrip_empty (s : string) :
  lstrip s = EmptyString <-> all_space s = true.
Proof.
  induction s as [|c s IH]; cbn.
  - tauto.
  - destruct (is_space c); cbn; [exact IH|].
    split; discriminate.
Qed.

Lemma lstrip_all_space (s : string) :
  all_space (lstrip s) = true -> lstrip s = EmptyString.
Proof.
  induction s as [|c s IH]; cbn; [reflexivity|].
  destruct (is_space c) eqn:Hc; [exact IH|].
  cbn. rewrite Hc. discriminate.
Qed.

(** [c.strip()] is empty exactly when [c] is white space only. *)
Lemma strip_blank (s : string) :
  truthy (strip s) = false <-> all_space s = true.
Proof.
  unfold strip, rstrip, rev. split.
  - intro H.
    assert (He : rev_acc (lstrip (rev_acc (lstrip s) EmptyString)) EmptyString
                 = EmptyString).
    { destruct (rev_acc (lstrip (rev_acc (lstrip s) EmptyString)) EmptyString);
        [reflexivity | discriminate]. }
    apply rev_acc_empty in He. destruct He as [He _].
    apply lstrip_empty in He. rewrite rev_acc_all_space in He.
    apply andb_true_iff in He. destruct He as [He _].
    apply lstrip_empty, lstrip_all_space, He.
  - intro H. apply lstrip_empty in H. rewrite H. reflexivity.
Qed.

(** ** The language-model path *)

Lemma acceptable_nonempty (lines : list string) :
  acceptable lines = true -> lines <> [].
Proof.
  destruct lines; [discriminate|]. intros _. discriminate.
Qed.

(** A plan accepted from the model has at least two distinct lines. *)
Lemma llm_plan_acceptable (o : oracle) (command : string) (lines : list string) :
  llm_plan o command = Some lines -> acceptable lines = true.
Proof.
  unfold llm_plan.
  destruct (primary o) as [|success content used]; [discriminate|].
  destruct success; cbn.
  - destruct (acceptable (parse_lines content)) eqn:Ha.
    + intros [= <-]. exact Ha.
    + destruct (negb (if used then true else negb (is_complex command)));
        [|discriminate].
      destruct (secondary o) as [|success2 content2 used2]; [discriminate|].
      destruct success2; [|discriminate].
      destruct (acceptable (parse_lines content2)) eqn:Hb; [|discriminate].
      intros [= <-]. exact Hb.
  - destruct (negb (negb (is_complex command))); [|discriminate].
    destruct (secondary o) as [|success2 content2 used2]; [discriminate|].
    destruct success2; [|discriminate].
    destruct (acceptable (parse_lines content2)) eqn:Hb; [|discriminate].
    intros [= <-]. exact Hb.
Qed.

(** ** The rule-based path *)

Lemma pieces_empty (sep cmd_lower : string) :
  pieces sep cmd_lower = []
  <-> Forall (fun c => all_space c = true) (split sep cmd_lower).
Proof.
  unfold pieces. induction (split sep cmd_lower) as [|c l IH]; cbn.
  - split; [constructor | reflexivity].
  - destruct (truthy (strip c)) eqn:Hc.
    + split; [discriminate|].
      intro H. inversion H as [|? ? Hs _]; subst.
      apply strip_blank in Hs. congruence.
    + cbn. rewrite IH. apply strip_blank in Hc. split.
      * intro H. constructor; assumption.
      * intro H. inversion H; assumption.
Qed.

Lemma empty_plan_iff (extract_search_term : string -> string)
    (o : oracle) (command : string) :
  refactor_user_prompt extract_search_term o command = []
  <-> nothing_to_split extract_search_term o command.
Proof.
  unfold nothing_to_split, refactor_user_prompt, fallback, simple_split.
  destruct (llm_plan o command) as [lines|] eqn:Hl.
  - split.
    + intros ->. apply llm_plan_acceptable in Hl. discriminate.
    + intros [H _]. discriminate.
  - destruct (pattern_steps extract_search_term command) as [|s steps].
    + destruct (separator (normalise command)) as [sep|].
      * rewrite pieces_empty. split.
        -- intro H. repeat split. exists sep. auto.
        -- intros [_ [_ [sep' [[= <-] H]]]]. exact H.
      * split; [discriminate|].
        intros [_ [_ [sep' [H _]]]]. discriminate.
    + split; [discriminate|]. intros [_ [H _]]. discriminate.
Qed.

(** ** The command that reaches the decomposer *)
















(** The split of that command, and a command without a rule or a
    separator. *)
Example say_hello_and_wave :
  refactor_user_prompt any_term no_oracle "say hello and wave"
  = ["say hello"; "wave"]
  /\ refactor_user_prompt any_term no_oracle "Say Hello" = ["Say Hello"].
Proof. vm_compute. split; reflexivity. Qed.

(** A command without " and " and " then " always gives a plan. *)
Lemma plan_without_separator (extract_search_term : string -> string)
    (o : oracle) (command : string) :
  separator (normalise command) = None ->
  at_least_one_step (refactor_user_prompt extract_search_term o command).
Proof.
  intro Hs. unfold at_least_one_step.
  destruct (refactor_user_prompt extract_search_term o command) eqn:Hr;
    [|cbn; lia].
  apply empty_plan_iff in Hr.
  destruct Hr as [_ [_ [sep [H _]]]]. congruence.
Qed.

(** The prompt never hands over the text " and ": called on it directly,
    with the model out of reach, the decomposer finds no rule and two
    empty pieces, and returns no step. *)
Example blank_conjunction_called_directly :
  get_user_prompt (Some " and ") (Some "y") = Some "and"
  /\ refactor_user_prompt any_term no_oracle "and" = ["and"]
  /\ refactor_user_prompt any_term no_oracle " and " = [].
Proof. vm_compute. repeat split; reflexivity. Qed.

(** [execute_user_command] then refuses to run anything. *)
Example blank_conjunction_is_refused :
  Engine.returned
    (execute_user_command any_term no_oracle fails_step3 " and ") = false
  /\ Engine.calls
       (Engine.final
          (execute_user_command any_term no_oracle fails_step3 " and ")) = [].
Proof. vm_compute. split; reflexivity. Qed.

(** Scenario C: with the model out of reach, "open chrome and search for
    cats" gives an Open step and a Type step among at least four. *)
Example open_chrome_and_search :
  refactor_user_prompt any_term no_oracle "open chrome and search for cats"
  = [ "Open Google Chrome"; "Wait for Chrome to load (3 seconds)";
      "Focus on the address bar (press Ctrl+L)";
      "Type 'cats' in the search bar"; "Press Enter to search";
      "Wait for search results to load (3 seconds)" ].
Proof. vm_compute. reflexivity. Qed.

End DecomposerFacts.

(* ================================================================== *)
(** * Further properties *)
(* ================================================================== *)

Module EngineMore.
Import TaskTracker Engine EngineDefs.

Lemma rate_threshold (s n : Z) :
  0 < n -> (Qle_bool (3 # 4) (inject_Z s / inject_Z n) = true <-> 3 * n <= 4 * s).
Proof.
  intro Hn. rewrite Qle_bool_iff.
  destruct n as [|p|p]; try lia.
  cbv [Qle Qdiv Qmult Qinv inject_Z Qnum Qden]. rewrite Pos.mul_1_l. lia.
Qed.

(** One step of the plan, by the first attempt that succeeds. *)
Lemma step_outcome (h : handler) (idx n : Z) (step : string) (st : state) :
  let r := attempts 3 h idx n step 0 st in
  match first_success h idx with
  | Some k =>
    fst r = Succeeded
    /\ successful_steps (snd r) = successful_steps st + 1
    /\ Engine.failed_steps (snd r) = Engine.failed_steps st
    /\ tracker (snd r) = mark_step_complete (idx - 1) step true (tracker st)
    /\ last_summary (snd r) = last_summary st
    /\ calls (snd r) = calls st ++ tries idx k
  | None =>
    successful_steps (snd r) = successful_steps st
    /\ Engine.failed_steps (snd r) = Engine.failed_steps st + 1
    /\ calls (snd r) = calls st ++ tries idx 2
    /\ if is_critical idx n
       then fst r = Abort
            /\ (last_summary (snd r), tracker (snd r))
               = complete_task false
                   (mark_step_complete (idx - 1) step false (tracker st))
       else fst r = Continue
            /\ tracker (snd r) = mark_step_complete (idx - 1) step false (tracker st)
            /\ last_summary (snd r) = last_summary st
  end.
Proof.
  unfold first_success. cbn [attempts]. unfold max_retries.
  cbn -[is_critical complete_task mark_step_complete].
  destruct (h idx 0) eqn:H0.
  { cbn. rewrite <- ?app_assoc. repeat split; reflexivity. }
  cbn -[is_critical complete_task mark_step_complete].
  destruct (h idx 1) eqn:H1.
  { cbn. rewrite <- ?app_assoc. repeat split; reflexivity. }
  cbn -[is_critical complete_task mark_step_complete].
  destruct (h idx 2) eqn:H2.
  { cbn. rewrite <- ?app_assoc. repeat split; reflexivity. }
  destruct (is_critical idx n).
  - destruct (complete_task false _) as [summ tr] eqn:Hc.
    cbn. rewrite <- ?app_assoc. repeat split; reflexivity.
  - cbn. rewrite <- ?app_assoc. repeat split; reflexivity.
Qed.

Lemma tries_facts (idx k : Z) :
  k = 0 \/ k = 1 \/ k = 2 ->
  Forall (fun c => fst c = idx /\ 0 <= snd c <= 2) (tries idx k)
  /\ StronglySorted call_before (tries idx k).
Proof.
  unfold call_before.
  intros [-> | [-> | ->]]; cbn; split;
    repeat constructor; cbn; lia.
Qed.

Lemma first_success_range (h : handler) (idx k : Z) :
  first_success h idx = Some k -> k = 0 \/ k = 1 \/ k = 2.
Proof.
  unfold first_success.
  destruct (h idx 0); [intros [= <-]; auto|].
  destruct (h idx 1); [intros [= <-]; auto|].
  destruct (h idx 2); [intros [= <-]; auto| discriminate].
Qed.

Lemma sorted_app {A} (R : A -> A -> Prop) (l1 l2 : list A) :
  StronglySorted R l1 -> StronglySorted R l2 ->
  (forall a b, In a l1 -> In b l2 -> R a b) ->
  StronglySorted R (l1 ++ l2).
Proof.
  induction 1 as [|x l1 Hs IH Hall]; intros H2 Hc; cbn; [exact H2|].
  constructor.
  - apply IH; [exact H2|]. intros a b Ha Hb. apply Hc; [right; exact Ha | exact Hb].
  - apply Forall_app. split; [exact Hall|].
    apply Forall_forall. intros b Hb. apply Hc; [left; reflexivity | exact Hb].
Qed.

Lemma len_snoc {A} (l : list A) (x : A) : len (l ++ [x]) = len l + 1.
Proof. unfold len. rewrite length_app. cbn. lia. Qed.

Lemma len_cons {A} (x : A) (l : list A) : len (x :: l) = len l + 1.
Proof. unfold len. cbn [List.length]. lia. Qed.

Lemma len_nonneg {A} (l : list A) : 0 <= len l.
Proof. unfold len. lia. Qed.

Lemma tracked_complete (all : list string) (st : state) (b : bool) :
  tracked all st -> 0 < len all ->
  complete_task b (tracker st)
  = (Some (mkSummary b (len all) (successful_steps st) (Engine.failed_steps st)
             (inject_Z (successful_steps st) / inject_Z (len all))%Q),
     TaskTracker.init).
Proof.
  intros [Ha [Hc [Hs Hf]]] Hn. unfold complete_task.
  rewrite Ha, Hc, Hs, Hf. cbn [negb].
  destruct (0 <? len all) eqn:Hl; [reflexivity|].
  apply Z.ltb_ge in Hl. lia.
Qed.

Ltac proj :=
  cbn [returned aborted final successful_steps Engine.failed_steps
       last_summary tracker calls fst snd].

(** What the loop over the remaining steps does to a state the tracker
    agrees with. *)
Lemma for_steps_facts (h : handler) (all : list string) :
  0 < len all ->
  forall rest idx st,
    tracked all st ->
    let o := for_steps h (len all) idx rest st in
    (exists l, calls (final o) = calls st ++ l
               /\ Forall (fun c => idx <= fst c < idx + len rest
                                   /\ 0 <= snd c <= 2) l
               /\ StronglySorted call_before l)
    /\ successful_steps st <= successful_steps (final o)
    /\ Engine.failed_steps st <= Engine.failed_steps (final o)
    /\ (successful_steps (final o) - successful_steps st)
       + (Engine.failed_steps (final o) - Engine.failed_steps st) <= len rest
    /\ (aborted o = false ->
        (successful_steps (final o) - successful_steps st)
        + (Engine.failed_steps (final o) - Engine.failed_steps st) = len rest)
    /\ last_summary (final o)
       = Some (mkSummary (returned o) (len all) (successful_steps (final o))
                 (Engine.failed_steps (final o))
                 (inject_Z (successful_steps (final o)) / inject_Z (len all))%Q)
    /\ (returned o = true <->
        aborted o = false /\ 3 * len all <= 4 * successful_steps (final o))
    /\ tracker (final o) = TaskTracker.init.
Proof.
  intros Hn rest. induction rest as [|step rest IH]; intros idx st Ht.
  - cbn [for_steps]. unfold report. change (len (@nil string)) with 0.
    assert (Hnil : exists l : list (Z * Z),
               calls st = calls st ++ l
               /\ Forall (fun c => idx <= fst c < idx + 0 /\ 0 <= snd c <= 2) l
               /\ StronglySorted call_before l).
    { exists []. rewrite app_nil_r. repeat split; constructor. }
    destruct (successful_steps st =? len all) eqn:He.
    + rewrite (tracked_complete all st true Ht Hn). proj.
      apply Z.eqb_eq in He.
      split; [exact Hnil|]. split; [lia|]. split; [lia|]. split; [lia|].
      split; [lia|]. split; [reflexivity|]. split; [|reflexivity].
      split; [intros _; split; [reflexivity | lia] | reflexivity].
    + rewrite (tracked_complete all st _ Ht Hn). proj.
      split; [exact Hnil|]. split; [lia|]. split; [lia|]. split; [lia|].
      split; [lia|]. split; [reflexivity|]. split; [|reflexivity].
      rewrite (rate_threshold _ _ Hn). tauto.
  - cbn [for_steps].
    change (Z.to_nat (max_retries + 1)) with 3%nat.
    pose proof (step_outcome h idx (len all) step st) as Hstep.
    cbv zeta in Hstep.
    destruct (attempts 3 h idx (len all) step 0 st) as [e st1].
    cbn [fst snd] in Hstep.
    assert (Hmark : forall b st',
               tracker st' = mark_step_complete (idx - 1) step b (tracker st) ->
               successful_steps st' = successful_steps st + (if b then 1 else 0) ->
               Engine.failed_steps st' = Engine.failed_steps st + (if b then 0 else 1) ->
               tracked all st').
    { intros b st' Htr Hs Hf. destruct Ht as [Ha [Hc [Hs0 Hf0]]].
      unfold tracked. rewrite Htr. unfold mark_step_complete. rewrite Ha.
      cbn [negb]. destruct b; cbn; rewrite ?len_snoc; repeat split; auto; lia. }
    pose proof (len_nonneg rest) as Hr. rewrite len_cons.
    assert (Hnext : forall k l,
               k = 0 \/ k = 1 \/ k = 2 ->
               Forall (fun c => idx + 1 <= fst c < idx + 1 + len rest
                                /\ 0 <= snd c <= 2) l ->
               StronglySorted call_before l ->
               Forall (fun c => idx <= fst c < idx + (len rest + 1)
                                /\ 0 <= snd c <= 2) (tries idx k ++ l)
               /\ StronglySorted call_before (tries idx k ++ l)).
    { intros k l Hk Hb Hso. destruct (tries_facts idx k Hk) as [Tb Ts]. split.
      - apply Forall_app. split.
        + revert Tb. apply Forall_impl. intros c [H1 H2]. lia.
        + revert Hb. apply Forall_impl. intros c [H1 H2]. lia.
      - apply sorted_app; [exact Ts | exact Hso |].
        intros a b Ha Hb'. rewrite Forall_forall in Tb, Hb.
        destruct (Tb a Ha) as [Fa _]. destruct (Hb b Hb') as [Fb _].
        left. lia. }
    destruct (first_success h idx) as [k|] eqn:Hk.
    + destruct Hstep as [He [Hs [Hf [Htr [Hsum Hcalls]]]]]. subst e.
      assert (Ht1 : tracked all st1) by (apply (Hmark true); auto; lia).
      specialize (IH (idx + 1) st1 Ht1). cbv zeta in IH.
      destruct IH as [[l [Hl [Hb Hso]]] [I1 [I2 [I3 [I4 [I5 [I6 I7]]]]]]].
      destruct (Hnext k l (first_success_range _ _ _ Hk) Hb Hso) as [N1 N2].
      split.
      { exists (tries idx k ++ l). split; [|split; assumption].
        rewrite Hl, Hcalls. symmetry. apply app_assoc. }
      split; [lia|]. split; [lia|]. split; [lia|].
      split; [intro Hab; specialize (I4 Hab); lia|].
      split; [exact I5|]. split; [exact I6 | exact I7].
    + destruct Hstep as [Hs [Hf [Hcalls Hcrit]]].
      destruct (is_critical idx (len all)).
      * destruct Hcrit as [-> Hc]. proj.
        set (stf := mkState (successful_steps st) (Engine.failed_steps st + 1)
                      (mark_step_complete (idx - 1) step false (tracker st))
                      (last_summary st) (calls st)).
        assert (Htf : tracked all stf) by (apply (Hmark false); cbn; auto; lia).
        pose proof (tracked_complete all stf false Htf Hn) as Hcomp.
        cbn [tracker successful_steps Engine.failed_steps stf] in Hcomp.
        rewrite Hcomp in Hc. injection Hc as Hsum Htr.
        destruct (Hnext 2 [] (or_intror (or_intror eq_refl))
                    (Forall_nil _) (SSorted_nil _)) as [N1 N2].
        rewrite app_nil_r in N1, N2.
        split; [exists (tries idx 2); repeat split; assumption|].
        split; [lia|]. split; [lia|]. split; [lia|].
        split; [discriminate|].
        split; [rewrite Hsum, Hs, Hf; reflexivity|].
        split; [|exact Htr].
        split; [discriminate | intros [H _]; discriminate].
      * destruct Hcrit as [-> [Htr Hsum]].
        assert (Ht1 : tracked all st1) by (apply (Hmark false); auto; lia).
        specialize (IH (idx + 1) st1 Ht1). cbv zeta in IH.
        destruct IH as [[l [Hl [Hb Hso]]] [I1 [I2 [I3 [I4 [I5 [I6 I7]]]]]]].
        destruct (Hnext 2 l (or_intror (or_intror eq_refl)) Hb Hso) as [N1 N2].
        split.
        { exists (tries idx 2 ++ l). split; [|split; assumption].
          rewrite Hl, Hcalls. symmetry. apply app_assoc. }
        split; [lia|]. split; [lia|]. split; [lia|].
        split; [intro Hab; specialize (I4 Hab); lia|].
        split; [exact I5|]. split; [exact I6 | exact I7].
Qed.

Lemma init_tracked (command : string) (steps : list string) :
  tracked steps (init_state command steps).
Proof. repeat split. Qed.

(** X1: every call of the step handler made by a run is for a position of
    the plan and an attempt number from 0 to [max_retries]; the calls are
    made in plan order and none is made twice, so a step is tried at most
    three times. *)
Theorem X1_attempts_are_bounded_and_ordered (h : handler) (command : string)
    (steps : list string) :
  Forall (fun c => 1 <= fst c <= len steps /\ 0 <= snd c <= max_retries)
    (calls (final (run_plan h command steps)))
  /\ StronglySorted call_before (calls (final (run_plan h command steps))).
Proof.
  destruct steps as [|s steps]; [split; constructor|].
  unfold run_plan.
  assert (Hn : 0 < len (s :: steps)) by (rewrite len_cons; pose proof (len_nonneg steps); lia).
  destruct (for_steps_facts h (s :: steps) Hn (s :: steps) 1
              (init_state command (s :: steps)) (init_tracked _ _))
    as [[l [Hl [Hb Hso]]] _].
  cbn [calls init_state List.app] in Hl. rewrite Hl. split; [|exact Hso].
  revert Hb. apply Forall_impl. intros c [H1 H2]. unfold max_retries. lia.
Qed.

(** X2: at the end of every run of a non-empty plan the tracker's summary
    carries the value returned, the plan length and the engine's own
    counts of completed and failed steps, with completion rate completed
    over total; the counts never exceed the plan length and add up to it
    unless the run was aborted. *)
Theorem X2_summary_agrees_with_counters (h : handler) (command : string)
    (steps : list string) :
  steps <> [] ->
  let o := run_plan h command steps in
  let s := successful_steps (final o) in
  let f := Engine.failed_steps (final o) in
  last_summary (final o)
  = Some (mkSummary (returned o) (len steps) s f
            (inject_Z s / inject_Z (len steps))%Q)
  /\ 0 <= s /\ 0 <= f /\ s + f <= len steps
  /\ (aborted o = false -> s + f = len steps)
  /\ tracker (final o) = TaskTracker.init.
Proof.
  intro Hne. destruct steps as [|s0 steps]; [congruence|].
  cbv zeta. unfold run_plan.
  assert (Hn : 0 < len (s0 :: steps)) by (rewrite len_cons; pose proof (len_nonneg steps); lia).
  destruct (for_steps_facts h (s0 :: steps) Hn (s0 :: steps) 1
              (init_state command (s0 :: steps)) (init_tracked _ _))
    as [_ [I1 [I2 [I3 [I4 [I5 [_ I7]]]]]]].
  cbn [successful_steps Engine.failed_steps init_state] in I1, I2, I3, I4.
  split; [exact I5|]. split; [lia|]. split; [lia|]. split; [lia|].
  split; [intro Hab; specialize (I4 Hab); lia | exact I7].
Qed.

Lemma X2_summary_agrees_with_counters_witness :
  let o := run_plan Samples.fails_step3 "cmd" Samples.plan4 in
  let s := successful_steps (final o) in
  let f := Engine.failed_steps (final o) in
  Samples.plan4 <> []
  /\ last_summary (final o)
     = Some (mkSummary (returned o) (len Samples.plan4) s f
               (inject_Z s / inject_Z (len Samples.plan4))%Q)
  /\ 0 <= s /\ 0 <= f /\ s + f <= len Samples.plan4
  /\ (aborted o = false -> s + f = len Samples.plan4)
  /\ tracker (final o) = TaskTracker.init.
Proof.
  assert (Hne : Samples.plan4 <> []) by discriminate.
  split; [exact Hne|].
  apply (X2_summary_agrees_with_counters Samples.fails_step3 "cmd" Samples.plan4 Hne).
Defined.

(** X3: a run of a non-empty plan returns True exactly when it was not
    aborted and at least three quarters of the steps were completed. *)
Theorem X3_success_is_three_quarters (h : handler) (command : string)
    (steps : list string) :
  steps <> [] ->
  let o := run_plan h command steps in
  returned o = true
  <-> aborted o = false /\ 3 * len steps <= 4 * successful_steps (final o).
Proof.
  intro Hne. destruct steps as [|s0 steps]; [congruence|].
  cbv zeta. unfold run_plan.
  assert (Hn : 0 < len (s0 :: steps)) by (rewrite len_cons; pose proof (len_nonneg steps); lia).
  apply (for_steps_facts h (s0 :: steps) Hn (s0 :: steps) 1
           (init_state command (s0 :: steps)) (init_tracked _ _)).
Qed.

Lemma X3_success_is_three_quarters_witness :
  let o := run_plan Samples.fails_step3 "cmd" Samples.plan4 in
  Samples.plan4 <> []
  /\ (returned o = true
      <-> aborted o = false
          /\ 3 * len Samples.plan4 <= 4 * successful_steps (final o)).
Proof.
  assert (Hne : Samples.plan4 <> []) by discriminate.
  split; [exact Hne|].
  apply (X3_success_is_three_quarters Samples.fails_step3 "cmd" Samples.plan4 Hne).
Defined.

(** X4: a step whose three attempts all fail aborts the plan exactly when
    its position is 1, 2, the second-to-last or the last (or beyond);
    otherwise the loop goes on to the next step. *)
Theorem X4_abort_positions (h : handler) (idx n : Z) (step : string) (st : state) :
  first_success h idx = None ->
  (fst (attempts 3 h idx n step 0 st) = Abort <-> idx <= 2 \/ idx >= n - 1)
  /\ (fst (attempts 3 h idx n step 0 st) = Continue <-> 2 < idx < n - 1).
Proof.
  intro Hf. pose proof (step_outcome h idx n step st) as H. cbv zeta in H.
  rewrite Hf in H. destruct H as [_ [_ [_ H]]].
  assert (Hc : is_critical idx n = true <-> idx <= 2 \/ idx >= n - 1).
  { unfold is_critical. rewrite orb_true_iff, Z.leb_le, Z.geb_le. lia. }
  destruct (is_critical idx n).
  - destruct H as [-> _]. split; split; try discriminate; try tauto.
    intro. assert (true = true) by reflexivity. apply Hc in H0. lia.
  - destruct H as [-> _]. split; split; try discriminate; try tauto.
    + intro H1. apply Hc in H1. discriminate.
    + intros _. destruct (Z_le_gt_dec idx 2) as [H1|H1];
        [assert (false = true) by (apply Hc; lia); discriminate|].
      destruct (Z_ge_lt_dec idx (n - 1)) as [H2|H2];
        [assert (false = true) by (apply Hc; lia); discriminate|]. lia.
Qed.

Lemma X4_abort_positions_witness :
  first_success Samples.fails_step3 3 = None
  /\ (fst (attempts 3 Samples.fails_step3 3 4 "s3" 0 (init_state "cmd" Samples.plan4))
      = Abort <-> 3 <= 2 \/ 3 >= 4 - 1)
  /\ (fst (attempts 3 Samples.fails_step3 3 4 "s3" 0 (init_state "cmd" Samples.plan4))
      = Continue <-> 2 < 3 < 4 - 1).
Proof.
  split; [reflexivity|].
  apply (X4_abort_positions Samples.fails_step3 3 4 "s3"
           (init_state "cmd" Samples.plan4)).
  reflexivity.
Defined.

Lemma for_steps_all_succeed (h : handler) (n : Z) :
  forall rest idx st,
    (forall i, idx <= i < idx + len rest -> first_success h i <> None) ->
    let o := for_steps h n idx rest st in
    successful_steps (final o) = successful_steps st + len rest
    /\ Engine.failed_steps (final o) = Engine.failed_steps st
    /\ aborted o = false.
Proof.
  intros rest. induction rest as [|step rest IH]; intros idx st Hall.
  - cbn [for_steps]. unfold report. change (len (@nil string)) with 0.
    destruct (successful_steps st =? n);
      destruct (complete_task _ (tracker st)); proj; repeat split; lia.
  - cbn [for_steps]. change (Z.to_nat (max_retries + 1)) with 3%nat.
    pose proof (step_outcome h idx n step st) as Hstep. cbv zeta in Hstep.
    pose proof (len_nonneg rest) as Hr. rewrite len_cons in *.
    destruct (first_success h idx) as [k|] eqn:Hk;
      [|exfalso; apply (Hall idx); [lia | exact Hk]].
    destruct (attempts 3 h idx n step 0 st) as [e st1]. cbn [fst snd] in Hstep.
    destruct Hstep as [-> [Hs [Hf _]]].
    assert (Hall' : forall i, idx + 1 <= i < idx + 1 + len rest ->
                              first_success h i <> None).
    { intros i Hi. apply Hall. lia. }
    specialize (IH (idx + 1) st1 Hall'). cbv zeta in IH.
    destruct IH as [I1 [I2 I3]]. repeat split; [lia | lia | exact I3].
Qed.

(** X5: when every step of a non-empty plan succeeds at its first, second
    or third attempt, the run completes all steps, marks none failed and
    returns True. *)
Theorem X5_retries_recover (h : handler) (command : string) (steps : list string) :
  steps <> [] ->
  (forall i, 1 <= i <= len steps -> first_success h i <> None) ->
  let o := run_plan h command steps in
  returned o = true /\ aborted o = false
  /\ successful_steps (final o) = len steps
  /\ Engine.failed_steps (final o) = 0.
Proof.
  intros Hne Hall. destruct steps as [|s0 steps]; [congruence|].
  cbv zeta.
  assert (Hn : 0 < len (s0 :: steps)) by (rewrite len_cons; pose proof (len_nonneg steps); lia).
  unfold run_plan.
  destruct (for_steps_facts h (s0 :: steps) Hn (s0 :: steps) 1
              (init_state command (s0 :: steps)) (init_tracked _ _))
    as [_ [_ [_ [_ [_ [_ [H3 _]]]]]]].
  destruct (for_steps_all_succeed h (len (s0 :: steps)) (s0 :: steps) 1
              (init_state command (s0 :: steps))) as [I1 [I2 I3]].
  { intros i Hi. apply Hall. lia. }
  cbn [successful_steps Engine.failed_steps init_state] in I1, I2.
  split; [apply H3; split; [exact I3 | lia]|].
  split; [exact I3|]. split; [lia | exact I2].
Qed.

Lemma X5_retries_recover_witness :
  let o := run_plan (fun _ _ => true) "cmd" Samples.plan4 in
  returned o = true /\ aborted o = false
  /\ successful_steps (final o) = len Samples.plan4
  /\ Engine.failed_steps (final o) = 0.
Proof.
  apply (X5_retries_recover (fun _ _ => true) "cmd" Samples.plan4).
  - discriminate.
  - intros i _. discriminate.
Defined.

(** X28: once a session is closed the tracker is idle: later marks are
    ignored and a second [complete_task] returns the empty summary. *)
Theorem X28_closed_session_is_terminal (tr : TaskTracker.t) (success : bool) :
  let closed := snd (complete_task success tr) in
  active closed = false
  /\ (forall i text ok, mark_step_complete i text ok closed = closed)
  /\ (forall ok, complete_task ok closed = (None, closed)).
Proof.
  cbv zeta. unfold complete_task.
  destruct (active tr) eqn:Ha; cbn [negb snd].
  - repeat split.
  - unfold mark_step_complete. rewrite Ha. repeat split.
Qed.

End EngineMore.

Module ControllerMore.
Import Py Config Controller Samples Reading ControllerDefs.

Lemma extends_refl (w : world) (tr : trace) : extends w tr tr.
Proof. exists []. split; [symmetry; apply app_nil_r | constructor]. Qed.

Lemma extends_trans (w : world) (a b c : trace) :
  extends w a b -> extends w b c -> extends w a c.
Proof.
  intros [e1 [-> H1]] [e2 [-> H2]]. exists (e1 ++ e2).
  split; [symmetry; apply app_assoc | apply Forall_app; auto].
Qed.

Lemma extends_snoc (w : world) (tr : trace) (e : event) :
  on_screen w e = true -> extends w tr (tr ++ [e]).
Proof. intro H. exists [e]. split; [reflexivity | repeat constructor; exact H]. Qed.

Ltac step_ext :=
  first [ apply extends_refl
        | eapply extends_trans; [| apply extends_snoc; first [reflexivity | assumption]] ].

Ltac ext := repeat step_ext.

Lemma click_extends (w : world) (x y b c : value) (tr : trace) :
  extends w tr (snd (click w x y b c tr)).
Proof.
  unfold click, call.
  destruct (adjust w x) as [ax|]; [|apply extends_refl].
  destruct (adjust w y) as [ay|]; [|apply extends_refl].
  destruct (_validate_coordinates w ax ay) eqn:Hv; cbn; [|apply extends_refl].
  assert (Ho : on_screen w (EvClick ax ay b c) = true) by exact Hv.
  destruct (gui_ok w (EvClick ax ay b c)); cbn; ext.
Qed.

Lemma move_mouse_extends (w : world) (x y : value) (tr : trace) :
  extends w tr (snd (move_mouse w x y tr)).
Proof.
  unfold move_mouse, call.
  destruct (adjust w x) as [ax|]; [|apply extends_refl].
  destruct (adjust w y) as [ay|]; [|apply extends_refl].
  destruct (_validate_coordinates w ax ay) eqn:Hv; cbn; [|apply extends_refl].
  assert (Ho : on_screen w (EvMoveTo ax ay) = true) by exact Hv.
  destruct (gui_ok w (EvMoveTo ax ay)); cbn; ext.
Qed.

Lemma type_text_extends (w : world) (text : value) (interval : option value)
    (tr : trace) :
  extends w tr (snd (type_text w text interval tr)).
Proof.
  unfold type_text, call. destruct text; try apply extends_refl.
  destruct (match interval with
            | None => true
            | Some v => match to_int v with Some _ => true | None => false end
            end);
    destruct (os w); cbn;
    repeat match goal with
           | |- context [gui_ok w ?e] => destruct (gui_ok w e); cbn
           end; ext.
Qed.

Lemma press_n_extends (w : world) (key : string) (n : nat) :
  forall tr, extends w tr (snd (press_n w key n tr)).
Proof.
  induction n as [|n IH]; intro tr; cbn; [apply extends_refl|].
  unfold call. destruct (gui_ok w (EvPress key)); cbn.
  - eapply extends_trans; [|apply IH]. ext.
  - ext.
Qed.

Lemma press_key_extends (w : world) (key presses : value) (tr : trace) :
  extends w tr (snd (press_key w key presses tr)).
Proof.
  unfold press_key. destruct key; try apply extends_refl.
  destruct (contains "+" s).
  - unfold call. destruct (gui_ok w _); cbn; ext.
  - destruct (to_int presses) as [n|]; [|apply extends_refl].
    pose proof (press_n_extends w s (Z.to_nat n) tr) as H.
    destruct (press_n w s (Z.to_nat n) tr) as [ok tr']. cbn in H.
    destruct ok; cbn; [|exact H].
    eapply extends_trans; [exact H|]. ext.
Qed.

Lemma scroll_extends (w : world) (direction amount : value) (tr : trace) :
  extends w tr (snd (scroll w direction amount tr)).
Proof.
  unfold scroll, call. destruct direction; try apply extends_refl.
  destruct (to_int amount); [|apply extends_refl].
  destruct (gui_ok w _); cbn; ext.
Qed.

Lemma drag_extends (w : world) (sx sy ex ey : value) (tr : trace) :
  extends w tr (snd (drag w sx sy ex ey tr)).
Proof.
  unfold drag, call.
  destruct (adjust w sx); [|apply extends_refl].
  destruct (adjust w sy); [|apply extends_refl].
  destruct (adjust w ex); [|apply extends_refl].
  destruct (adjust w ey); [|apply extends_refl].
  destruct (gui_ok w _); cbn; ext.
Qed.

Lemma request_confirmation_extends (self : UserConfirmation) (w : world)
    (a : dict) (tr : trace) :
  extends w tr (snd (request_confirmation self w a tr)).
Proof.
  unfold request_confirmation.
  destruct (negb (confirm_sensitive_actions (cfg w))); [apply extends_refl|].
  destruct (negb (tkinter_found w)); [apply extends_refl|].
  destruct (messagebox_import w).
  - destruct (dialog_answer w a); cbn; ext.
  - destruct (console_answer w a); cbn; ext.
  - apply extends_refl.
Qed.

(** What a dispatched operation may change: the event trace grows by
    on-screen events, the table of running applications may change, the
    history and the settings stay. *)
Definition step_frame (w : world) (st st' : Controller.t) : Prop :=
  same_settings st st'
  /\ action_history st' = action_history st
  /\ extends w (events st) (events st').

Lemma step_frame_refl (w : world) (st : Controller.t) : step_frame w st st.
Proof. repeat split. apply extends_refl. Qed.

Lemma lift_frame (w : world) (r : bool * trace) (st : Controller.t) :
  extends w (events st) (snd r) -> step_frame w st (snd (lift r st)).
Proof. intro H. repeat split. exact H. Qed.

Lemma launch_frame (w : world) (name path : value) (st : Controller.t) :
  step_frame w st (snd (launch_application w name path st)).
Proof.
  unfold launch_application, call. destruct name; try apply step_frame_refl.
  destruct (if truth path then _ else _); [|apply step_frame_refl].
  destruct (gui_ok w _); cbn; repeat split; cbn; ext.
Qed.

Lemma close_frame (w : world) (name : value) (st : Controller.t) :
  step_frame w st (snd (close_application w name st)).
Proof.
  unfold close_application, call. destruct name; try apply step_frame_refl.
  destruct (lookup (running_apps st) s); [|apply step_frame_refl].
  destruct (gui_ok w _); cbn; repeat split; cbn; ext.
Qed.

Lemma wait_frame (a : dict) (w : world) (st : Controller.t) :
  step_frame w st (snd (wait a st)).
Proof.
  unfold wait. destruct (get a "duration") as [d|].
  - destruct (to_int d) as [z|]; [|apply step_frame_refl].
    destruct (0 <=? z); [|apply step_frame_refl].
    repeat split; cbn; ext.
  - repeat split; cbn; ext.
Qed.

Lemma internal_frame (w : world) (a : dict) (st : Controller.t) :
  step_frame w st (snd (_execute_action_internal w a st)).
Proof.
  unfold _execute_action_internal, dflt.
  destruct (type_lower a) as [t|]; [|apply step_frame_refl].
  repeat match goal with
         | |- context [if String.eqb t ?s then _ else _] =>
           destruct (String.eqb t s)
         end;
    repeat match goal with
           | |- context [match get a ?k with _ => _ end] =>
             destruct (get a k)
           end;
    cbn [snd]; try apply step_frame_refl;
    try (apply lift_frame;
         first [ apply click_extends | apply type_text_extends
               | apply press_key_extends | apply scroll_extends
               | apply drag_extends | apply move_mouse_extends ]);
    try apply launch_frame; try apply close_frame.
  all: pose proof (wait_frame a w st) as H;
    destruct (wait a st) as [[|] st']; cbn [snd] in *;
    [exact H | apply step_frame_refl].
Qed.

(** What [execute_action] may change. *)
Lemma execute_action_frame (w : world) (a : dict) (st : Controller.t) :
  let r := execute_action w a st in
  same_settings st (snd r)
  /\ extends w (events st) (events (snd r))
  /\ (action_history (snd r) = action_history st
      \/ exists res, fst r = Some res
                     /\ action_history (snd r) = action_history st ++ [res]).
Proof.
  cbv zeta. unfold execute_action.
  destruct (emergency_stop st) eqn:He.
  { repeat split; [apply extends_refl | left; reflexivity]. }
  destruct (validate_action (cfg w) a) as [|[|] msg rc].
  { repeat split; [apply extends_refl | left; reflexivity]. }
  2:{ repeat split; [apply extends_refl | left; reflexivity]. }
  assert (Hgate : exists ans st1,
             (if rc
              then (fst (request_confirmation (confirmation st) w a (events st)),
                    with_events st
                      (snd (request_confirmation (confirmation st) w a (events st))))
              else (Some true, st)) = (ans, st1)
             /\ step_frame w st st1).
  { destruct rc.
    - eexists _, _. split; [reflexivity|].
      repeat split. apply request_confirmation_extends.
    - eexists _, _. split; [reflexivity | apply step_frame_refl]. }
  destruct Hgate as [ans [st1 [-> [[G1 [G2 G3]] [G4 G5]]]]].
  destruct ans as [[|]|].
  - pose proof (internal_frame w a st1) as [[I1 [I2 I3]] [I4 I5]].
    destruct (_execute_action_internal w a st1) as [[res|] st2]; cbn [fst snd] in *.
    + repeat split; cbn; try congruence.
      * eapply extends_trans; eassumption.
      * right. exists res. split; [reflexivity | congruence].
    + repeat split; try congruence.
      * eapply extends_trans; eassumption.
      * left. congruence.
  - repeat split; cbn; try congruence. left. congruence.
  - repeat split; cbn; try congruence. left. congruence.
Qed.

(** X6: [execute_action] only ever appends to the action history, and at
    most the one result it returns; it never touches the emergency-stop
    flag, the running flag or the confirmation settings. *)
Theorem X6_history_is_append_only (w : world) (a : dict) (st : Controller.t) :
  let r := execute_action w a st in
  (action_history (snd r) = action_history st
   \/ exists res, fst r = Some res
                  /\ action_history (snd r) = action_history st ++ [res])
  /\ emergency_stop (snd r) = emergency_stop st
  /\ running (snd r) = running st
  /\ confirmation (snd r) = confirmation st.
Proof.
  destruct (execute_action_frame w a st) as [[H1 [H2 H3]] [_ H4]].
  cbv zeta. auto.
Qed.

(** X7: the events of [execute_action] are appended to the trace, and
    every click or pointer move among them has coordinates that
    [_validate_coordinates] accepts. *)
Theorem X7_clicks_and_moves_stay_on_screen (w : world) (a : dict)
    (st : Controller.t) :
  exists evs,
    events (snd (execute_action w a st)) = events st ++ evs
    /\ Forall (fun e => on_screen w e = true) evs.
Proof.
  destruct (execute_action_frame w a st) as [_ [H _]]. exact H.
Qed.

Lemma level3_types (t : string) (lvl : Z) :
  lookup ACTION_SAFETY_LEVELS t = Some lvl -> 3 <= lvl ->
  t = "file_operation" \/ t = "system_command" \/ t = "password_entry".
Proof.
  unfold ACTION_SAFETY_LEVELS. cbn [lookup].
  repeat match goal with
         | |- context [String.eqb ?k t] =>
           let E := fresh "E" in
           destruct (String.eqb k t) eqn:E;
           [ apply String.eqb_eq in E; subst t;
             first [ intros [= <-]; lia | auto ] | ]
         end.
  discriminate.
Qed.

(** X8: an action of a type whose safety level is 3 or more never leads
    to an input event and never succeeds: after the confirmation gate its
    dispatch finds no branch for it. *)
Theorem X8_level_three_never_acts (w : world) (a : dict) (st : Controller.t)
    (t : string) (lvl : Z) :
  type_lower a = Some t ->
  lookup ACTION_SAFETY_LEVELS t = Some lvl ->
  3 <= lvl ->
  inputs (events (snd (execute_action w a st))) = inputs (events st)
  /\ forall r, fst (execute_action w a st) = Some r -> success r = false.
Proof.
  intros Ht Hl H3.
  assert (Hv : validate_action (cfg w) a = Verdict true None true
               /\ exists r0, success r0 = false
                             /\ forall st1, _execute_action_internal w a st1
                                            = (Some r0, st1)).
  { destruct (level3_types t lvl Hl H3) as [-> | [-> | ->]];
      (split;
       [ unfold validate_action; rewrite Ht; cbn [lookup ACTION_SAFETY_LEVELS];
         cbn -[keyword_hit]; destruct (keyword_hit SENSITIVE_KEYWORDS a); reflexivity
       | eexists; split; [| intro st1; unfold _execute_action_internal;
                            rewrite Ht; reflexivity]; reflexivity ]). }
  destruct Hv as [Hv [r0 [Hr0 Hint]]].
  unfold execute_action. destruct (emergency_stop st).
  { split; [reflexivity|]. intros r [= <-]. reflexivity. }
  rewrite Hv.
  pose proof (ControllerFacts.request_confirmation_quiet
                (confirmation st) w a (events st)) as Hq.
  destruct (request_confirmation (confirmation st) w a (events st)) as [[[|]|] tr];
    cbn [fst snd] in *.
  - rewrite Hint. cbn. split; [exact Hq|]. intros r [= <-]. exact Hr0.
  - cbn. split; [exact Hq|]. intros r [= <-]. reflexivity.
  - cbn. split; [exact Hq|]. discriminate.
Qed.


Lemma X8_level_three_never_acts_witness :
  inputs (events (snd (execute_action desktop delete_passwd Controller.new)))
  = inputs (events Controller.new)
  /\ forall r, fst (execute_action desktop delete_passwd Controller.new) = Some r ->
               success r = false.
Proof.
  apply (X8_level_three_never_acts desktop delete_passwd Controller.new
           "file_operation" 3).
  - reflexivity.
  - reflexivity.
  - lia.
Defined.

(** Without scaling the coordinates are passed on as they are. *)
Lemma int_mul_one (x : Z) (f : Q) : (f == 1)%Q -> int_mul x f = x.
Proof.
  unfold int_mul, Qeq. cbn [Qnum Qden]. intro H.
  assert (Hn : Qnum f = Z.pos (Qden f)) by lia.
  rewrite Hn. apply Z.quot_mul. discriminate.
Qed.

(** X9: on a screen without scaling (factor 1, where the product of the
    source is exact for coordinates up to 2^53), a click with integer
    coordinates that are on the screen goes through when the stop flag is
    clear, safe mode is on, no sensitive keyword occurs in the action and
    the GUI call returns: the result is a success, exactly one click at
    that point is performed, and the result is appended to the history. *)
Theorem X9_on_screen_click_succeeds (w : world) (a : dict) (st : Controller.t)
    (x y : Z) :
  emergency_stop st = false ->
  safe_mode (cfg w) = true ->
  (scaling_factor w == 1)%Q ->
  screen_width w <= 2 ^ 53 -> screen_height w <= 2 ^ 53 ->
  type_lower a = Some "click" ->
  get a "x" = Some (VInt x) -> get a "y" = Some (VInt y) ->
  keyword_hit SENSITIVE_KEYWORDS a = false ->
  _validate_coordinates w x y = true ->
  let ev := EvClick x y (dflt a "button" (VStr "left")) (dflt a "clicks" (VInt 1)) in
  gui_ok w ev = true ->
  let res := mkResult true (VStr "click") a None false in
  execute_action w a st
  = (Some res,
     append_history res (with_events st (events st ++ [ev] ++ [EvSleep]))).
Proof.
  intros He Hs Hf _ _ Ht Hx Hy Hk Hv ev Hg res.
  unfold execute_action. rewrite He.
  assert (Hval : validate_action (cfg w) a = Verdict true None false).
  { unfold validate_action. rewrite Ht. cbn [lookup ACTION_SAFETY_LEVELS].
    cbn -[keyword_hit has_key]. rewrite Hk, Hs. unfold has_key.
    rewrite Hx, Hy. reflexivity. }
  rewrite Hval.
  unfold _execute_action_internal. rewrite Ht. cbn [String.eqb Ascii.eqb Bool.eqb].
  cbn -[click dflt]. rewrite Hx, Hy.
  unfold click, adjust. cbn [to_int].
  rewrite !(int_mul_one _ _ Hf). rewrite Hv. cbn [negb].
  unfold call. fold ev. rewrite Hg. cbn. rewrite <- app_assoc. reflexivity.
Qed.

Lemma X9_on_screen_click_succeeds_witness :
  execute_action desktop click_50_50 Controller.new
  = (Some (mkResult true (VStr "click") click_50_50 None false),
     append_history (mkResult true (VStr "click") click_50_50 None false)
       (with_events Controller.new
          ([] ++ [EvClick 50 50 (VStr "left") (VInt 1)] ++ [EvSleep]))).
Proof.
  apply (X9_on_screen_click_succeeds desktop click_50_50 Controller.new 50 50);
    try reflexivity; cbn; lia.
Defined.

(** X10: an action without a "type" entry is refused as an unsupported
    (empty) action type; the result carries the type "unknown" and the
    controller is left as it was. *)
Theorem X10_missing_type_is_unsupported (w : world) (a : dict)
    (st : Controller.t) :
  get a "type" = None ->
  emergency_stop st = false ->
  validate_action (cfg w) a
  = Verdict false (Some "Unsupported action type: ") false
  /\ execute_action w a st
     = (Some (mkResult false (VStr "unknown") a
                (Some (Msg "Unsupported action type: ")) false), st).
Proof.
  intros Hg He.
  assert (Hv : validate_action (cfg w) a
               = Verdict false (Some "Unsupported action type: ") false).
  { unfold validate_action, type_lower. rewrite Hg. reflexivity. }
  split; [exact Hv|].
  unfold execute_action, dflt, get_default. rewrite He, Hv, Hg. reflexivity.
Qed.

Lemma X10_missing_type_is_unsupported_witness :
  validate_action (cfg desktop) [("x", VInt 1)]
  = Verdict false (Some "Unsupported action type: ") false
  /\ execute_action desktop [("x", VInt 1)] Controller.new
     = (Some (mkResult false (VStr "unknown") [("x", VInt 1)]
                (Some (Msg "Unsupported action type: ")) false), Controller.new).
Proof.
  apply (X10_missing_type_is_unsupported desktop [("x", VInt 1)] Controller.new);
    reflexivity.
Defined.

Lemma lookup_filtered (name : string) (apps : list (string * Z)) :
  lookup (filter (fun p => negb (String.eqb (fst p) name)) apps) name = None.
Proof.
  induction apps as [|[k v] apps IH]; cbn; [reflexivity|].
  destruct (String.eqb k name) eqn:E; cbn; [exact IH|].
  rewrite E. exact IH.
Qed.

(** X11: after a successful launch the application's name is bound to the
    process id the launch returned; closing it terminates exactly that
    process and forgets the name, so that a second close fails without
    calling anything. *)
Theorem X11_launch_then_close (w : world) (name : string) (path : value)
    (st st1 : Controller.t) :
  launch_application w (VStr name) path st = (true, st1) ->
  gui_ok w (EvTerminate (popen_pid w)) = true ->
  lookup (running_apps st1) name = Some (popen_pid w)
  /\ exists st2,
       close_application w (VStr name) st1 = (true, st2)
       /\ events st2 = events st1 ++ [EvTerminate (popen_pid w)]
       /\ lookup (running_apps st2) name = None
       /\ close_application w (VStr name) st2 = (false, st2).
Proof.
  intros Hl Hg. unfold launch_application, call in Hl.
  destruct (if truth path then _ else _) as [argv|]; [|discriminate].
  destruct (gui_ok w (EvPopen argv)); [|discriminate].
  injection Hl as <-.
  assert (Hlk : lookup (running_apps
                          (mkController (emergency_stop st) (running st)
                             (action_history st)
                             ((name, popen_pid w)
                                :: filter (fun p => negb (String.eqb (fst p) name))
                                     (running_apps st))
                             (confirmation st)
                             ((events st ++ [EvPopen argv]) ++ [EvSleep]))) name
                = Some (popen_pid w)).
  { cbn. rewrite String.eqb_refl. reflexivity. }
  split; [exact Hlk|].
  unfold close_application at 1. rewrite Hlk. unfold call. rewrite Hg.
  eexists. split; [reflexivity|]. split; [reflexivity|].
  cbn [running_apps filter fst]. rewrite String.eqb_refl. cbn [negb].
  assert (Hf : forall l, filter (fun p : string * Z => negb (String.eqb (fst p) name))
                           (filter (fun p => negb (String.eqb (fst p) name)) l)
                         = filter (fun p => negb (String.eqb (fst p) name)) l).
  { induction l as [|[k v] l IH]; cbn; [reflexivity|].
    destruct (String.eqb k name) eqn:E; cbn; [exact IH|]. rewrite E. cbn.
    f_equal. exact IH. }
  rewrite Hf. split; [apply lookup_filtered|].
  unfold close_application. cbn [running_apps]. rewrite lookup_filtered.
  reflexivity.
Qed.

Lemma X11_launch_then_close_witness :
  let st1 := snd (launch_application desktop (VStr "gedit") VNone Controller.new) in
  lookup (running_apps st1) "gedit" = Some (popen_pid desktop)
  /\ exists st2,
       close_application desktop (VStr "gedit") st1 = (true, st2)
       /\ events st2 = events st1 ++ [EvTerminate (popen_pid desktop)]
       /\ lookup (running_apps st2) "gedit" = None
       /\ close_application desktop (VStr "gedit") st2 = (false, st2).
Proof.
  apply (X11_launch_then_close desktop "gedit" VNone Controller.new); reflexivity.
Defined.

(** Every result carries the action it was made for. *)
Lemma internal_details (w : world) (a : dict) (st : Controller.t) :
  forall r st', _execute_action_internal w a st = (Some r, st') -> details r = a.
Proof.
  intros r st'. unfold _execute_action_internal.
  destruct (type_lower a) as [t|]; [|discriminate].
  repeat match goal with
         | |- context [if String.eqb t ?s then _ else _] =>
           destruct (String.eqb t s)
         end;
    repeat match goal with
           | |- context [match get a ?k with _ => _ end] =>
             destruct (get a k)
           end;
    try (destruct (wait a st) as [[|] ?]);
    intros [= <- _]; reflexivity.
Qed.

Lemma execute_action_details (w : world) (a : dict) (st : Controller.t) :
  forall r st', execute_action w a st = (Some r, st') -> details r = a.
Proof.
  intros r st'. unfold execute_action.
  destruct (emergency_stop st); [intros [= <- _]; reflexivity|].
  destruct (validate_action (cfg w) a) as [|[|] msg rc];
    [discriminate | | intros [= <- _]; reflexivity].
  destruct (if rc then _ else _) as [[[|]|] st1];
    [ | intros [= <- _]; reflexivity | discriminate].
  destruct (_execute_action_internal w a st1) as [[res|] st2] eqn:Hi;
    [|discriminate].
  intros [= <- _]. exact (internal_details w a st1 res st2 Hi).
Qed.

(** X12: the results an action sequence adds belong to the first actions
    of the list, one each and in the order of the list: each is what
    [execute_action] returned for its action and carries that action; the
    first is the result of the first action in the starting state; no
    result before the last one is a failure of an action that asks to stop
    on failure; and the list ends before the last action only when the
    emergency stop is set or on such a failure. *)
Theorem X12_sequence_results_follow_actions (w : world) (keys : nat -> bool)
    (actions : list dict) :
  forall i results st,
    match sequence_loop w keys i actions results st with
    | (Some rs, st') =>
      exists more,
        rs = results ++ more
        /\ Forall2 (fun a r => details r = a
                                /\ exists s s', execute_action w a s = (Some r, s'))
             (firstn (List.length more) actions) more
        /\ (forall a rest r st1,
              actions = a :: rest -> emergency_stop st = false ->
              execute_action w a st = (Some r, st1) ->
              exists more', more = r :: more')
        /\ (forall front r back,
              more = front ++ r :: back -> back <> [] ->
              stops_sequence r = false)
        /\ ((List.length more < List.length actions)%nat ->
            emergency_stop st' = true
            \/ exists front r, more = front ++ [r] /\ stops_sequence r = true)
    | (None, _) => True
    end.
Proof.
  induction actions as [|a rest IH]; intros i results st; cbn [sequence_loop].
  - exists []. split; [symmetry; apply app_nil_r|]. split; [constructor|].
    split; [discriminate|]. split.
    + intros [|f front] r back H; discriminate.
    + cbn. lia.
  - destruct (emergency_stop st) eqn:He.
    { exists []. split; [symmetry; apply app_nil_r|]. split; [constructor|].
      split; [discriminate|]. split.
      - intros [|f front] r back H; discriminate.
      - intros _. left. exact He. }
    destruct (execute_action w a st) as [[r|] st1] eqn:Hx; [|exact I].
    pose proof (execute_action_details w a st r st1 Hx) as Hd.
    assert (Hstop : negb (success r)
                    && truth (dflt a "stop_on_failure" (VBool false))
                    = stops_sequence r).
    { unfold stops_sequence. rewrite Hd. reflexivity. }
    rewrite Hstop. destruct (stops_sequence r) eqn:Hs.
    + exists [r]. split; [reflexivity|].
      split; [cbn; constructor; [split; [exact Hd | eauto] | constructor]|].
      split; [intros a0 rest0 r0 st0 [= <- <-] _ H0; rewrite Hx in H0;
             injection H0 as <- _; eexists; reflexivity|].
      split.
      * intros [|f [|g front]] r0 back H Hb; try discriminate.
        injection H as <- <-. congruence.
      * intros _. right. exists [], r. split; [reflexivity | exact Hs].
    + specialize (IH (S i) (results ++ [r])
                     (if keys i then on_emergency_key st1 else st1)).
      destruct (sequence_loop w keys (S i) rest (results ++ [r])
                  (if keys i then on_emergency_key st1 else st1))
        as [[rs|] st']; [|exact I].
      destruct IH as [more [-> [Hf [_ [Hb Hl]]]]].
      exists (r :: more). split; [rewrite <- app_assoc; reflexivity|].
      split; [cbn; constructor; [split; [exact Hd | eauto] | exact Hf]|].
      split; [intros a0 rest0 r0 st0 [= <- <-] _ H0; rewrite Hx in H0;
             injection H0 as <- _; eexists; reflexivity|].
      split.
      * intros [|f front] r0 back H Hne.
        -- injection H as <- <-. exact Hs.
        -- injection H as <- H. exact (Hb front r0 back H Hne).
      * cbn [List.length]. intro Hlt.
        destruct Hl as [Hl | [front [r0 [-> Hr0]]]]; [lia | left; exact Hl |].
        right. exists (r :: front), r0. split; [reflexivity | exact Hr0].
Qed.

(** A sequence of three actions whose second one fails and asks to stop:
    two results, the third action is not tried. *)
Example sequence_stops_on_failure :
  let off_screen := [ ("type", VStr "click"); ("x", VInt 5000); ("y", VInt 5);
                      ("stop_on_failure", VBool true) ] in
  option_map (map success)
    (fst (execute_action_sequence desktop (fun _ => false)
            [click_50_50; off_screen; click_50_50] Controller.new))
  = Some [true; false].
Proof. vm_compute. reflexivity. Qed.

(** X13: the scroll tool's "clicks" argument never reaches the
    controller, which reads "amount": whatever the arguments, every scroll
    the tool performs is of three notches. *)
Theorem X13_scroll_tool_ignores_clicks (w : world) (arguments a : dict)
    (st : Controller.t) :
  _handle_scroll_action arguments = Some a ->
  exists evs,
    events (snd (execute_action w a st)) = events st ++ evs
    /\ Forall three_notches evs.
Proof.
  intro Ha.
  assert (Hshape : type_lower a = Some "scroll" /\ get a "amount" = None).
  { unfold _handle_scroll_action in Ha.
    destruct (get arguments "direction"); [|discriminate].
    destruct (get arguments "x"); [destruct (get arguments "y")|];
      injection Ha as <-; split; reflexivity. }
  destruct Hshape as [Ht Hamt].
  assert (Hnil : exists evs, events st = events st ++ evs /\ Forall three_notches evs).
  { exists []. split; [symmetry; apply app_nil_r | constructor]. }
  unfold execute_action. destruct (emergency_stop st); [exact Hnil|].
  assert (Hv : exists rc, validate_action (cfg w) a = Verdict true None rc).
  { unfold validate_action. rewrite Ht. cbn [lookup ACTION_SAFETY_LEVELS].
    cbn -[keyword_hit]. eexists. reflexivity. }
  destruct Hv as [rc ->].
  assert (Hgate : exists ans st1 pre,
             (if rc
              then (fst (request_confirmation (confirmation st) w a (events st)),
                    with_events st
                      (snd (request_confirmation (confirmation st) w a (events st))))
              else (Some true, st)) = (ans, st1)
             /\ events st1 = events st ++ pre /\ Forall three_notches pre).
  { destruct rc.
    - unfold request_confirmation.
      destruct (negb (confirm_sensitive_actions (cfg w)));
        [eexists _, _, []; cbn; rewrite app_nil_r; repeat split; constructor|].
      destruct (negb (tkinter_found w));
        [eexists _, _, []; cbn; rewrite app_nil_r; repeat split; constructor|].
      destruct (messagebox_import w).
      + destruct (dialog_answer w a); eexists _, _, [_]; cbn;
          repeat split; repeat constructor.
      + destruct (console_answer w a); eexists _, _, [_]; cbn;
          repeat split; repeat constructor.
      + eexists _, _, []; cbn; rewrite app_nil_r; repeat split; constructor.
    - eexists _, _, []. rewrite app_nil_r. repeat split; constructor. }
  destruct Hgate as [ans [st1 [pre [-> [Hpre Fpre]]]]].
  destruct ans as [[|]|]; cbn [snd events];
    try (exists pre; split; [exact Hpre | exact Fpre]).
  unfold _execute_action_internal. rewrite Ht.
  cbn [String.eqb Ascii.eqb Bool.eqb]. cbn -[scroll dflt].
  unfold dflt at 2. unfold get_default. rewrite Hamt.
  unfold scroll, call.
  destruct (dflt a "direction" (VStr "down")) as [d| | | |];
    cbn; try (exists pre; split; [exact Hpre | exact Fpre]).
  destruct (gui_ok w _); cbn; rewrite Hpre, <- ?app_assoc;
    eexists; (split; [reflexivity|]);
    apply Forall_app; (split; [exact Fpre|]);
    destruct (String.eqb (lower d) "up");
    repeat first [apply Forall_nil | apply Forall_cons];
    cbn; try exact I; lia.
Qed.

Lemma X13_scroll_tool_ignores_clicks_witness :
  let a := [ ("type", VStr "scroll"); ("direction", VStr "up");
             ("clicks", VInt 10) ] in
  exists evs,
    events (snd (execute_action desktop a Controller.new))
    = events Controller.new ++ evs
    /\ Forall three_notches evs.
Proof.
  apply (X13_scroll_tool_ignores_clicks desktop
           [("direction", VStr "up"); ("clicks", VInt 10)]).
  reflexivity.
Defined.
End ControllerMore.

Module SafetyMore.
Import Py SafetyMonitor SafetyDefs.

Lemma first_hit_none (keywords : list string) (text : string) :
  first_hit keywords text = None
  <-> existsb (fun keyword => contains keyword text) keywords = false.
Proof.
  unfold first_hit. induction keywords as [|k l IH]; cbn; [tauto|].
  destruct (contains k text); cbn; [split; discriminate | exact IH].
Qed.

(** X14: on an action whose target, command and operation are strings or
    absent and whose path is a string or absent, the monitor approves
    exactly when the lowered target contains no warning keyword, a
    system_command has no dangerous fragment in its lowered command, and a
    file_operation that deletes or formats has a safe-zone name in its
    lowered path; the keyword test is a plain substring test. *)
Theorem X14_monitor_verdict (action : dict) (target command operation : string)
    (safe_path : bool) :
  get_lower action "target" = Some target ->
  get_lower action "command" = Some command ->
  get_lower action "operation" = Some operation ->
  _is_safe_location (get_default action "path" (VStr EmptyString)) = Some safe_path ->
  exists message,
    validate_action action
    = Some (approves action target command operation safe_path, message).
Proof.
  intros Ht Hc Ho Hp. unfold validate_action, approves.
  rewrite Ht.
  destruct (first_hit warning_keywords target) as [k|] eqn:Hk.
  - assert (He : existsb (fun keyword => contains keyword target) warning_keywords
                 = true).
    { destruct (existsb _ warning_keywords) eqn:E; [reflexivity|].
      apply first_hit_none in E. congruence. }
    rewrite He. cbn. eexists. reflexivity.
  - apply first_hit_none in Hk. rewrite Hk. cbn [negb andb].
    rewrite Hc, Ho, Hp.
    destruct (value_is (get action "type") "system_command"); cbn [andb negb].
    + destruct (existsb _ [ "rm -rf"; "format"; "del /f" ]); cbn [negb andb];
        [eexists; reflexivity|].
      destruct (value_is (get action "type") "file_operation"); cbn [andb negb];
        [|eexists; reflexivity].
      destruct (String.eqb operation "delete" || String.eqb operation "format");
        cbn; [|eexists; reflexivity].
      destruct safe_path; cbn; eexists; reflexivity.
    + destruct (value_is (get action "type") "file_operation"); cbn [andb negb];
        [|eexists; reflexivity].
      destruct (String.eqb operation "delete" || String.eqb operation "format");
        cbn; [|eexists; reflexivity].
      destruct safe_path; cbn; eexists; reflexivity.
Qed.

Lemma X14_monitor_verdict_witness :
  exists message,
    validate_action [ ("type", VStr "click"); ("target", VStr "Confirm") ]
    = Some (false, message).
Proof.
  apply (X14_monitor_verdict [ ("type", VStr "click"); ("target", VStr "Confirm") ]
           "confirm" EmptyString EmptyString false); reflexivity.
Defined.

(** X15: the safety check of [process_user_request] looks at an action
    with the keys "type" and "content" only, so it finds no target to
    examine: no prompt is ever blocked. *)
Theorem X15_no_prompt_is_blocked (plan_steps : nat) (user_prompt : string) :
  process_user_request plan_steps user_prompt = Approved plan_steps.
Proof. reflexivity. Qed.

End SafetyMore.

Module PerceiverMore.
Import Py Perceiver Reading PerceiverFacts PerceiverDefs.
Local Open Scope Q_scope.

Lemma Qsum_above (m : Q) (l : list Q) :
  Forall (fun x => m < x) l -> m * Qlen l <= Qsum l.
Proof.
  induction 1 as [|x l Hx _ IH]; cbn.
  - unfold Qlen. cbn. rewrite Qmult_0_r. apply Qle_refl.
  - rewrite Qlen_cons, Qmult_plus_distr_r, Qmult_1_r.
    apply Qplus_le_compat; [apply Qlt_le_weak, Hx | exact IH].
Qed.

Lemma mean_above (m x : Q) (l : list Q) :
  Forall (fun y => m < y) (x :: l) -> m < mean (x :: l).
Proof.
  intro H. unfold mean. apply Qlt_shift_div_l; [apply Qlen_pos|].
  inversion H as [|? ? Hx Hl]; subst. cbn [Qsum]. rewrite Qlen_cons.
  rewrite Qmult_plus_distr_r, Qmult_1_r.
  apply Qplus_lt_le_compat; [exact Hx | apply Qsum_above, Hl].
Qed.

Lemma Qsum_below (m : Q) (l : list Q) :
  Forall (fun x => x <= m) l -> Qsum l <= m * Qlen l.
Proof.
  induction 1 as [|x l Hx _ IH]; cbn.
  - unfold Qlen. cbn. rewrite Qmult_0_r. apply Qle_refl.
  - rewrite Qlen_cons, Qmult_plus_distr_r, Qmult_1_r.
    apply Qplus_le_compat; [exact Hx | exact IH].
Qed.

Lemma mean_below (m x : Q) (l : list Q) :
  Forall (fun y => y <= m) (x :: l) -> mean (x :: l) <= m.
Proof.
  intro H. unfold mean. apply Qle_shift_div_r; [apply Qlen_pos|].
  apply Qsum_below, H.
Qed.

Lemma retained_words (c : Config.t) (data : list ocr_entry) :
  Forall (fun wd => truthy (w_text wd) = true
                    /\ Config.min_ocr_confidence c < w_confidence wd)
    (retained c data).
Proof.
  unfold retained. induction data as [|[t conf] data IH];
    cbn [flat_map fst snd]; [constructor|].
  destruct (truthy (strip t) && Qltb (Config.min_ocr_confidence c * 100) conf)
    eqn:E; cbn [List.app]; [|exact IH].
  apply andb_true_iff in E. destruct E as [Ht Hc].
  constructor; [|exact IH]. cbn. split; [exact Ht|].
  apply Qlt_shift_div_l; [reflexivity | apply Qltb_true, Hc].
Qed.

(** At the configured threshold 0.6 the words kept are those of the table
    with a non-empty stripped text and a confidence above 60. *)
Lemma retained_at_default (c : Config.t) (data : list ocr_entry) (wd : word) :
  Config.min_ocr_confidence c == 6 # 10 ->
  (In wd (retained c data)
   <-> exists e, In e data /\ truthy (strip (fst e)) = true /\ 60 < snd e
                 /\ wd = mkWord (strip (fst e)) (snd e / 100)).
Proof.
  intro Hc.
  assert (Hk : forall conf,
             Qltb (Config.min_ocr_confidence c * 100) conf = true <-> 60 < conf).
  { intro conf. assert (He : Config.min_ocr_confidence c * 100 == 60).
    { rewrite Hc. reflexivity. }
    split.
    - intro H. apply Qltb_true in H. rewrite He in H. exact H.
    - intro H. unfold Qltb. apply negb_true_iff.
      destruct (Qle_bool conf (Config.min_ocr_confidence c * 100)) eqn:E;
        [|reflexivity].
      apply Qle_bool_iff in E. rewrite He in E.
      exfalso. exact (Qlt_not_le _ _ H E). }
  unfold retained. rewrite in_flat_map. split.
  - intros [e [He Hin]]. exists e. split; [exact He|].
    destruct (truthy (strip (fst e))) eqn:Ht; cbn [andb] in Hin; [|destruct Hin].
    destruct (Qltb (Config.min_ocr_confidence c * 100) (snd e)) eqn:Hq;
      [|destruct Hin].
    destruct Hin as [<- | []]. split; [reflexivity|].
    split; [apply Hk, Hq | reflexivity].
  - intros [e [He [Ht [Hq ->]]]]. exists e. split; [exact He|].
    rewrite Ht. apply Hk in Hq. rewrite Hq. left. reflexivity.
Qed.

(** X16: at the configured threshold 0.6, where the product
    [min_ocr_confidence * 100] of the source is exactly 60, the words
    [extract_text] keeps are those of the recogniser's table with a
    non-empty stripped text and a confidence above 60, each with its
    confidence divided by 100, hence above 0.6; the text is the kept words
    joined by single spaces; the reported confidence is 0 when no word is
    kept and else the mean of the kept confidences, which is above 0.6
    for a table of whole-number confidences. *)
Theorem X16_kept_words_are_confident (c : Config.t)
    (data : list ocr_entry) :
  Config.min_ocr_confidence c == 6 # 10 ->
  let ocr := extract_text c (Some data) in
  (forall wd,
      In wd (o_words ocr)
      <-> exists e, In e data /\ truthy (strip (fst e)) = true /\ 60 < snd e
                    /\ wd = mkWord (strip (fst e)) (snd e / 100))
  /\ Forall (fun wd => 6 # 10 < w_confidence wd) (o_words ocr)
  /\ o_text ocr = join " " (map w_text (o_words ocr))
  /\ match o_words ocr with
     | [] => o_confidence ocr = 0
     | _ => o_confidence ocr = mean (map w_confidence (o_words ocr))
            /\ (Forall (fun e => exists k : Z, snd e == inject_Z k) data ->
                6 # 10 < o_confidence ocr)
     end.
Proof.
  intros Hc ocr. subst ocr. cbn [extract_text o_words o_text o_confidence].
  pose proof (retained_words c data) as H.
  assert (Hall : Forall (fun wd => 6 # 10 < w_confidence wd) (retained c data)).
  { revert H. apply Forall_impl. intros wd [_ Hw]. rewrite <- Hc. exact Hw. }
  split; [intro wd; apply retained_at_default, Hc|].
  split; [exact Hall|]. split; [reflexivity|].
  destruct (retained c data) as [|wd l]; cbn [map]; [reflexivity|].
  split; [reflexivity|]. intros _.
  apply mean_above. change (w_confidence wd :: map w_confidence l)
    with (map w_confidence (wd :: l)).
  apply Forall_map. exact Hall.
Qed.

Lemma X16_kept_words_are_confident_witness :
  let ocr := extract_text Config.CONFIG
               (Some [("Save ", 96); (EmptyString, 95); ("x", 60); ("as", 61)]) in
  map w_text (o_words ocr) = ["Save"; "as"]
  /\ Forall (fun wd => 6 # 10 < w_confidence wd) (o_words ocr).
Proof.
  cbv zeta. split; [reflexivity|].
  apply (X16_kept_words_are_confident Config.CONFIG
           [("Save ", 96); (EmptyString, 95); ("x", 60); ("as", 61)]).
  reflexivity.
Defined.

(** X17: a scene description that failed (backend unavailable or call
    raising), or that is switched off, adds nothing to the score: the
    score is the one of an empty description. *)
Theorem X17_failed_description_does_not_count (c : Config.t) (err : string)
    (ocr_confidence : Q) (ecs : list Q) :
  _calculate_confidence ocr_confidence ecs (analyze_screenshot c (VlmUnavailable err))
  = _calculate_confidence ocr_confidence ecs EmptyString
  /\ _calculate_confidence ocr_confidence ecs (analyze_screenshot c (VlmRaises err))
     = _calculate_confidence ocr_confidence ecs EmptyString.
Proof.
  unfold analyze_screenshot.
  destruct (negb (Config.enable_vlm_description c)); split; reflexivity.
Qed.

Lemma extract_text_at_most_one (c : Config.t) (data : list ocr_entry) :
  Forall (fun e => snd e <= 100) data ->
  o_confidence (extract_text c (Some data)) <= 1.
Proof.
  intro H. cbn.
  assert (Hw : Forall (fun x => x <= 1) (map w_confidence (retained c data))).
  { apply Forall_map. unfold retained.
    induction H as [|[t conf] data Hc _ IH]; cbn [flat_map fst snd];
      [constructor|].
    destruct (truthy (strip t) && Qltb (Config.min_ocr_confidence c * 100) conf);
      cbn [List.app]; [|exact IH].
    constructor; [|exact IH]. cbn.
    apply Qle_shift_div_r; [reflexivity | exact Hc]. }
  destruct (map w_confidence (retained c data)) as [|x l]; [discriminate|].
  apply mean_below, Hw.
Qed.

Lemma capped_small (x : Q) : x <= 1 -> Qmin (x / 100) 1 <= 1 # 100.
Proof.
  intro H. apply Qle_trans with (x / 100); [apply Q.le_min_l|].
  apply Qle_shift_div_r; [reflexivity|].
  apply Qle_trans with 1; [exact H | discriminate].
Qed.

(** The score for sub-scores that are at most 1 before the division. *)
Lemma calculate_confidence_cap (ocr_confidence : Q) (ecs : list Q) (text : string) :
  ocr_confidence <= 1 -> Forall (fun x => x <= 1) ecs ->
  _calculate_confidence ocr_confidence ecs text <= 8 # 10
  /\ (truthy text && negb (startswith text "Vision analysis") = false ->
      _calculate_confidence ocr_confidence ecs text <= 1 # 100).
Proof.
  intros Ho He. unfold _calculate_confidence.
  set (s1 := if Qltb 0 ocr_confidence
             then [] ++ [Qmin (ocr_confidence / 100) 1] else []).
  assert (H1 : Forall (fun x => x <= 1 # 100) s1).
  { subst s1. destruct (Qltb 0 ocr_confidence); [|constructor].
    repeat constructor. apply capped_small, Ho. }
  set (s2 := match ecs with
             | [] => s1
             | _ => s1 ++ [Qmin (mean ecs / 100) 1]
             end).
  assert (H2 : Forall (fun x => x <= 1 # 100) s2).
  { subst s2. destruct ecs as [|e ecs]; [exact H1|].
    apply Forall_app. split; [exact H1|].
    repeat constructor. apply capped_small, mean_below, He. }
  destruct (truthy text && negb (startswith text "Vision analysis")).
  - split; [|discriminate].
    assert (H3 : Forall (fun x => x <= 8 # 10) (s2 ++ [8 # 10])).
    { apply Forall_app. split.
      - revert H2. apply Forall_impl. intros a Ha.
        apply Qle_trans with (1 # 100); [exact Ha | discriminate].
      - repeat constructor. apply Qle_refl. }
    destruct (s2 ++ [8 # 10]) as [|x l]; [discriminate | apply mean_below, H3].
  - assert (Hs : match s2 with [] => 0 | _ :: _ => mean s2 end <= 1 # 100).
    { destruct s2 as [|x l]; [discriminate | apply mean_below, H2]. }
    split; [|intros _; exact Hs].
    apply Qle_trans with (1 # 100); [exact Hs | discriminate].
Qed.

(** X18: because the sub-scores are divided by 100 before averaging, the
    score of a context never exceeds 0.8 when the recogniser's
    confidences are at most 100, and never exceeds 0.01 when no scene
    description counts. *)
Theorem X18_score_is_capped (c : Config.t) (obs : observation) (data : list ocr_entry) :
  ocr_table obs = Some data ->
  Forall (fun e => snd e <= 100) data ->
  let ctx := perceive_screen c obs in
  confidence_score ctx <= 8 # 10
  /\ (truthy (vlm_description ctx)
      && negb (startswith (vlm_description ctx) "Vision analysis") = false ->
      confidence_score ctx <= 1 # 100).
Proof.
  intros Hd Hc. cbv zeta. unfold perceive_screen.
  cbn [confidence_score vlm_description]. rewrite Hd.
  apply calculate_confidence_cap; [apply extract_text_at_most_one, Hc|].
  apply Forall_map.
  assert (H : Forall well_formed
                (if Config.enable_ui_parsing c
                 then detect_elements (contours_found obs) else [])).
  { destruct (Config.enable_ui_parsing c); [|constructor].
    apply detect_elements_ranked. }
  revert H. apply Forall_impl. intros e. unfold well_formed.
  destruct (e_bbox e) as [[[x y] w] h]. intros [_ [_ ->]]. apply Q.le_min_l.
Qed.

Lemma X18_score_is_capped_witness :
  let ctx := perceive_screen Config.CONFIG Samples.one_word in
  confidence_score ctx <= 8 # 10
  /\ (truthy (vlm_description ctx)
      && negb (startswith (vlm_description ctx) "Vision analysis") = false ->
      confidence_score ctx <= 1 # 100).
Proof.
  apply (X18_score_is_capped Config.CONFIG Samples.one_word [("ok", 90)]).
  - reflexivity.
  - repeat constructor. cbn. discriminate.
Defined.

(** X19: when at most 50 contours are classified, [detect_elements]
    returns all of them (reordered only); in any case each element it
    returns has a confidence between 0.01 and 1. *)
Theorem X19_no_element_is_lost (contours : list contour) (elements : list element) :
  collect contours = Some elements ->
  (List.length elements <= 50)%nat ->
  Permutation (detect_elements (Some contours)) elements
  /\ Forall (fun e => 1 # 100 <= e_confidence e /\ e_confidence e <= 1)
       (detect_elements (Some contours)).
Proof.
  intros Hc Hl. split.
  - cbn [detect_elements]. rewrite Hc. rewrite firstn_all2.
    + apply sort_desc_perm.
    + rewrite (Permutation_length (sort_desc_perm elements)). exact Hl.
  - destruct (detect_elements_ranked (Some contours)) as [_ [_ Hw]].
    revert Hw. apply Forall_impl. intros e. unfold well_formed.
    destruct (e_bbox e) as [[[x y] w] h]. intros [Ha [_ ->]].
    apply Qltb_false in Ha. split; [|apply Q.le_min_l].
    apply Q.min_glb; [discriminate|].
    apply Qle_shift_div_l; [reflexivity|].
    apply Qle_trans with 100; [discriminate | exact Ha].
Qed.

Lemma X19_no_element_is_lost_witness :
  let c := mkContour 2000 10 10 50 40 in
  Permutation (detect_elements (Some [c]))
    [ mkElement button (10, 10, 50, 40)%Z (35, 30)%Z 2000 (Qmin 1 (2000 / 10000)) ]
  /\ Forall (fun e => 1 # 100 <= e_confidence e /\ e_confidence e <= 1)
       (detect_elements (Some [c])).
Proof.
  apply (X19_no_element_is_lost [mkContour 2000 10 10 50 40]).
  - reflexivity.
  - cbn. lia.
Defined.

(** X20: what each label guarantees, and what is never labelled: a button
    has an area strictly between 1000 and 50000 and a 20..400 by 15..100
    box, an input is wider than twice its height and lower than 50, an
    icon is smaller than 10000, a panel is larger than 50000, and no
    region of area 400 or less gets a label. *)
Theorem X20_labels_are_sound (area aspect : Q) (width height : Z) :
  match _classify_element area aspect width height with
  | Some button =>
    1000 < area /\ area < 50000 /\ (20 < width < 400)%Z /\ (15 < height < 100)%Z
  | Some input => 500 < area /\ area < 100000 /\ 2 < aspect /\ (height < 50)%Z
  | Some icon => 400 < area /\ area < 10000 /\ 5 # 10 < aspect /\ aspect < 2
  | Some panel => 50000 < area
  | None => True
  end
  /\ (area <= 400 -> _classify_element area aspect width height = None).
Proof.
  rewrite classify_is_listed. unfold listed_classification.
  split.
  - repeat match goal with
           | |- context [if ?b then _ else _] =>
             let E := fresh "E" in destruct b eqn:E
           end; try exact I;
      repeat match goal with
             | H : _ && _ = true |- _ => apply andb_true_iff in H; destruct H
             | H : Qltb _ _ = true |- _ => apply Qltb_true in H
             | H : (_ <? _)%Z = true |- _ => apply Z.ltb_lt in H
             end; repeat split; assumption.
  - intro Ha.
    assert (H1 : Qltb 1000 area = false).
    { destruct (Qltb 1000 area) eqn:E; [|reflexivity]. apply Qltb_true in E.
      exfalso. apply (Qlt_irrefl 1000).
      apply Qlt_le_trans with area; [exact E|].
      apply Qle_trans with 400; [exact Ha | discriminate]. }
    assert (H2 : Qltb 500 area = false).
    { destruct (Qltb 500 area) eqn:E; [|reflexivity]. apply Qltb_true in E.
      exfalso. apply (Qlt_irrefl 500).
      apply Qlt_le_trans with area; [exact E|].
      apply Qle_trans with 400; [exact Ha | discriminate]. }
    assert (H3 : Qltb 400 area = false).
    { destruct (Qltb 400 area) eqn:E; [|reflexivity]. apply Qltb_true in E.
      exfalso. apply (Qlt_irrefl 400).
      apply Qlt_le_trans with area; [exact E | exact Ha]. }
    assert (H4 : Qltb 50000 area = false).
    { destruct (Qltb 50000 area) eqn:E; [|reflexivity]. apply Qltb_true in E.
      exfalso. apply (Qlt_irrefl 50000).
      apply Qlt_le_trans with area; [exact E|].
      apply Qle_trans with 400; [exact Ha | discriminate]. }
    rewrite H1, H2, H3, H4. reflexivity.
Qed.

Lemma contains_in_empty (s : string) :
  s <> EmptyString -> contains s EmptyString = false.
Proof. destruct s; [congruence | reflexivity]. Qed.

Lemma lower_nonempty (s : string) : s <> EmptyString -> lower s <> EmptyString.
Proof. destruct s; [congruence | discriminate]. Qed.

(** X21: the elements of a perceived context carry no text, so looking one
    up by a non-empty text never finds it. *)
Theorem X21_lookup_by_text_finds_nothing (c : Config.t) (obs : observation)
    (text : string) :
  text <> EmptyString ->
  get_ui_element_by_text (perceive_screen c obs) text = None.
Proof.
  intro H. unfold get_ui_element_by_text, element_text. cbn [lower].
  rewrite (contains_in_empty _ (lower_nonempty _ H)).
  induction (ui_elements (perceive_screen c obs)); [reflexivity | exact IHl].
Qed.

Lemma X21_lookup_by_text_finds_nothing_witness :
  get_ui_element_by_text (perceive_screen Config.CONFIG Samples.one_word) "OK" = None.
Proof.
  apply (X21_lookup_by_text_finds_nothing Config.CONFIG Samples.one_word "OK").
  discriminate.
Defined.

(** X29: the score of every context built by [perceive_screen] lies
    between 0 and 1. *)
Theorem X29_score_is_in_unit_interval (c : Config.t) (obs : observation) :
  0 <= confidence_score (perceive_screen c obs)
  /\ confidence_score (perceive_screen c obs) <= 1.
Proof. apply confidence_score_in_unit. Qed.

End PerceiverMore.

Module AgentMore.
Import Py Decomposer AgentDefs Reading DecomposerFacts.

(** ** Splitting *)

Lemma rev_acc_twice (s : string) :
  forall acc t, rev_acc (rev_acc s acc) t = rev_acc acc (s ++ t)%string.
Proof.
  induction s as [|c s IH]; intros acc t; cbn; [reflexivity|].
  rewrite IH. reflexivity.
Qed.

Lemma append_empty (s : string) : (s ++ EmptyString)%string = s.
Proof. induction s as [|c s IH]; cbn; congruence. Qed.

Lemma rev_rev (s : string) : rev (rev s) = s.
Proof. unfold rev. rewrite rev_acc_twice. cbn. apply append_empty. Qed.

Lemma contains_tail (sub : string) (c : ascii) (s : string) :
  contains sub (String c s) = false ->
  prefix sub (String c s) = false /\ contains sub s = false.
Proof.
  cbn [contains]. destruct (prefix sub (String c s)); [discriminate | auto].
Qed.

Lemma split_aux_absent (sep : string) (s : string) :
  forall cur, contains sep s = false ->
              split_aux sep 0 cur s = [rev (rev_acc s cur)].
Proof.
  induction s as [|c s IH]; intros cur H; cbn [split_aux rev_acc].
  - reflexivity.
  - apply contains_tail in H. destruct H as [Hp Hc]. rewrite Hp.
    apply IH, Hc.
Qed.

(** Splitting at a separator that does not occur gives the text itself. *)
Lemma split_absent (sep s : string) :
  contains sep s = false -> split sep s = [s].
Proof.
  intro H. unfold split. rewrite (split_aux_absent sep s EmptyString H).
  fold (rev s). rewrite rev_rev. reflexivity.
Qed.

Lemma mem_in (s : string) (l : list string) : mem s l = true <-> In s l.
Proof.
  unfold mem. rewrite existsb_exists. split.
  - intros [x [Hx He]]. apply String.eqb_eq in He. congruence.
  - intro H. exists s. split; [exact H | apply String.eqb_refl].
Qed.

Lemma distinct_facts (parts : list string) :
  forall seen,
    NoDup (distinct seen parts)
    /\ Forall (fun p => p <> EmptyString /\ In p parts /\ ~ In p seen)
         (distinct seen parts)
    /\ (forall p, In p parts -> p <> EmptyString ->
                  In p seen \/ In p (distinct seen parts)).
Proof.
  induction parts as [|p rest IH]; intro seen; cbn [distinct].
  - repeat split; [constructor | constructor | intros p []].
  - destruct (truthy p && negb (mem p seen)) eqn:E.
    + apply andb_true_iff in E. destruct E as [Ht Hm].
      apply negb_true_iff in Hm.
      assert (Hns : ~ In p seen).
      { intro Hin. apply mem_in in Hin. congruence. }
      destruct (IH (p :: seen)) as [Hnd [Hall Hcov]].
      rewrite Forall_forall in Hall. split; [|split].
      * constructor; [|exact Hnd]. intro Hin.
        destruct (Hall p Hin) as [_ [_ Hn]]. apply Hn. left. reflexivity.
      * constructor.
        -- split; [destruct p; [discriminate | discriminate]|].
           split; [left; reflexivity | exact Hns].
        -- apply Forall_forall. intros q Hq. destruct (Hall q Hq) as [H1 [H2 H3]].
           split; [exact H1|]. split; [right; exact H2|].
           intro Hin. apply H3. right. exact Hin.
      * intros q [<- | Hq] Hne; [right; left; reflexivity|].
        destruct (Hcov q Hq Hne) as [[<- | Hs] | Hd];
          [right; left; reflexivity | left; exact Hs | right; right; exact Hd].
    + destruct (IH seen) as [Hnd [Hall Hcov]]. split; [exact Hnd|]. split.
      * revert Hall. apply Forall_impl. intros q [H1 [H2 H3]].
        split; [exact H1|]. split; [right; exact H2 | exact H3].
      * intros q [<- | Hq] Hne; [|apply Hcov; assumption].
        apply andb_false_iff in E. destruct E as [E | E].
        -- destruct p; [congruence | discriminate].
        -- apply negb_false_iff in E. left. apply mem_in, E.
Qed.

(** X22: the steps [handle_complex_open_command] works through are
    non-empty and pairwise distinct, and each is a stripped piece of the
    corrected command. *)
Theorem X22_complex_steps_are_distinct (command : string) :
  NoDup (complex_steps command)
  /\ Forall (fun p => p <> EmptyString /\ In p (parts_of (corrected command)))
       (complex_steps command).
Proof.
  unfold complex_steps.
  destruct (distinct_facts (parts_of (corrected command)) []) as [H1 [H2 _]].
  split; [exact H1|]. revert H2. apply Forall_impl. tauto.
Qed.

(** X23: unless the corrected command contains both " and " and " then ",
    the whole command (stripped) is itself one of the steps, so a command
    "a and b" is worked through as "a", "b" and then "a and b" again. *)
Theorem X23_whole_command_is_a_step (command : string) :
  contains " and " (corrected command) = false
  \/ contains " then " (corrected command) = false ->
  strip (corrected command) <> EmptyString ->
  In (strip (corrected command)) (complex_steps command).
Proof.
  intros Hsep Hne. unfold complex_steps.
  destruct (distinct_facts (parts_of (corrected command)) []) as [_ [_ Hcov]].
  destruct (Hcov (strip (corrected command))) as [[] | H]; [| exact Hne | exact H].
  unfold parts_of. apply in_or_app.
  destruct Hsep as [Ha | Ht].
  - left. rewrite (split_absent _ _ Ha). left. reflexivity.
  - right. rewrite (split_absent _ _ Ht). left. reflexivity.
Qed.

Lemma X23_whole_command_is_a_step_witness :
  In (strip (corrected "open chrome and search cats"))
    (complex_steps "open chrome and search cats").
Proof.
  apply (X23_whole_command_is_a_step "open chrome and search cats").
  - right. reflexivity.
  - vm_compute. discriminate.
Defined.

Example open_chrome_and_search_cats_steps :
  complex_steps "open chrome and search cats"
  = [ "open chrome"; "search cats"; "open chrome and search cats" ]
  /\ map fst (snd (handle_complex_open_command (fun _ _ => true)
                     "open chrome and search cats"))
     = [ OpenChrome; SearchFor; OpenChrome ].
Proof. vm_compute. split; reflexivity. Qed.

End AgentMore.

Module DecomposerMore.
Import Py Decomposer Samples Reading DecomposerFacts DecomposerDefs.

Lemma nodup_length {A} (dec : forall x y : A, {x = y} + {x <> y}) (l : list A) :
  (List.length (nodup dec l) <= List.length l)%nat.
Proof.
  induction l as [|x l IH]; cbn; [lia|].
  destruct (in_dec dec x l); cbn; lia.
Qed.

(** X24: a plan is taken from the language model only if it has at least
    two distinct lines, and it is then returned as it is. *)
Theorem X24_accepted_plan (extract_search_term : string -> string) (o : oracle)
    (command : string) (lines : list string) :
  llm_plan o command = Some lines ->
  refactor_user_prompt extract_search_term o command = lines
  /\ (2 <= List.length (nodup string_dec lines))%nat
  /\ (2 <= List.length lines)%nat.
Proof.
  intro H. unfold refactor_user_prompt. rewrite H.
  apply llm_plan_acceptable in H. unfold acceptable in H.
  destruct lines as [|l ls]; [discriminate|].
  apply Nat.leb_le in H. split; [reflexivity|]. split; [exact H|].
  pose proof (nodup_length string_dec (l :: ls)). lia.
Qed.

Lemma X24_accepted_plan_witness :
  let o := mkOracle (Reply true two_lines false) CallRaises in
  refactor_user_prompt any_term o "browse" = [ "Open Chrome"; "Wait" ]
  /\ (2 <= List.length (nodup string_dec [ "Open Chrome"; "Wait" ]))%nat
  /\ (2 <= List.length [ "Open Chrome"; "Wait" ])%nat.
Proof.
  apply (X24_accepted_plan any_term
           (mkOracle (Reply true two_lines false) CallRaises) "browse").
  vm_compute. reflexivity.
Defined.

(** X25: for a command that is not complex (at most 100 characters, no
    comma, no " and ", no " then ") the language model is asked once: the
    second request is never made, so its answer has no effect. *)
Theorem X25_simple_command_one_request (extract_search_term : string -> string)
    (first second second' : reply) (command : string) :
  is_complex command = false ->
  refactor_user_prompt extract_search_term (mkOracle first second) command
  = refactor_user_prompt extract_search_term (mkOracle first second') command.
Proof.
  intro H. unfold refactor_user_prompt, llm_plan. cbn [primary secondary].
  rewrite H. destruct first as [|success content used]; [reflexivity|].
  cbn [negb]. destruct (success && used); cbn [negb];
    destruct success; destruct (acceptable (parse_lines content)); reflexivity.
Qed.

Lemma X25_simple_command_one_request_witness :
  refactor_user_prompt any_term (mkOracle (Reply false EmptyString false) CallRaises)
    "hello"
  = refactor_user_prompt any_term
      (mkOracle (Reply false EmptyString false)
         (Reply true two_lines false)) "hello".
Proof.
  apply (X25_simple_command_one_request any_term). reflexivity.
Defined.

(** The rules after the first only add steps at the end. *)
Lemma rules_append (extract_search_term : string -> string) (command : string) :
  exists more,
    pattern_steps extract_search_term command
    = open_steps (normalise command) ++ more.
Proof.
  unfold pattern_steps, site_steps, search_steps, result_steps.
  set (cmd := normalise command). set (s0 := open_steps cmd).
  destruct (visited_site cmd) as [[kw dom]|].
  - destruct (negb (mem "Open Google Chrome" s0 || mem "Wait for Chrome" s0));
      cbn [negb andb];
      destruct (any_in _ cmd);
      try destruct (find _ _);
      try destruct (any_in [ "first"; "top"; "result"; "website" ] cmd);
      rewrite <- ?app_assoc; eexists; try reflexivity;
      rewrite app_nil_r; reflexivity.
  - cbn [negb andb].
    destruct (any_in [ "search"; "find"; "look up" ] cmd);
      try destruct (negb (mem "Focus on the address bar" s0 || mem "press Ctrl+L" s0));
      destruct (any_in _ cmd);
      try destruct (find _ _);
      try destruct (any_in [ "first"; "top"; "result"; "website" ] cmd);
      rewrite <- ?app_assoc; eexists; try reflexivity;
      rewrite app_nil_r; reflexivity.
Qed.

(** X26: when the language model gives no plan and the corrected command
    mentions "open" together with "chrome" or "browser", the plan begins
    with opening Chrome and waiting for it. *)
Theorem X26_open_chrome_comes_first (extract_search_term : string -> string)
    (o : oracle) (command : string) :
  llm_plan o command = None ->
  contains "open" (normalise command) = true ->
  contains "chrome" (normalise command) || contains "browser" (normalise command)
  = true ->
  exists more,
    refactor_user_prompt extract_search_term o command
    = "Open Google Chrome" :: "Wait for Chrome to load (3 seconds)" :: more.
Proof.
  intros Hl Ho Hc. unfold refactor_user_prompt, fallback. rewrite Hl.
  destruct (rules_append extract_search_term command) as [more ->].
  unfold open_steps. rewrite Ho, Hc. cbn. eexists. reflexivity.
Qed.

Lemma X26_open_chrome_comes_first_witness :
  exists more,
    refactor_user_prompt any_term no_oracle "open chrome and search for cats"
    = "Open Google Chrome" :: "Wait for Chrome to load (3 seconds)" :: more.
Proof.
  apply (X26_open_chrome_comes_first any_term no_oracle
           "open chrome and search for cats"); reflexivity.
Defined.

Lemma pieces_nonempty (sep cmd : string) :
  Forall (fun s => s <> EmptyString) (pieces sep cmd).
Proof.
  unfold pieces. induction (split sep cmd) as [|c l IH]; cbn; [constructor|].
  destruct (truthy (strip c)) eqn:E; cbn; [|exact IH].
  constructor; [|exact IH]. destruct (strip c); discriminate.
Qed.

Ltac nonempty_steps :=
  repeat first [ assumption
               | apply Forall_nil
               | apply Forall_cons; [cbn; discriminate|]
               | apply Forall_app; split ].

Lemma pattern_steps_nonempty (extract_search_term : string -> string)
    (command : string) :
  Forall (fun s => s <> EmptyString) (pattern_steps extract_search_term command).
Proof.
  unfold pattern_steps. set (cmd := normalise command).
  assert (H0 : Forall (fun s => s <> EmptyString) (open_steps cmd)).
  { unfold open_steps. destruct (_ && _); nonempty_steps. }
  assert (H1 : Forall (fun s => s <> EmptyString)
                 (fst (site_steps cmd (open_steps cmd)))).
  { unfold site_steps. destruct (visited_site cmd) as [[kw dom]|]; [|exact H0].
    destruct (negb _); cbn [fst]; nonempty_steps. }
  destruct (site_steps cmd (open_steps cmd)) as [steps direct]. cbn [fst] in H1.
  assert (H2 : Forall (fun s => s <> EmptyString)
                 (search_steps extract_search_term command cmd direct steps)).
  { unfold search_steps. destruct (negb direct && _); [|exact H1].
    destruct (negb _); nonempty_steps. }
  unfold result_steps. destruct (any_in _ cmd); [|exact H2].
  destruct (find _ _); [nonempty_steps|].
  destruct (any_in _ cmd); nonempty_steps.
Qed.

(** X27: without a plan from the language model, no step of the returned
    plan is an empty text, unless the command itself is empty. *)
Theorem X27_fallback_steps_are_not_empty (extract_search_term : string -> string)
    (o : oracle) (command : string) :
  llm_plan o command = None ->
  command <> EmptyString ->
  Forall (fun s => s <> EmptyString)
    (refactor_user_prompt extract_search_term o command).
Proof.
  intros Hl Hne. unfold refactor_user_prompt, fallback. rewrite Hl.
  pose proof (pattern_steps_nonempty extract_search_term command) as Hp.
  destruct (pattern_steps extract_search_term command) as [|s l]; [|exact Hp].
  unfold simple_split. destruct (separator (normalise command)).
  - apply pieces_nonempty.
  - repeat constructor. exact Hne.
Qed.

Lemma X27_fallback_steps_are_not_empty_witness :
  Forall (fun s => s <> EmptyString)
    (refactor_user_prompt any_term no_oracle "do this then that").
Proof.
  apply (X27_fallback_steps_are_not_empty any_term no_oracle "do this then that").
  - reflexivity.
  - discriminate.
Defined.

(** The typo table also rewrites correctly spelled words that contain one
    of its entries. *)
Example correct_spellings_are_rewritten :
  normalise "visit youtube" = "visit yoyoutube"
  /\ normalise "search google" = "search googlee"
  /\ refactor_user_prompt any_term no_oracle "visit youtube"
     = [ "Look for and click on the youtube result";
         "Wait for youtube to load (3 seconds)" ].
Proof. vm_compute. repeat split; reflexivity. Qed.

End DecomposerMore.

Module OllamaMore.
Import Py OllamaDefs.

Lemma retry_loop_requests (b : backend) (timeout : Z) (original : string) :
  forall remaining current sent,
    exists more,
      snd (retry_loop b timeout original remaining current sent) = sent ++ more
      /\ (List.length more <= remaining + 1)%nat
      /\ Forall (fun r => snd r = timeout) more
      /\ (remaining <> O -> exists rest, more = (current, timeout) :: rest)
      /\ (forall status body,
             fst (retry_loop b timeout original remaining current sent)
             = Responded status body ->
             exists r rest,
               more = rest ++ [r]
               /\ post b (List.length (sent ++ rest)) r = Answer status body).
Proof.
  induction remaining as [|rem IH]; intros current sent; cbn [retry_loop].
  - exists []. rewrite app_nil_r. cbn [fst snd].
    split; [reflexivity|]. split; [cbn; lia|]. split; [constructor|].
    split; [congruence | discriminate].
  - destruct (post b (List.length sent) (current, timeout)) as [| |st body] eqn:Hp.
    + destruct rem as [|rem'].
      * destruct (post b (List.length (sent ++ [(current, timeout)]))
                    (simplified_prompt original, timeout))
          as [| |st2 body2] eqn:Hp2; cbn [fst snd];
          exists [(current, timeout); (simplified_prompt original, timeout)];
          (split; [rewrite <- app_assoc; reflexivity|]);
          (split; [cbn; lia|]);
          (split; [repeat constructor|]);
          (split; [intros _; eexists; reflexivity|]);
          intros status body' H; try discriminate.
        injection H as <- <-.
        exists (simplified_prompt original, timeout), [(current, timeout)].
        split; [reflexivity | exact Hp2].
      * destruct (IH (if 1000 <? len current
                      then reduced_prompt original
                             (Z.of_nat (max_retries - S rem'))
                      else current) (sent ++ [(current, timeout)]))
          as [more [H1 [H2 [H3 [H4 H5]]]]].
        exists ((current, timeout) :: more).
        split; [rewrite H1, <- app_assoc; reflexivity|].
        split; [cbn [List.length]; lia|].
        split; [constructor; [reflexivity | exact H3]|].
        split; [intros _; eexists; reflexivity|].
        intros status body' H. destruct (H5 status body' H) as [r [rest [-> Hr]]].
        exists r, ((current, timeout) :: rest). split; [reflexivity|].
        rewrite <- Hr. f_equal. f_equal. rewrite <- app_assoc. reflexivity.
    + exists [(current, timeout)]. cbn [fst snd].
      split; [reflexivity|]. split; [cbn; lia|].
      split; [repeat constructor|]. split; [intros _; eexists; reflexivity|].
      discriminate.
    + exists [(current, timeout)]. cbn [fst snd].
      split; [reflexivity|]. split; [cbn; lia|].
      split; [repeat constructor|]. split; [intros _; eexists; reflexivity|].
      intros status body' [= <- <-].
      exists (current, timeout), []. split; [reflexivity|].
      rewrite app_nil_r. exact Hp.
Qed.

(** The prompts of the requests: the current one, a reduction of the
    original to a half or to a quarter, or the simplified one; nothing but
    the current and the simplified one when the current prompt has at most
    1000 characters. *)
Lemma retry_loop_prompts (b : backend) (timeout : Z) (original : string) :
  forall remaining current sent,
    (remaining <= max_retries)%nat ->
    exists more,
      snd (retry_loop b timeout original remaining current sent) = sent ++ more
      /\ Forall (fun r => fst r = current
                          \/ fst r = reduced_prompt original 1
                          \/ fst r = reduced_prompt original 2
                          \/ fst r = simplified_prompt original) more
      /\ (len current <= 1000 ->
          Forall (fun r => fst r = current
                           \/ fst r = simplified_prompt original) more).
Proof.
  induction remaining as [|rem IH]; intros current sent Hle; cbn [retry_loop].
  - exists []. rewrite app_nil_r. cbn [fst snd].
    split; [reflexivity|]. split; [constructor | intros _; constructor].
  - destruct (post b (List.length sent) (current, timeout)) as [| |st body] eqn:Hp.
    + destruct rem as [|rem'].
      * exists [(current, timeout); (simplified_prompt original, timeout)].
        split.
        { destruct (post b _ (simplified_prompt original, timeout));
            cbn [fst snd]; rewrite <- app_assoc; reflexivity. }
        split; [|intros _]; repeat first [apply Forall_nil | apply Forall_cons]; cbn [fst]; auto.
      * assert (Hk : Z.of_nat (max_retries - S rem') = 1
                     \/ Z.of_nat (max_retries - S rem') = 2).
        { unfold max_retries in *. lia. }
        destruct (IH (if 1000 <? len current
                      then reduced_prompt original
                             (Z.of_nat (max_retries - S rem'))
                      else current) (sent ++ [(current, timeout)]))
          as [more [H1 [H2 H3]]]; [lia|].
        exists ((current, timeout) :: more).
        split; [rewrite H1, <- app_assoc; reflexivity|].
        split.
        { constructor; [left; reflexivity|].
          eapply Forall_impl; [|exact H2]. intros r Hr.
          destruct Hr as [Hr|Hr]; [|right; exact Hr].
          rewrite Hr. destruct (1000 <? len current); [|left; reflexivity].
          destruct Hk as [-> | ->]; auto. }
        intros Hshort. constructor; [left; reflexivity|].
        assert (Hcur : (1000 <? len current) = false)
          by (apply Z.ltb_ge; exact Hshort).
        rewrite Hcur in H3. exact (H3 Hshort).
    + exists [(current, timeout)]. cbn [fst snd].
      split; [reflexivity|]. split; [|intros _]; repeat first [apply Forall_nil | apply Forall_cons]; cbn [fst]; auto.
    + exists [(current, timeout)]. cbn [fst snd].
      split; [reflexivity|]. split; [|intros _]; repeat first [apply Forall_nil | apply Forall_cons]; cbn [fst]; auto.
Qed.

(** X30: a call of [generate_text] makes at most [max_retries + 1] = 4
    requests, and none when the model is not available; when it makes
    any, the first carries the full prompt, and all carry one timeout (the
    one given, else the one chosen by the length of the prompt); each
    request carries the prompt, its reduction to a half or to a quarter, or
    the simplified prompt, and a prompt of at most 1000 characters is
    never reduced; it
    reports success only if its last request was answered with status 200
    and a body, whose text it returns; and the "used_simplified_prompt"
    entry of a successful response is False whichever prompt was
    answered. *)
Theorem X30_requests_are_bounded (b : backend) (prompt : string)
    (timeout : option Z) :
  let r := generate_text b prompt timeout in
  (List.length (snd r) <= 4)%nat
  /\ (model_available b = false -> snd r = [])
  /\ Forall (fun q => snd q = adaptive_timeout timeout prompt) (snd r)
  /\ (model_available b = true ->
      exists rest, snd r = (prompt, adaptive_timeout timeout prompt) :: rest)
  /\ Forall (fun q => fst q = prompt
                      \/ fst q = reduced_prompt prompt 1
                      \/ fst q = reduced_prompt prompt 2
                      \/ fst q = simplified_prompt prompt) (snd r)
  /\ (len prompt <= 1000 ->
      Forall (fun q => fst q = prompt \/ fst q = simplified_prompt prompt)
        (snd r))
  /\ (success (fst r) = true ->
      used_simplified_prompt (fst r) = Some false
      /\ exists q rest text,
           snd r = rest ++ [q]
           /\ post b (List.length rest) q = Answer 200 (Some text)
           /\ content (fst r) = text).
Proof.
  cbv zeta. unfold generate_text.
  destruct (model_available b); cbn [negb].
  2:{ cbn [fst snd failure success].
      split; [cbn; lia|]. split; [reflexivity|]. split; [constructor|].
      split; [discriminate|]. split; [constructor|].
      split; [intros _; constructor | discriminate]. }
  destruct (retry_loop_requests b (adaptive_timeout timeout prompt) prompt
              max_retries prompt []) as [more [H1 [H2 [H3 [H4 H5]]]]].
  destruct (retry_loop_prompts b (adaptive_timeout timeout prompt) prompt
              max_retries prompt [] (le_n _)) as [more' [P1 [P2 P3]]].
  cbn [List.app] in H1, H5, P1. rewrite H1 in P1. subst more'.
  destruct (retry_loop b (adaptive_timeout timeout prompt) prompt max_retries
              prompt []) as [e sent] eqn:Hr.
  cbn [fst snd] in H1, H5. subst sent.
  assert (Hhead : exists rest,
             more = (prompt, adaptive_timeout timeout prompt) :: rest).
  { apply H4. discriminate. }
  assert (Hlen : (List.length more <= 4)%nat).
  { unfold max_retries in H2. lia. }
  assert (Hfail :
    (List.length (snd (failure, more)) <= 4)%nat
    /\ (true = false -> snd (failure, more) = [])
    /\ Forall (fun q => snd q = adaptive_timeout timeout prompt)
         (snd (failure, more))
    /\ (true = true ->
        exists rest,
          snd (failure, more)
          = (prompt, adaptive_timeout timeout prompt) :: rest)
    /\ Forall (fun q => fst q = prompt
                        \/ fst q = reduced_prompt prompt 1
                        \/ fst q = reduced_prompt prompt 2
                        \/ fst q = simplified_prompt prompt)
         (snd (failure, more))
    /\ (len prompt <= 1000 ->
        Forall (fun q => fst q = prompt \/ fst q = simplified_prompt prompt)
          (snd (failure, more)))
    /\ (success (fst (failure, more)) = true ->
        used_simplified_prompt (fst (failure, more)) = Some false
        /\ exists q rest text,
             snd (failure, more) = rest ++ [q]
             /\ post b (List.length rest) q = Answer 200 (Some text)
             /\ content (fst (failure, more)) = text)).
  { cbn [fst snd failure success].
    split; [exact Hlen|]. split; [discriminate|]. split; [exact H3|].
    split; [intros _; exact Hhead|]. split; [exact P2|].
    split; [exact P3 | discriminate]. }
  destruct e as [status body|]; [|exact Hfail].
  destruct (status =? 200) eqn:Hs; [|exact Hfail].
  apply Z.eqb_eq in Hs. subst status.
  destruct body as [text|]; [|exact Hfail].
  cbn [fst snd used_simplified_prompt content success].
  split; [exact Hlen|]. split; [discriminate|]. split; [exact H3|].
  split; [intros _; exact Hhead|]. split; [exact P2|]. split; [exact P3|].
  intros _. rewrite String.eqb_refl. split; [reflexivity|].
  destruct (H5 200 (Some text) eq_refl) as [q [rest [-> Hq]]].
  exists q, rest, text. auto.
Qed.

(** Four timeouts: four requests, the last one with the simplified prompt. *)
Example four_timeouts_four_requests :
  snd (generate_text always_times_out "USER COMMAND: open chrome" None)
  = [ ("USER COMMAND: open chrome", 60);
      ("USER COMMAND: open chrome", 60);
      ("USER COMMAND: open chrome", 60);
      (simplified_prompt "USER COMMAND: open chrome", 60) ].
Proof. vm_compute. reflexivity. Qed.

(** The simplified prompt is answered, and the flag is still False. *)
Example simplified_answer_is_not_flagged :
  fst (generate_text answers_the_fourth "USER COMMAND: open chrome" None)
  = mkResponse "1. open chrome" true (Some false).
Proof. vm_compute. reflexivity. Qed.

End OllamaMore.
